(** * UMA negotiation engine: settlement options, currency conversion,
      payment nonces and invoice dispatch

    A shallow embedding of the JavaScript service [UmaService]
    (buildSettlementOptions, buildCurrencies, generateLookupResponse,
    generatePayResponse, generateLightningInvoice), of [UserService]
    (getUserByUsernameAndDomain, getUserAddresses, getFormattedAddresses) and
    of the Fastify handler of [GET /.well-known/lnurlp/:username].

    Conventions of the embedding:
    - a JavaScript string is a [string]; [undefined] and [null] are [None];
    - a JavaScript number that holds an amount, a multiplier or a timestamp
      is an integer [Z] (the spec types them as integers); BigInt is [Z];
    - a thrown exception is a value of [Exn]; an [async] method is a
      computation of the monad [M] over the state of the record store;
    - a JavaScript object used as a dictionary with a fixed key set
      (CHAIN_MAPPING, CURRENCIES, the result of calculateMultipliers) is a
      [gmap] of its own properties; a lookup by a name taken from the data
      also finds what the object inherits from [Object.prototype], which
      [getProperty] tells apart; an object whose key order is observed
      through [Object.entries] is an association list in insertion order. *)

From Stdlib Require Import ZArith String Ascii List Lia.
From stdpp Require Import base option list strings gmap pretty.

Open Scope Z_scope.
Open Scope string_scope.
Open Scope list_scope.

(** ** JavaScript built-ins *)

Module JS.

(** Truthiness of an optional string: [undefined], [null] and the empty
    string are falsy. *)
Definition truthy (o : option string) : bool :=
  match o with
  | Some s => negb (String.eqb s "")
  | None => false
  end.

(** [a || b] on strings. *)
Definition or_else (o : option string) (d : string) : string :=
  match o with
  | Some s => if String.eqb s "" then d else s
  | None => d
  end.

Definition lower_ascii (c : ascii) : ascii :=
  let n := nat_of_ascii c in
  if (Nat.leb 65 n && Nat.leb n 90)%bool then ascii_of_nat (n + 32) else c.

Definition upper_ascii (c : ascii) : ascii :=
  let n := nat_of_ascii c in
  if (Nat.leb 97 n && Nat.leb n 122)%bool then ascii_of_nat (n - 32) else c.

Fixpoint map_string (f : ascii -> ascii) (s : string) : string :=
  match s with
  | EmptyString => EmptyString
  | String c r => String (f c) (map_string f r)
  end.

(** [String.prototype.toLowerCase] and [toUpperCase] on ASCII text. *)
Definition toLowerCase : string -> string := map_string lower_ascii.
Definition toUpperCase : string -> string := map_string upper_ascii.

(** [hay.includes(needle)]. *)
Definition includes (needle hay : string) : bool :=
  match String.index 0 needle hay with
  | Some _ => true
  | None => false
  end.

(** [s.startsWith(p)] and [s.slice(n)]. *)
Definition startsWith (p s : string) : bool := String.prefix p s.
Definition slice (n : nat) (s : string) : string :=
  String.substring n (String.length s - n) s.

(** [BigInt.prototype.toString] and [Number.prototype.toString] on an
    integer: the decimal numeral. *)
Definition toString (z : Z) : string := pretty z.

End JS.

(** ** More JavaScript built-ins *)

Module JSx.

(** White space of [String.prototype.trim], on ASCII text: the space and
    the control characters from tab to carriage return. *)
Definition isSpace (c : ascii) : bool :=
  let n := nat_of_ascii c in
  (Nat.eqb n 32 || (Nat.leb 9 n && Nat.leb n 13))%bool.

Fixpoint trimStart (s : string) : string :=
  match s with
  | EmptyString => EmptyString
  | String c r => if isSpace c then trimStart r else s
  end.

Fixpoint trimEnd (s : string) : string :=
  match s with
  | EmptyString => EmptyString
  | String c r =>
      match trimEnd r with
      | EmptyString => if isSpace c then EmptyString else String c EmptyString
      | t => String c t
      end
  end.

Definition trim (s : string) : string := trimEnd (trimStart s).

Fixpoint every (p : ascii -> bool) (s : string) : bool :=
  match s with
  | EmptyString => true
  | String c r => (p c && every p r)%bool
  end.

End JSx.

(** ** Exceptions *)

Inductive Exn : Type :=
| Error (message : string)
| TypeError (message : string)
| RangeError (message : string).

Definition message (e : Exn) : string :=
  match e with
  | Error m | TypeError m | RangeError m => m
  end.

(** The three domain errors that generatePayResponse throws. *)
Definition DUPLICATE_NONCE : Exn := Error "DUPLICATE_NONCE".

Definition AddressNotFound (settlementLayer : string) : Exn :=
  Error ("Address not found for settlement layer: " +:+ settlementLayer).

Definition MissingSettlementIdentity : Exn :=
  Error "Lightning payments require a Spark public key to be configured for this user".

(** ** The record store *)

Definition ObjectId := Z.

Record User := {
  u_id : option ObjectId;             (* _id *)
  username : string;
  domain_id : ObjectId;
  display_name : option string;
  spark_public_key : option string
}.

Record ChainAddress := {
  ca_user_id : ObjectId;              (* user_id *)
  chain_name : string;
  address : string;
  is_active : bool
}.

Record PaymentRequest := {
  pr_id : ObjectId;                   (* _id *)
  pr_user_id : ObjectId;              (* user_id *)
  pr_nonce : string;                  (* nonce *)
  amount_msats : Z;
  pr_currency : option string;        (* currency *)
  settlement_layer : option string;
  asset_identifier : option string;
  invoice : string
}.

Record CurrencySettings := {
  active : bool;
  cs_minSendable : Z;                 (* minSendable *)
  cs_maxSendable : Z                  (* maxSendable *)
}.

Record Domain := {
  d_id : ObjectId;                    (* _id *)
  domain : string;
  is_default : bool;
  currency_settings : option (list (string * CurrencySettings))
}.

(** Parameters of [wallet.createLightningInvoice]. *)
Record InvoiceParams := {
  amountSats : Z;
  memo : string;
  includeSparkAddress : bool;
  receiverIdentityPubkey : option string
}.

(** The collections of the database, and the invoices minted so far by the
    Spark wallet. *)
Record World := {
  users : list User;
  chain_addresses : list ChainAddress;
  payment_requests : list PaymentRequest;
  domains : list Domain;
  invoices : list (InvoiceParams * string)
}.

(** ** The monad of async methods: state of the store, and exceptions *)

Definition M (A : Type) : Type := World -> (Exn + A) * World.

Definition ret {A} (a : A) : M A := fun w => (inr a, w).
Definition throw {A} (e : Exn) : M A := fun w => (inl e, w).
Definition bind {A B} (m : M A) (k : A -> M B) : M B :=
  fun w =>
    match m w with
    | (inl e, w') => (inl e, w')
    | (inr a, w') => k a w'
    end.
Definition get : M World := fun w => (inr w, w).
Definition put (w' : World) : M unit := fun _ => (inr tt, w').

Notation "'let*' x ':=' m 'in' k" := (bind m (fun x => k))
  (at level 10, x name, m at level 100, k at level 200).

(** ** UserService *)

(** [db.collection('users').findOne({ username, domain_id })]. *)
Definition findUser (w : World) (name : string) (domainId : ObjectId)
  : option User :=
  List.find
    (fun u => (String.eqb (username u) name && Z.eqb (domain_id u) domainId)%bool)
    (users w).

Definition getUserByUsernameAndDomain (name : string) (domainId : ObjectId)
  : M (option User) :=
  let* w := get in
  ret (findUser w name domainId).

(** [db.collection('chain_addresses').find({ user_id, is_active: true })]. *)
Definition activeAddresses (w : World) (userId : ObjectId) : list ChainAddress :=
  List.filter
    (fun a => (Z.eqb (ca_user_id a) userId && is_active a)%bool)
    (chain_addresses w).

Definition getUserAddresses (userId : ObjectId) : M (list ChainAddress) :=
  let* w := get in
  ret (activeAddresses w userId).

(** A value of the [chains] object handed to buildSettlementOptions: either
    a plain address string, or the record [{ address, chainId? }] that
    getFormattedAddresses builds. *)
Inductive ChainData : Type :=
| ChainString (s : string)
| ChainObject (addr : string) (chainId : option Z).

(** Chain ids of the EVM chains ([this.chainIdMap]). *)
Definition chainIdMap : gmap string Z :=
  <["ethereum" := 1]> (<["polygon" := 137]> (<["arbitrum" := 42161]>
  (<["optimism" := 10]> (<["base" := 8453]> ∅)))).

(** [obj[k] = v] on an object whose entries are listed in insertion order:
    an existing key keeps its place. *)
Fixpoint obj_set {V} (o : list (string * V)) (k : string) (v : V)
  : list (string * V) :=
  match o with
  | [] => [(k, v)]
  | (k', v') :: r =>
      if String.eqb k' k then (k, v) :: r else (k', v') :: obj_set r k v
  end.

(** [obj[k]]. *)
Fixpoint obj_get {V} (o : list (string * V)) (k : string) : option V :=
  match o with
  | [] => None
  | (k', v') :: r => if String.eqb k' k then Some v' else obj_get r k
  end.

(** One turn of the loop of getFormattedAddresses:
    [formatted[addr.chain_name] = { address, ...(chainId && { chainId }) }]. *)
Definition formatStep (formatted : list (string * ChainData)) (a : ChainAddress)
  : list (string * ChainData) :=
  obj_set formatted (chain_name a)
    (ChainObject (address a)
       (match chainIdMap !! chain_name a with
        | Some c => if Z.eqb c 0 then None else Some c
        | None => None
        end)).

Definition formatAddresses (addresses : list ChainAddress)
  : list (string * ChainData) :=
  fold_left formatStep addresses [].

Definition getFormattedAddresses (userId : ObjectId)
  : M (list (string * ChainData)) :=
  let* addresses := getUserAddresses userId in
  ret (formatAddresses addresses).

(** ** PaymentService *)

(** Modelled from the spec: the JavaScript payments service (./payments) is
    not among the sources. The record store exposes get and insert for
    payment requests with a uniqueness constraint on the nonce, as the
    TypeScript PaymentService and the schema have it
    ([SELECT * FROM payment_requests WHERE nonce = ?], [nonce TEXT UNIQUE]).
    This is the lookup by nonce. *)
Definition findPayment (w : World) (nonce : string) : option PaymentRequest :=
  List.find (fun p => String.eqb (pr_nonce p) nonce) (payment_requests w).

(** Modelled from the spec: [paymentService.getPaymentRequestByNonce] of the
    absent payments service; generatePayResponse reads its result as a truth
    value. *)
Definition getPaymentRequestByNonce (nonce : string) : M (option PaymentRequest) :=
  let* w := get in
  ret (findPayment w nonce).

(** Modelled from the spec: [paymentService.createPaymentRequest] of the
    absent payments service; generatePayResponse reads its result as the id
    of the inserted record, or [null] when the uniqueness constraint on the
    nonce refused the insertion. *)
Definition createPaymentRequest (userId : ObjectId) (nonce : string)
  (amountMsats : Z) (currency settlementLayer assetIdentifier : option string)
  (paymentRequest : string) : M (option ObjectId) :=
  let* w := get in
  match findPayment w nonce with
  | Some _ => ret None
  | None =>
      let id := Z.of_nat (length (payment_requests w)) in
      let record :=
        {| pr_id := id; pr_user_id := userId; pr_nonce := nonce;
           amount_msats := amountMsats; pr_currency := currency;
           settlement_layer := settlementLayer;
           asset_identifier := assetIdentifier;
           invoice := paymentRequest |} in
      let* _ := put {| users := users w;
                       chain_addresses := chain_addresses w;
                       payment_requests := payment_requests w ++ [record];
                       domains := domains w;
                       invoices := invoices w |} in
      ret (Some id)
  end.

(** ** DomainService *)

(** Modelled from the spec: the domains service (./domains) is not among the
    sources; a tenant corresponds to a served host name and is looked up by
    it. *)
Definition findDomain (w : World) (name : string) : option Domain :=
  List.find (fun d => String.eqb (domain d) name) (domains w).

(** Modelled from the spec: [domainService.getDomainByName] of the absent
    domains service. *)
Definition getDomainByName (name : string) : M (option Domain) :=
  let* w := get in
  ret (findDomain w name).

(** ** External collaborators *)

(** The Spark wallet: [createLightningInvoice] returns the encoded invoice
    or throws. *)
Definition SparkWallet := InvoiceParams -> Exn + string.

(** What the external collaborators answer during one request: the outcome
    of initializeSparkWallet (the shared wallet, or the exception of a
    failed initialization), the market-rate function
    [marketRates.calculateMultipliers(asset, currencies)], the clock
    [Date.now()] and the six characters
    [Math.random().toString(36).substring(2, 8)]. *)
Record Ext := {
  sparkWallet : Exn + SparkWallet;
  calculateMultipliers : string -> list string -> gmap string Z;
  Date_now : Z;
  Math_random36 : string
}.

(** ** The HTTP boundary *)

Record Request := {
  params_username : string;           (* req.params.username *)
  hostname : string;                  (* req.hostname *)
  q_amount : option string;           (* req.query.amount *)
  q_nonce : option string;            (* req.query.nonce *)
  q_currency : option string;         (* req.query.currency *)
  q_settlementLayer : option string;  (* req.query.settlementLayer *)
  q_assetIdentifier : option string   (* req.query.assetIdentifier *)
}.

(** ** UmaService *)

Record ChainMapping := { layer : string; asset : string }.

Record CurrencyConfig := {
  cfg_code : string;                  (* code *)
  cfg_name : string;                  (* name *)
  cfg_symbol : string;                (* symbol *)
  cfg_decimals : Z                    (* decimals *)
}.

Record Asset := {
  identifier : ChainData;
  multipliers : gmap string Z
}.

Record SettlementOption := {
  settlementLayer : string;
  assets : list Asset
}.

Record Currency := {
  code : string;
  name : string;
  symbol : string;
  decimals : Z;
  convertible_min : Z;                (* convertible.min *)
  convertible_max : Z;                (* convertible.max *)
  multiplier : Z
}.

Record LookupResponse := {
  tag : string;
  callback : string;
  minSendable : Z;
  maxSendable : Z;
  metadata : list (string * string);  (* the array given to JSON.stringify *)
  commentAllowed : Z;
  currencies : list Currency;
  payerData : list (string * bool);   (* field, mandatory *)
  umaVersion : string;
  settlementOptions : option (list SettlementOption)
}.

Record SettlementInfo := {
  si_layer : string;                  (* layer *)
  assetIdentifier : string
}.

Record Converted := {
  amount : string;
  currencyCode : string;
  cv_decimals : option Z;             (* decimals *)
  cv_multiplier : Z;                  (* multiplier *)
  fee : Z
}.

Record PayResponse := {
  pr : string;
  routes : list unit;
  settlement : option SettlementInfo;
  converted : Converted;
  disposable : bool;
  successAction : string * string     (* tag, message *)
}.

Inductive Body : Type :=
| ErrorBody (reason : string)         (* { status: 'ERROR', reason } *)
| LookupBody (r : LookupResponse)
| PayBody (r : PayResponse).

Record Reply := { status : Z; body : Body }.

(** [BigInt(n)] of a number that may be [undefined]. *)
Definition BigInt (n : option Z) : Exn + Z :=
  match n with
  | Some z => inr z
  | None => inl (TypeError "Cannot convert undefined to a BigInt")
  end.

(** [a / b] on BigInt: the quotient rounded towards zero. *)
Definition BigInt_div (a b : Z) : Exn + Z :=
  if Z.eqb b 0 then inl (RangeError "Division by zero") else inr (Z.quot a b).

Definition receiverFees : Z := 0.

(** [BigInt(amountMsats - receiverFees) / BigInt(multiplier)]. *)
Definition amountInCurrencyUnits (amountMsats : Z) (multiplier : option Z)
  : Exn + Z :=
  match BigInt (Some (amountMsats - receiverFees)) with
  | inl e => inl e
  | inr a =>
      match BigInt multiplier with
      | inl e => inl e
      | inr m => BigInt_div a m
      end
  end.

(** ** Objects read as maps *)

(** The names that every object inherits from [Object.prototype]. A map of
    this development holds the own properties of the object it stands for; a
    lookup [o[k]] by one of these names, when the object has no own property
    of that name, finds the inherited property instead. *)
Definition objectPrototypeNames : list string :=
  [ "constructor"; "__proto__"; "hasOwnProperty"; "isPrototypeOf";
    "propertyIsEnumerable"; "toLocaleString"; "toString"; "valueOf";
    "__defineGetter__"; "__defineSetter__"; "__lookupGetter__";
    "__lookupSetter__" ].

Definition ownName (k : string) : bool :=
  negb (existsb (String.eqb k) objectPrototypeNames).

(** What [o[k]] finds on a plain object [o]: an own property, a property of
    [Object.prototype] (a built-in function, or the prototype itself for
    "__proto__": a truthy value without the fields of the entries of [o]),
    or [undefined]. *)
Inductive Property (V : Type) : Type :=
| Own (v : V)
| Inherited
| Undefined.

Arguments Own {V} v.
Arguments Inherited {V}.
Arguments Undefined {V}.

Definition getProperty {V} (o : gmap string V) (k : string) : Property V :=
  match o !! k with
  | Some v => Own v
  | None => if ownName k then Undefined else Inherited
  end.

(** A settlement layer that is given and is neither 'ln' nor 'spark'. *)
Definition nonLightning (settlementLayer : option string) : bool :=
  match settlementLayer with
  | Some l =>
      (negb (String.eqb l "") && negb (String.eqb l "ln")
       && negb (String.eqb l "spark"))%bool
  | None => false
  end.

Section UmaService.

(** config/chain-mapping and config/currencies, plain objects like the
    table that buildSettlementOptions carried inline before, and the
    environment variables BASE_URL and NODE_ENV. *)
Variable CHAIN_MAPPING : gmap string ChainMapping.
Variable CURRENCIES : gmap string CurrencyConfig.
Variable BASE_URL : option string.
Variable NODE_ENV : option string.

Variable ext : Ext.

(** buildSettlementOptions. [CHAIN_MAPPING[chainName.toLowerCase()]] is
    [undefined] for an unknown chain, which the loop skips. For a name that
    [Object.prototype] defines it is the inherited property: the guard
    [!mapping] does not fire, [layer] and [asset] are [undefined], [layer]
    is not 'spark', and [layer.toUpperCase()] throws. *)
Fixpoint buildSettlementOptions (chains : list (string * ChainData))
  (currencies : list string) : Exn + list SettlementOption :=
  match chains with
  | [] => inr []
  | (chainName, chainData) :: rest =>
      match getProperty CHAIN_MAPPING (JS.toLowerCase chainName) with
      | Undefined => buildSettlementOptions rest currencies
      | Inherited =>
          inl (TypeError
                 "Cannot read properties of undefined (reading 'toUpperCase')")
      | Own mapping =>
          let identifier :=
            if String.eqb (layer mapping) "spark"
            then match chainData with
                 | ChainObject a _ =>
                     if String.eqb a "" then chainData else ChainString a
                 | ChainString _ => chainData
                 end
            else ChainString
                   (asset mapping +:+ "_" +:+ JS.toUpperCase (layer mapping)) in
          let multipliers :=
            calculateMultipliers ext (asset mapping) currencies in
          match buildSettlementOptions rest currencies with
          | inl e => inl e
          | inr settlementOptions =>
              inr ({| settlementLayer := layer mapping;
                      assets := [ {| identifier := identifier;
                                     multipliers := multipliers |} ] |}
                   :: settlementOptions)
          end
      end
  end.

(** The loop of buildCurrencies, for currency codes that [Object.prototype]
    does not define: for the others [CURRENCIES[code]] and
    [multipliers[code]] are inherited properties, and what the loop then
    pushes depends on the market-rates module, which is not among the
    sources; every statement about the loop is made for own names. *)
Fixpoint buildCurrenciesLoop (entries : list (string * CurrencySettings))
  : list Currency :=
  match entries with
  | [] => []
  | (code, settings) :: rest =>
      if negb (active settings) then buildCurrenciesLoop rest else
      match CURRENCIES !! code with
      | None => buildCurrenciesLoop rest
      | Some baseConfig =>
          match calculateMultipliers ext "BTC" [code] !! code with
          | None => buildCurrenciesLoop rest
          | Some multiplier =>
              if Z.eqb multiplier 0 then buildCurrenciesLoop rest else
              {| code := cfg_code baseConfig;
                 name := cfg_name baseConfig;
                 symbol := cfg_symbol baseConfig;
                 decimals := cfg_decimals baseConfig;
                 convertible_min := cs_minSendable settings;
                 convertible_max := cs_maxSendable settings;
                 multiplier := multiplier |}
              :: buildCurrenciesLoop rest
          end
      end
  end.

Definition buildCurrencies
  (currencySettings : option (list (string * CurrencySettings)))
  : list Currency :=
  match currencySettings with
  | None => []
  | Some entries => buildCurrenciesLoop entries
  end.

Definition getBaseUrlForDomain (d : Domain) : string :=
  if (is_default d && JS.truthy BASE_URL)%bool
  then JS.or_else BASE_URL ""
  else
    let protocol :=
      match NODE_ENV with
      | Some e => if String.eqb e "production" then "https" else "http"
      | None => "http"
      end in
    protocol +:+ "://" +:+ domain d.

Definition generateLookupResponse (name : string) (d : Domain)
  : M (option LookupResponse) :=
  let* user := getUserByUsernameAndDomain name (d_id d) in
  match user with
  | None => ret None
  | Some user =>
      let* chains :=
        match u_id user with
        | Some uid => getFormattedAddresses uid
        | None => ret []
        end in
      let activeCurrencyCodes :=
        map fst
          (List.filter (fun e => active (snd e))
             (match currency_settings d with Some s => s | None => [] end)) in
      match buildSettlementOptions chains activeCurrencyCodes with
      | inl error => throw error
      | inr settlementOptions =>
      let currencies := buildCurrencies (currency_settings d) in
      match currency_settings d with
      | None =>
          throw (TypeError "Cannot read properties of undefined (reading 'BTC')")
      | Some settings =>
          let baseUrl := getBaseUrlForDomain d in
          match obj_get settings "BTC" with
          | None =>
              throw (TypeError
                       "Cannot read properties of undefined (reading 'minSendable')")
          | Some btcSettings =>
              ret (Some
                {| tag := "payRequest";
                   callback := baseUrl +:+ "/.well-known/lnurlp/" +:+ name;
                   minSendable := cs_minSendable btcSettings;
                   maxSendable := cs_maxSendable btcSettings;
                   metadata :=
                     [ ("text/plain",
                        "Pay to " +:+ JS.or_else (display_name user) name);
                       ("text/identifier", name +:+ "@" +:+ domain d) ];
                   commentAllowed := 255;
                   currencies := currencies;
                   payerData :=
                     [ ("name", false); ("email", false);
                       ("identifier", false); ("compliance", false) ];
                   umaVersion := "1.0";
                   settlementOptions :=
                     match settlementOptions with
                     | [] => None
                     | _ :: _ => Some settlementOptions
                     end |})
          end
      end
      end
  end.

Definition generateLightningInvoice (amountMsats : Z) (description : string)
  (receiverSparkPubkey : option string) : M string :=
  let receiverSparkPubkey :=
    match receiverSparkPubkey with
    | Some k =>
        if (negb (String.eqb k "") && JS.startsWith "0x" k)%bool
        then Some (JS.slice 2 k) else Some k
    | None => None
    end in
  match sparkWallet ext with
  | inl error => throw error
  | inr wallet =>
      let params :=
        {| amountSats := amountMsats;
           memo := "Payment to " +:+ description;
           includeSparkAddress := true;
           receiverIdentityPubkey :=
             if JS.truthy receiverSparkPubkey then receiverSparkPubkey
             else None |} in
      match wallet params with
      | inl error => throw error
      | inr encodedInvoice =>
          let* w := get in
          let* _ := put {| users := users w;
                           chain_addresses := chain_addresses w;
                           payment_requests := payment_requests w;
                           domains := domains w;
                           invoices := invoices w ++ [(params, encodedInvoice)] |} in
          ret encodedInvoice
      end
  end.

Definition generatePayResponse (name : string) (d : Domain) (amountMsats : Z)
  (nonce : string) (currency settlementLayer assetIdentifier : option string)
  : M (option PayResponse) :=
  let* user := getUserByUsernameAndDomain name (d_id d) in
  match user with
  | None => ret None
  | Some user =>
  match u_id user with
  | None => ret None
  | Some uid =>
      let* userAddresses := getUserAddresses uid in
      let* existingPayment := getPaymentRequestByNonce nonce in
      match existingPayment with
      | Some _ => throw DUPLICATE_NONCE
      | None =>
          let* paymentRequest :=
            if nonLightning settlementLayer then
              let l := JS.or_else settlementLayer "" in
              match List.find
                      (fun a => String.eqb (JS.toLowerCase (chain_name a))
                                  (JS.toLowerCase l))
                      userAddresses with
              | None => throw (AddressNotFound l)
              | Some selectedAddress => ret (address selectedAddress)
              end
            else if negb (JS.truthy (spark_public_key user)) then
              throw MissingSettlementIdentity
            else
              generateLightningInvoice amountMsats name (spark_public_key user) in
          let* paymentId :=
            createPaymentRequest uid nonce amountMsats currency
              settlementLayer assetIdentifier paymentRequest in
          match paymentId with
          | None => throw DUPLICATE_NONCE
          | Some _ =>
              let settlementInfo :=
                if (JS.truthy settlementLayer && JS.truthy assetIdentifier)%bool
                then Some {| si_layer := JS.or_else settlementLayer "";
                             assetIdentifier := JS.or_else assetIdentifier "" |}
                else None in
              let currencyCode := JS.or_else currency "USD" in
              let decimals := cfg_decimals <$> CURRENCIES !! currencyCode in
              let asset := if nonLightning settlementLayer then "USDT" else "BTC" in
              let multipliers := calculateMultipliers ext asset [currencyCode] in
              let multiplier := multipliers !! currencyCode in
              match amountInCurrencyUnits amountMsats multiplier with
              | inl error => throw error
              | inr units =>
                  ret (Some
                    {| pr := paymentRequest;
                       routes := [];
                       settlement := settlementInfo;
                       converted :=
                         {| amount := JS.toString units;
                            currencyCode := currencyCode;
                            cv_decimals := decimals;
                            cv_multiplier :=
                              match multiplier with Some m => m | None => 0 end;
                            fee := receiverFees |};
                       disposable := false;
                       successAction :=
                         ("message",
                          "Payment received! Thank you for paying "
                          +:+ JS.or_else (display_name user) name +:+ ".") |})
              end
          end
      end
  end
  end.

(** *** GET /.well-known/lnurlp/:username *)

(** [parseInt(s, 10)]; [None] is NaN. *)
Variable parseInt : string -> option Z.

Definition errorReply (status : Z) (reason : string) : Reply :=
  {| status := status; body := ErrorBody reason |}.

(** The nonce the handler makes up when the query has none. *)
Definition generatedNonce : string :=
  "uma_" +:+ JS.toString (Date_now ext) +:+ "_" +:+ Math_random36 ext.

(** The body of the [try] block. *)
Definition lnurlpTry (req : Request) : M Reply :=
  let name := params_username req in
  if negb (JS.truthy (q_amount req)) then
    let requestDomain := JS.toLowerCase (hostname req) in
    let* d := getDomainByName requestDomain in
    match d with
    | None => ret (errorReply 404 ("Domain " +:+ requestDomain +:+ " not found"))
    | Some d =>
        let* lookupResponse := generateLookupResponse name d in
        match lookupResponse with
        | None => ret (errorReply 404 "User not found")
        | Some r => ret {| status := 200; body := LookupBody r |}
        end
    end
  else
    let paymentNonce := JS.or_else (q_nonce req) generatedNonce in
    match parseInt (JS.or_else (q_amount req) "") with
    | None => ret (errorReply 400 "Invalid amount")
    | Some amountMsats =>
        if Z.leb amountMsats 0 then ret (errorReply 400 "Invalid amount") else
        let requestDomain := JS.toLowerCase (hostname req) in
        let* d := getDomainByName requestDomain in
        match d with
        | None =>
            ret (errorReply 404 ("Domain " +:+ requestDomain +:+ " not found"))
        | Some d =>
            let* payResponse :=
              generatePayResponse name d amountMsats paymentNonce
                (q_currency req) (q_settlementLayer req)
                (q_assetIdentifier req) in
            match payResponse with
            | None => ret (errorReply 404 "User not found")
            | Some r => ret {| status := 200; body := PayBody r |}
            end
        end
    end.

(** The [catch] block. *)
Definition lnurlpCatch (error : Exn) : Reply :=
  if String.eqb (message error) "DUPLICATE_NONCE" then
    errorReply 409 "Duplicate payment request. This nonce has already been used."
  else if JS.includes "Address not found for settlement layer" (message error) then
    errorReply 400
      "Unsupported or invalid settlement layer. Check available settlement options from the lookup endpoint."
  else errorReply 500 "Internal server error".

Definition lnurlp (req : Request) (w : World) : Reply * World :=
  match lnurlpTry req w with
  | (inr reply, w') => (reply, w')
  | (inl error, w') => (lnurlpCatch error, w')
  end.

End UmaService.

(** ** A concrete configuration and a concrete store *)

(** The chain mapping, as the table that buildSettlementOptions carried
    inline before it moved to config/chain-mapping. *)
Definition chainMapping : gmap string ChainMapping :=
  <["spark" := {| layer := "spark"; asset := "BTC" |}]>
  (<["lightning" := {| layer := "ln"; asset := "BTC" |}]>
  (<["ethereum" := {| layer := "ethereum"; asset := "USDT" |}]>
  (<["polygon" := {| layer := "polygon"; asset := "USDT" |}]>
  (<["arbitrum" := {| layer := "arbitrum"; asset := "USDT" |}]>
  (<["optimism" := {| layer := "optimism"; asset := "USDT" |}]>
  (<["base" := {| layer := "base"; asset := "USDT" |}]>
  (<["solana" := {| layer := "solana"; asset := "USDT" |}]>
  (<["plasma" := {| layer := "plasma"; asset := "USDT" |}]> ∅)))))))).

Definition currenciesConfig : gmap string CurrencyConfig :=
  <["USD" := {| cfg_code := "USD"; cfg_name := "US Dollar";
                cfg_symbol := "$"; cfg_decimals := 2 |}]>
  (<["EUR" := {| cfg_code := "EUR"; cfg_name := "Euro";
                 cfg_symbol := "E"; cfg_decimals := 2 |}]>
  (<["BTC" := {| cfg_code := "BTC"; cfg_name := "Bitcoin";
                 cfg_symbol := "B"; cfg_decimals := 8 |}]> ∅)).

(** Market rates that quote USD at 1000 smallest units per cent, quote EUR
    at zero and do not know any other currency. *)
Definition sampleRates (asset : string) (currencies : list string)
  : gmap string Z :=
  list_to_map
    (List.filter (fun kv => existsb (String.eqb (fst kv)) currencies)
       [ ("USD", 1000); ("EUR", 0) ]).

(** A wallet that mints an invoice for every request, and one whose
    [createLightningInvoice] throws. *)
Definition mintingWallet : SparkWallet :=
  fun p => inr ("lnbc" +:+ JS.toString (amountSats p)).

Definition failingWallet : SparkWallet :=
  fun _ => inl (Error "Spark operator unreachable").

Definition extOk : Ext :=
  {| sparkWallet := inr mintingWallet; calculateMultipliers := sampleRates;
     Date_now := 1700000000000; Math_random36 := "k3x9qa" |}.

Definition extFailing : Ext :=
  {| sparkWallet := inr failingWallet; calculateMultipliers := sampleRates;
     Date_now := 1700000000000; Math_random36 := "k3x9qa" |}.

(** The Number nearest to a natural number, ties to even: exact up to
    2^53, and above that the 53 leading bits, rounded. *)
Definition toNumber (n : Z) : Z :=
  let bits := Z.log2 n + 1 in
  if Z.leb bits 53 then n
  else
    let e := bits - 53 in
    let q := Z.shiftr n e in
    let r := Z.land n (Z.ones e) in
    let half := Z.shiftl 1 (e - 1) in
    let q' :=
      if (Z.ltb half r || (Z.eqb r half && Z.odd q))%bool then q + 1 else q in
    Z.shiftl q' e.

(** The longest run of decimal digits at the head of a string, as a
    number; [None] when the string does not start with a digit. *)
Fixpoint digitsValue (s : string) (acc : option Z) : option Z :=
  match s with
  | EmptyString => acc
  | String c r =>
      let n := nat_of_ascii c in
      if (Nat.leb 48 n && Nat.leb n 57)%bool
      then digitsValue r
             (Some (10 * match acc with Some a => a | None => 0 end
                    + Z.of_nat (n - 48)))
      else acc
  end.

(** [parseInt(s, 10)] on ASCII text, for the examples: leading white space
    is dropped, then an optional sign, then the longest run of decimal
    digits is read and what follows is ignored; without a digit the result
    is NaN, which is [None]. The result is a Number, so it is exact up to
    2^53 and rounded above. A numeral of more than 308 digits gives
    Infinity, which [Z] does not hold; the examples stay far below. *)
Definition parseDigits (s : string) : option Z :=
  let t := JSx.trimStart s in
  let signed :=
    match t with
    | String "-" r => (-1, r)
    | String "+" r => (1, r)
    | _ => (1, t)
    end in
  match digitsValue (snd signed) None with
  | Some n => Some (fst signed * toNumber n)
  | None => None
  end.

Definition exampleDomain : Domain :=
  {| d_id := 1; domain := "example.com"; is_default := false;
     currency_settings :=
       Some [ ("BTC", {| active := true; cs_minSendable := 1000;
                         cs_maxSendable := 100000000 |});
              ("USD", {| active := true; cs_minSendable := 1;
                         cs_maxSendable := 100000 |});
              ("EUR", {| active := true; cs_minSendable := 1;
                         cs_maxSendable := 100000 |}) ] |}.

(** alice has a Spark key and the addresses of scenario A, bob has neither
    a Spark key nor a polygon address, carol has a Spark key and no address
    at all; the nonce "n0" is already recorded. *)
Definition alice : User :=
  {| u_id := Some 1; username := "alice"; domain_id := 1;
     display_name := Some "Alice"; spark_public_key := Some "02509abc" |}.

Definition bob : User :=
  {| u_id := Some 2; username := "bob"; domain_id := 1;
     display_name := None; spark_public_key := None |}.

Definition carol : User :=
  {| u_id := Some 3; username := "carol"; domain_id := 1;
     display_name := None; spark_public_key := Some "03aa" |}.

Definition exampleWorld : World :=
  {| users := [ alice; bob; carol ];
     chain_addresses :=
       [ {| ca_user_id := 1; chain_name := "ethereum"; address := "0xABC";
            is_active := true |};
         {| ca_user_id := 1; chain_name := "spark"; address := "02509abc";
            is_active := true |};
         {| ca_user_id := 1; chain_name := "polygon"; address := "0xDEF";
            is_active := true |};
         {| ca_user_id := 1; chain_name := "dogecoin"; address := "D8abc";
            is_active := true |};
         {| ca_user_id := 2; chain_name := "ethereum"; address := "0x123";
            is_active := true |} ];
     payment_requests :=
       [ {| pr_id := 0; pr_user_id := 1; pr_nonce := "n0";
            amount_msats := 5000; pr_currency := Some "USD";
            settlement_layer := None; asset_identifier := None;
            invoice := "lnbc5000" |} ];
     domains := [ exampleDomain ];
     invoices := [] |}.

Definition payRequest (name amount : string) (nonce layer asset : option string)
  : Request :=
  {| params_username := name; hostname := "Example.com";
     q_amount := Some amount; q_nonce := nonce; q_currency := None;
     q_settlementLayer := layer; q_assetIdentifier := asset |}.

Definition lookupRequest (name : string) : Request :=
  {| params_username := name; hostname := "Example.com";
     q_amount := None; q_nonce := None; q_currency := None;
     q_settlementLayer := None; q_assetIdentifier := None |}.

(** The handler and the service under the concrete configuration. *)
Definition exampleLnurlp (ext : Ext) : Request -> World -> Reply * World :=
  lnurlp chainMapping currenciesConfig None None ext parseDigits.

Definition examplePay (ext : Ext) (name : string) (amountMsats : Z)
  (nonce : string) (currency settlementLayer assetIdentifier : option string)
  : M (option PayResponse) :=
  generatePayResponse currenciesConfig ext name exampleDomain amountMsats nonce
    currency settlementLayer assetIdentifier.

(** ** Vocabulary of the statements *)

(** The same request with another [nonce] query parameter. *)
Definition withNonce (req : Request) (nonce : option string) : Request :=
  {| params_username := params_username req; hostname := hostname req;
     q_amount := q_amount req; q_nonce := nonce;
     q_currency := q_currency req;
     q_settlementLayer := q_settlementLayer req;
     q_assetIdentifier := q_assetIdentifier req |}.

(** The same store with another chain_addresses collection. *)
Definition withChainAddresses (w : World) (l : list ChainAddress) : World :=
  {| users := users w; chain_addresses := l;
     payment_requests := payment_requests w; domains := domains w;
     invoices := invoices w |}.

(** What the handler replies to the outcome of generatePayResponse. *)
Definition payReply (outcome : (Exn + option PayResponse) * World)
  : Reply * World :=
  match outcome with
  | (inr (Some r), w') => ({| status := 200; body := PayBody r |}, w')
  | (inr None, w') => (errorReply 404 "User not found", w')
  | (inl error, w') => (lnurlpCatch error, w')
  end.

(** Whether a chain name has an entry in the chain mapping. *)
Definition isMapped (CHAIN_MAPPING : gmap string ChainMapping)
  (chainName : string) : bool :=
  match CHAIN_MAPPING !! JS.toLowerCase chainName with
  | Some _ => true
  | None => false
  end.

(** The entries of a [chains] object whose chain name is mapped. *)
Definition mappedOnly (CHAIN_MAPPING : gmap string ChainMapping)
  (chains : list (string * ChainData)) : list (string * ChainData) :=
  List.filter (fun e => isMapped CHAIN_MAPPING (fst e)) chains.

(** * More of the services *)

(** ** What a phase-2 call leaves in the store *)

(** The store with one more minted invoice, and with one more payment
    request. *)
Definition withInvoice (w : World) (i : InvoiceParams * string) : World :=
  {| users := users w; chain_addresses := chain_addresses w;
     payment_requests := payment_requests w; domains := domains w;
     invoices := invoices w ++ [i] |}.

Definition withPayment (w : World) (p : PaymentRequest) : World :=
  {| users := users w; chain_addresses := chain_addresses w;
     payment_requests := payment_requests w ++ [p]; domains := domains w;
     invoices := invoices w |}.

(** The record that createPaymentRequest inserts. *)
Definition paymentRecord (w : World) (uid : ObjectId) (nonce : string) (amt : Z)
  (cur lay aid : option string) (paymentRequest : string) : PaymentRequest :=
  {| pr_id := Z.of_nat (length (payment_requests w)); pr_user_id := uid;
     pr_nonce := nonce; amount_msats := amt; pr_currency := cur;
     settlement_layer := lay; asset_identifier := aid;
     invoice := paymentRequest |}.

(** The public key that generateLightningInvoice hands to the wallet: the
    key without its 0x prefix, and no key at all when nothing is left. *)
Definition receiverKey (sparkPublicKey : option string) : option string :=
  match sparkPublicKey with
  | Some k =>
      if String.eqb k "" then None
      else if JS.startsWith "0x" k
           then (if String.eqb (JS.slice 2 k) "" then None
                 else Some (JS.slice 2 k))
           else Some k
  | None => None
  end.

(** The chain id that getFormattedAddresses attaches to an address:
    [this.chainIdMap[addr.chain_name]] when it is truthy. *)
Definition chainIdOf (chainName : string) : option Z :=
  match chainIdMap !! chainName with
  | Some c => if Z.eqb c 0 then None else Some c
  | None => None
  end.

(** The statuses that the handler of the lnurlp endpoint sends. *)
Definition lnurlpStatuses : list Z := [200; 400; 404; 409; 500].

(** ** UserService: addresses *)

(** The outcome of [updateOne] with [upsert: true] that addUserAddress
    returns, [result.upsertedId || result.modifiedCount]: the id of the
    inserted document, or the count of modified ones. *)
Inductive UpsertOutcome : Type := UpsertedId | ModifiedCount.

(** [updateOne]: the first document that matches is updated. *)
Fixpoint updateFirst {A} (p : A -> bool) (f : A -> A) (l : list A)
  : option (list A) :=
  match l with
  | [] => None
  | x :: r =>
      if p x then Some (f x :: r)
      else match updateFirst p f r with
           | Some r' => Some (x :: r')
           | None => None
           end
  end.

(** [deleteOne]: the first document that matches is removed. *)
Fixpoint deleteFirst {A} (p : A -> bool) (l : list A) : list A :=
  match l with
  | [] => []
  | x :: r => if p x then r else x :: deleteFirst p r
  end.

(** The filter [{ user_id, chain_name }]. *)
Definition addressKey (userId : ObjectId) (chainName : string)
  (a : ChainAddress) : bool :=
  (Z.eqb (ca_user_id a) userId && String.eqb (chain_name a) chainName)%bool.

Definition addUserAddress (userId : ObjectId) (chainName address : string)
  : M UpsertOutcome :=
  let* w := get in
  let chain := JS.toLowerCase chainName in
  match updateFirst (addressKey userId chain)
          (fun a => {| ca_user_id := ca_user_id a; chain_name := chain_name a;
                       address := JSx.trim address; is_active := true |})
          (chain_addresses w) with
  | Some updated =>
      let* _ := put (withChainAddresses w updated) in
      ret ModifiedCount
  | None =>
      let* _ := put (withChainAddresses w
                       (chain_addresses w
                        ++ [ {| ca_user_id := userId; chain_name := chain;
                                address := JSx.trim address;
                                is_active := true |} ])) in
      ret UpsertedId
  end.

Definition removeUserAddress (userId : ObjectId) (chainName : string) : M unit :=
  let* w := get in
  put (withChainAddresses w
         (deleteFirst (addressKey userId (JS.toLowerCase chainName))
            (chain_addresses w))).

(** [findOne({ user_id, chain_name })] on the chain_addresses collection. *)
Definition findAddress (w : World) (userId : ObjectId) (chainName : string)
  : option ChainAddress :=
  List.find (addressKey userId chainName) (chain_addresses w).

(** The constraint of the chain_addresses collection: one document for a
    user and a chain name, and chain names in lower case, as every writer
    of the service stores them. *)
Definition addressesWellFormed (w : World) : Prop :=
  NoDup (map (fun a => (ca_user_id a, chain_name a)) (chain_addresses w))
  /\ Forall (fun a => JS.toLowerCase (chain_name a) = chain_name a)
       (chain_addresses w).

(** The layer names of enrichUserWithAddresses. *)
Definition layerMap : gmap string string :=
  <["spark" := "spark"]> (<["lightning" := "ln"]>
  (<["ethereum" := "ethereum"]> (<["polygon" := "polygon"]>
  (<["arbitrum" := "arbitrum"]> (<["optimism" := "optimism"]>
  (<["base" := "base"]> (<["solana" := "solana"]> ∅))))))).

(** [layerMap[chain] || chain]. *)
Definition enrichLayer (chain : string) : string :=
  match layerMap !! chain with
  | Some l => if String.eqb l "" then chain else l
  | None => chain
  end.

Record EnrichedUser := {
  eu_user : User;                      (* ...user *)
  eu_addresses : list (string * ChainData);   (* addresses *)
  eu_settlementOptions : list string   (* settlementOptions *)
}.

Definition enrichUserWithAddresses (user : User) : M EnrichedUser :=
  let* addresses :=
    match u_id user with
    | Some uid => getFormattedAddresses uid
    | None => ret []
    end in
  ret {| eu_user := user; eu_addresses := addresses;
         eu_settlementOptions := map (fun e => enrichLayer (fst e)) addresses |}.

(** ** UserService: users *)

(** [/^[a-z0-9_-]{1,64}$/]. *)
Definition usernameChar (c : ascii) : bool :=
  let n := nat_of_ascii c in
  ((Nat.leb 97 n && Nat.leb n 122) || (Nat.leb 48 n && Nat.leb n 57)
   || Nat.eqb n 95 || Nat.eqb n 45)%bool.

Definition isValidUsername (username : string) : bool :=
  let s := JS.toLowerCase username in
  (Nat.leb 1 (String.length s) && Nat.leb (String.length s) 64
   && JSx.every usernameChar s)%bool.

(** [db.collection('users').findOne({ _id: userId })]. *)
Definition findUserById (w : World) (userId : ObjectId) : option User :=
  List.find
    (fun u => match u_id u with Some i => Z.eqb i userId | None => false end)
    (users w).

Definition getUserById (userId : ObjectId) : M (option User) :=
  let* w := get in
  ret (findUserById w userId).

(** The object given to [JSON.stringify] for the details of an audit
    event. *)
Inductive AuditDetails : Type :=
| CreatedDetails (username : string) (hasAddresses : bool)
| DeletedDetails (username : string).

Record AuditEntry := {
  ae_domain_id : ObjectId;            (* domain_id *)
  action : string;
  actor_type : string;
  target_type : string;
  target_id : ObjectId;               (* userId.toString() *)
  details : AuditDetails
}.

(** The store of the admin side: the collections of [World] and the
    audit_log collection. A user document is kept by the fields of [User];
    its is_active flag and the dates, which no method modelled here reads,
    are not kept. *)
Record AdminWorld := {
  store : World;
  audit_log : list AuditEntry
}.

Definition AM (A : Type) : Type := AdminWorld -> (Exn + A) * AdminWorld.

Definition aret {A} (a : A) : AM A := fun s => (inr a, s).
Definition athrow {A} (e : Exn) : AM A := fun s => (inl e, s).
Definition abind {A B} (m : AM A) (k : A -> AM B) : AM B :=
  fun s =>
    match m s with
    | (inl e, s') => (inl e, s')
    | (inr a, s') => k a s'
    end.

(** A method that works on the collections of [World]. *)
Definition onStore {A} (m : M A) : AM A :=
  fun s =>
    match m (store s) with
    | (r, w') => (r, {| store := w'; audit_log := audit_log s |})
    end.

(** [db.collection('audit_log').insertOne(entry)]. *)
Definition logAudit (entry : AuditEntry) : AM unit :=
  fun s => (inr tt, {| store := store s; audit_log := audit_log s ++ [entry] |}).

Notation "'let+' x ':=' m 'in' k" := (abind m (fun x => k))
  (at level 10, x name, m at level 100, k at level 200).

Record CreateUserOptions := {
  o_username : string;                        (* username *)
  o_domainId : ObjectId;                      (* domainId *)
  o_displayName : option string;              (* displayName *)
  o_addresses : option (list (string * option string));   (* addresses *)
  o_sparkPublicKey : option string            (* sparkPublicKey *)
}.

Definition invalidUsernameMessage : string :=
  "Invalid username format. Use lowercase letters, numbers, underscores, and hyphens. Length: 1-64 characters.".

Definition userExistsMessage (username : string) : string :=
  "User " +:+ String (ascii_of_nat 34) username +:+ String (ascii_of_nat 34)
  " already exists in this domain".

(** The documents that createUser inserts into chain_addresses: one for
    each entry whose address is not blank. *)
Fixpoint addressInserts (userId : ObjectId)
  (entries : list (string * option string)) : list ChainAddress :=
  match entries with
  | [] => []
  | (chainName, address) :: rest =>
      if (JS.truthy address
          && negb (String.eqb (JSx.trim (JS.or_else address "")) ""))%bool
      then {| ca_user_id := userId; chain_name := JS.toLowerCase chainName;
              address := JSx.trim (JS.or_else address "");
              is_active := true |}
           :: addressInserts userId rest
      else addressInserts userId rest
  end.

(** createUser; [insertedId] is the id that the database gives to the new
    user document. *)
Definition createUser (options : CreateUserOptions) (insertedId : ObjectId)
  : AM (option User) :=
  let name := o_username options in
  let domainId := o_domainId options in
  if negb (isValidUsername name) then athrow (Error invalidUsernameMessage) else
  let+ existing := onStore (getUserByUsernameAndDomain name domainId) in
  match existing with
  | Some _ => athrow (Error (userExistsMessage name))
  | None =>
      let+ _ := onStore (
        let* w := get in
        put {| users :=
                 users w
                 ++ [ {| u_id := Some insertedId;
                         username := JS.toLowerCase name;
                         domain_id := domainId;
                         display_name :=
                           Some (JS.or_else (o_displayName options) name);
                         spark_public_key :=
                           if JS.truthy (o_sparkPublicKey options)
                           then o_sparkPublicKey options else None |} ];
               chain_addresses := chain_addresses w;
               payment_requests := payment_requests w;
               domains := domains w;
               invoices := invoices w |}) in
      let+ _ := onStore (
        match o_addresses options with
        | Some entries =>
            match addressInserts insertedId entries with
            | [] => ret tt
            | inserts =>
                let* w := get in
                put (withChainAddresses w (chain_addresses w ++ inserts))
            end
        | None => ret tt
        end) in
      let+ _ := logAudit
        {| ae_domain_id := domainId; action := "user_created";
           actor_type := "domain_admin"; target_type := "user";
           target_id := insertedId;
           details :=
             CreatedDetails name
               (match o_addresses options with
                | Some _ => true
                | None => false
                end) |} in
      onStore (getUserById insertedId)
  end.

Definition deleteUser (userId : ObjectId) : AM unit :=
  let+ user := onStore (getUserById userId) in
  match user with
  | None => athrow (Error "User not found")
  | Some user =>
      let+ _ := logAudit
        {| ae_domain_id := domain_id user; action := "user_deleted";
           actor_type := "domain_admin"; target_type := "user";
           target_id := userId;
           details := DeletedDetails (username user) |} in
      onStore (
        let* w := get in
        put {| users :=
                 deleteFirst
                   (fun u => match u_id u with
                             | Some i => Z.eqb i userId
                             | None => false
                             end)
                   (users w);
               chain_addresses := chain_addresses w;
               payment_requests := payment_requests w;
               domains := domains w;
               invoices := invoices w |})
  end.

(** ** The admin routes *)

Inductive AdminBody : Type :=
| AdminError (error message : string)       (* { error, message } *)
| UserCreated (user : User)                  (* { success: true, user } *)
| AdminSuccess (message : string).           (* { success: true, message } *)

Record AdminReply := { a_status : Z; a_body : AdminBody }.

(** authenticateAdmin: the reply that it sends, or [None] when the request
    goes on to its handler. *)
Definition authenticateAdmin (authorization API_KEY : option string)
  : option AdminReply :=
  if negb (JS.truthy authorization
           && JS.startsWith "Bearer " (JS.or_else authorization ""))%bool
  then Some {| a_status := 401;
               a_body := AdminError "Unauthorized"
                           "Missing or invalid authorization header" |}
  else
    let providedKey := JS.slice 7 (JS.or_else authorization "") in
    if negb (JS.truthy API_KEY)
    then Some {| a_status := 500;
                 a_body := AdminError "Server Configuration Error"
                             "API authentication not configured" |}
    else if negb (String.eqb providedKey (JS.or_else API_KEY ""))
    then Some {| a_status := 403;
                 a_body := AdminError "Forbidden" "Invalid API key" |}
    else None.

(** POST /users/:domainId, after authentication. *)
Definition postUser (domainId : ObjectId) (name displayName : option string)
  (addresses : option (list (string * option string)))
  (sparkPublicKey : option string) (insertedId : ObjectId)
  (s : AdminWorld) : AdminReply * AdminWorld :=
  if negb (JS.truthy name)
  then ({| a_status := 400;
           a_body := AdminError "Bad Request" "Username is required" |}, s)
  else
    match createUser
            {| o_username := JS.or_else name ""; o_domainId := domainId;
               o_displayName := displayName; o_addresses := addresses;
               o_sparkPublicKey := sparkPublicKey |} insertedId s with
    | (inr (Some user), s') =>
        ({| a_status := 201; a_body := UserCreated user |}, s')
    | (inr None, s') =>
        ({| a_status := 500;
            a_body := AdminError "Internal Server Error"
                        "Cannot read properties of null (reading '_id')" |}, s')
    | (inl error, s') =>
        if JS.includes "duplicate" (message error)
        then ({| a_status := 409;
                 a_body := AdminError "Conflict" (message error) |}, s')
        else ({| a_status := 500;
                 a_body := AdminError "Internal Server Error" (message error) |},
              s')
    end.

(** DELETE /users/:domainId/:username, after authentication. *)
Definition deleteUserRoute (domainId : ObjectId) (name : string)
  (s : AdminWorld) : AdminReply * AdminWorld :=
  match findUser (store s) name domainId with
  | None =>
      ({| a_status := 404; a_body := AdminError "Not Found" "User not found" |},
       s)
  | Some user =>
      match
        match u_id user with
        | Some uid => deleteUser uid s
        | None => (inl (Error "User not found"), s)
        end
      with
      | (inr _, s') =>
          ({| a_status := 200;
              a_body := AdminSuccess "User deleted successfully" |}, s')
      | (inl error, s') =>
          ({| a_status := 500;
              a_body := AdminError "Internal Server Error" (message error) |},
           s')
      end
  end.

(** ** A concrete store of the admin side *)

Definition exampleAdmin : AdminWorld :=
  {| store := exampleWorld; audit_log := [] |}.

(** * Properties *)

Ltac unfold_service :=
  unfold generatePayResponse, createPaymentRequest,
    getPaymentRequestByNonce, getUserAddresses, getUserByUsernameAndDomain,
    getDomainByName, bind, get, put, ret, throw.

(** Case analysis on the outcome of the dispatch block of
    generatePayResponse. *)
Ltac split_dispatch e a w0 Hd :=
  match goal with
  | |- context [let (_, _) := ?X in _] => destruct X as [[e|a] w0] eqn:Hd
  end.

(** ** Lists, strings and the conversion *)

Lemma find_snoc {A} (f : A -> bool) l x :
  List.find f l = None -> f x = true -> List.find f (l ++ [x]) = Some x.
Proof.
  induction l as [|y l IH]; simpl.
  - intros _ ->. reflexivity.
  - destruct (f y); [discriminate|]. auto.
Qed.

Lemma or_else_Some s d : s <> "" -> JS.or_else (Some s) d = s.
Proof.
  intros H. unfold JS.or_else.
  destruct (String.eqb_spec s ""); [contradiction|reflexivity].
Qed.

Lemma truthy_or_else o d : JS.truthy o = true -> o = Some (JS.or_else o d).
Proof.
  destruct o as [s|]; simpl; [|discriminate].
  destruct (String.eqb s ""); [discriminate|reflexivity].
Qed.

Lemma or_else_same s : JS.or_else (Some s) s = s.
Proof. unfold JS.or_else. destruct (String.eqb s ""); reflexivity. Qed.

Lemma amountInCurrencyUnits_inr amt mo units :
  amountInCurrencyUnits amt mo = inr units ->
  exists m, mo = Some m /\ m <> 0 /\ units = Z.quot (amt - receiverFees) m.
Proof.
  unfold amountInCurrencyUnits, BigInt, BigInt_div.
  destruct mo as [m|]; [|discriminate].
  destruct (Z.eqb_spec m 0); [discriminate|].
  intros [= <-]. eauto.
Qed.

Lemma amountInCurrencyUnits_floor amt m :
  0 <= amt -> 0 < m ->
  amountInCurrencyUnits amt (Some m) = inr ((amt - receiverFees) / m).
Proof.
  intros Ha Hm. unfold amountInCurrencyUnits, BigInt, BigInt_div, receiverFees.
  destruct (Z.eqb_spec m 0); [lia|].
  rewrite Z.quot_div_nonneg by lia. reflexivity.
Qed.

Lemma nonLightning_true l :
  l <> "" -> l <> "ln" -> l <> "spark" -> nonLightning (Some l) = true.
Proof.
  intros H1 H2 H3. unfold nonLightning.
  destruct (String.eqb_spec l ""); [contradiction|].
  destruct (String.eqb_spec l "ln"); [contradiction|].
  destruct (String.eqb_spec l "spark"); [contradiction|]. reflexivity.
Qed.

Lemma nonLightning_default lay :
  lay = None \/ lay = Some "ln" \/ lay = Some "spark" -> nonLightning lay = false.
Proof. intros [->|[->| ->]]; reflexivity. Qed.

Lemma no_matching_address w uid l :
  (forall a, In a (chain_addresses w) -> ca_user_id a = uid ->
             is_active a = true ->
             JS.toLowerCase (chain_name a) <> JS.toLowerCase l) ->
  List.find
    (fun a => String.eqb (JS.toLowerCase (chain_name a)) (JS.toLowerCase l))
    (activeAddresses w uid) = None.
Proof.
  intros H. unfold activeAddresses.
  induction (chain_addresses w) as [|a r IH]; simpl; [reflexivity|].
  destruct (Z.eqb_spec (ca_user_id a) uid) as [Hid|Hid]; simpl.
  - destruct (is_active a) eqn:Ha; simpl.
    + destruct (String.eqb_spec (JS.toLowerCase (chain_name a))
                  (JS.toLowerCase l)) as [E|E].
      * exfalso. apply (H a); simpl; auto.
      * apply IH. intros b Hb. apply H. now right.
    + apply IH. intros b Hb. apply H. now right.
  - apply IH. intros b Hb. apply H. now right.
Qed.

(** ** The catch block *)

Lemma lnurlpCatch_DUPLICATE_NONCE :
  lnurlpCatch DUPLICATE_NONCE
  = errorReply 409 "Duplicate payment request. This nonce has already been used.".
Proof. reflexivity. Qed.

Lemma lnurlpCatch_AddressNotFound l :
  lnurlpCatch (AddressNotFound l)
  = errorReply 400
      "Unsupported or invalid settlement layer. Check available settlement options from the lookup endpoint.".
Proof. reflexivity. Qed.

(** ** Invoice generation *)

Lemma generateLightningInvoice_store ext amt name key w res w' :
  generateLightningInvoice ext amt name key w = (res, w') ->
  payment_requests w' = payment_requests w /\ (forall e, res = inl e -> w' = w).
Proof.
  unfold generateLightningInvoice, bind, get, put, ret, throw.
  destruct (sparkWallet ext) as [e|wallet].
  - intros [= <- <-]. auto.
  - destruct (wallet _) as [e|inv].
    + intros [= <- <-]. auto.
    + intros [= <- <-]. simpl. split; [reflexivity|discriminate].
Qed.

(** ** Phase 2: generatePayResponse *)

Section PaymentRequests.

Variable CURRENCIES : gmap string CurrencyConfig.

(** What a successful call went through, and what its response holds. *)
Lemma generatePayResponse_success ext name d amt nonce cur lay aid w r w' :
  generatePayResponse CURRENCIES ext name d amt nonce cur lay aid w
  = (inr (Some r), w') ->
  exists user m,
    findUser w name (d_id d) = Some user
    /\ findPayment w nonce = None
    /\ calculateMultipliers ext (if nonLightning lay then "USDT" else "BTC")
         [JS.or_else cur "USD"] !! JS.or_else cur "USD" = Some m
    /\ m <> 0
    /\ amount (converted r) = JS.toString (Z.quot (amt - receiverFees) m)
    /\ settlement r =
         (if (JS.truthy lay && JS.truthy aid)%bool
          then Some {| si_layer := JS.or_else lay "";
                       assetIdentifier := JS.or_else aid "" |}
          else None).
Proof.
  unfold_service.
  destruct (findUser w name (d_id d)) as [user|] eqn:Hu; [|discriminate].
  destruct (u_id user) as [uid|]; [|discriminate].
  destruct (findPayment w nonce) eqn:Hp; [discriminate|].
  split_dispatch e a w0 Hd; [discriminate|].
  destruct (findPayment w0 nonce); [discriminate|].
  destruct (amountInCurrencyUnits _ _) as [e|units] eqn:Ha; [discriminate|].
  intros [= <- <-].
  apply amountInCurrencyUnits_inr in Ha as (m & Hm & Hm0 & ->).
  exists user, m. rewrite Hm. simpl. auto 10.
Qed.

(** The multiplier of a response is the one that the market rates give,
    present and not zero. *)
Lemma generatePayResponse_multiplier ext name d amt nonce cur lay aid w r w' :
  generatePayResponse CURRENCIES ext name d amt nonce cur lay aid w
  = (inr (Some r), w') ->
  calculateMultipliers ext (if nonLightning lay then "USDT" else "BTC")
    [JS.or_else cur "USD"] !! JS.or_else cur "USD"
  = Some (cv_multiplier (converted r))
  /\ cv_multiplier (converted r) <> 0.
Proof.
  unfold_service.
  destruct (findUser w name (d_id d)) as [user|] eqn:Hu; [|discriminate].
  destruct (u_id user) as [uid|]; [|discriminate].
  destruct (findPayment w nonce) eqn:Hp; [discriminate|].
  split_dispatch e a w0 Hd; [discriminate|].
  destruct (findPayment w0 nonce); [discriminate|].
  destruct (amountInCurrencyUnits _ _) as [e|units] eqn:Ha; [discriminate|].
  intros [= <- <-].
  apply amountInCurrencyUnits_inr in Ha as (m & Hm & Hm0 & ->).
  rewrite Hm. simpl. auto.
Qed.

Lemma recorded_nonce_no_write ext name d amt nonce cur lay aid w p :
  findPayment w nonce = Some p ->
  snd (generatePayResponse CURRENCIES ext name d amt nonce cur lay aid w) = w.
Proof.
  intros Hp. unfold_service.
  destruct (findUser w name (d_id d)) as [user|]; [|reflexivity].
  destruct (u_id user); [|reflexivity].
  rewrite Hp. reflexivity.
Qed.

Lemma recorded_nonce_throws ext name d amt nonce cur lay aid w p user uid :
  findPayment w nonce = Some p ->
  findUser w name (d_id d) = Some user -> u_id user = Some uid ->
  generatePayResponse CURRENCIES ext name d amt nonce cur lay aid w
  = (inl DUPLICATE_NONCE, w).
Proof.
  intros Hp Hu Hid. unfold_service. rewrite Hu, Hid, Hp. reflexivity.
Qed.

Lemma missing_address_throws ext name d amt nonce cur l aid w user uid :
  findUser w name (d_id d) = Some user -> u_id user = Some uid ->
  findPayment w nonce = None ->
  l <> "" -> l <> "ln" -> l <> "spark" ->
  (forall a, In a (chain_addresses w) -> ca_user_id a = uid ->
             is_active a = true ->
             JS.toLowerCase (chain_name a) <> JS.toLowerCase l) ->
  generatePayResponse CURRENCIES ext name d amt nonce cur (Some l) aid w
  = (inl (AddressNotFound l), w).
Proof.
  intros Hu Hid Hp H1 H2 H3 Hno. unfold_service.
  rewrite Hu, Hid, Hp, (nonLightning_true l H1 H2 H3), (or_else_Some l "" H1).
  rewrite (no_matching_address w uid l Hno). reflexivity.
Qed.

Lemma missing_key_throws ext name d amt nonce cur lay aid w user uid :
  findUser w name (d_id d) = Some user -> u_id user = Some uid ->
  findPayment w nonce = None ->
  nonLightning lay = false ->
  JS.truthy (spark_public_key user) = false ->
  generatePayResponse CURRENCIES ext name d amt nonce cur lay aid w
  = (inl MissingSettlementIdentity, w).
Proof.
  intros Hu Hid Hp Hl Hk. unfold_service.
  rewrite Hu, Hid, Hp, Hl, Hk. reflexivity.
Qed.

Lemma failed_invoice_throws ext name d amt nonce cur lay aid w user uid e w1 :
  findUser w name (d_id d) = Some user -> u_id user = Some uid ->
  findPayment w nonce = None ->
  nonLightning lay = false ->
  JS.truthy (spark_public_key user) = true ->
  generateLightningInvoice ext amt name (spark_public_key user) w = (inl e, w1) ->
  generatePayResponse CURRENCIES ext name d amt nonce cur lay aid w = (inl e, w).
Proof.
  intros Hu Hid Hp Hl Hk Hg. unfold_service.
  rewrite Hu, Hid, Hp, Hl, Hk. simpl. rewrite Hg.
  apply generateLightningInvoice_store in Hg as [_ Hw].
  rewrite (Hw e eq_refl). reflexivity.
Qed.

Lemma minted_invoice_is_recorded ext name d amt nonce cur lay aid w user uid
  inv w1 :
  findUser w name (d_id d) = Some user -> u_id user = Some uid ->
  findPayment w nonce = None ->
  nonLightning lay = false ->
  JS.truthy (spark_public_key user) = true ->
  generateLightningInvoice ext amt name (spark_public_key user) w = (inr inv, w1) ->
  fst (generatePayResponse CURRENCIES ext name d amt nonce cur lay aid w)
  <> inl DUPLICATE_NONCE
  /\ exists p,
       findPayment
         (snd (generatePayResponse CURRENCIES ext name d amt nonce cur lay aid w))
         nonce = Some p
       /\ invoice p = inv.
Proof.
  intros Hu Hid Hp Hl Hk Hg. unfold_service.
  rewrite Hu, Hid, Hp, Hl, Hk. simpl. rewrite Hg.
  apply generateLightningInvoice_store in Hg as [Hpr _].
  assert (Hp1 : findPayment w1 nonce = None).
  { unfold findPayment in *. rewrite Hpr. exact Hp. }
  rewrite Hp1.
  assert (Hrec : forall r : PaymentRequest, pr_nonce r = nonce ->
    findPayment
      {| users := users w1; chain_addresses := chain_addresses w1;
         payment_requests := payment_requests w1 ++ [r];
         domains := domains w1; invoices := invoices w1 |} nonce = Some r).
  { intros r Hr. unfold findPayment in *. simpl. apply find_snoc; [exact Hp1|].
    rewrite Hr. apply String.eqb_refl. }
  destruct (amountInCurrencyUnits _ _) as [err|units] eqn:Ha; simpl.
  - split.
    + unfold amountInCurrencyUnits, BigInt, BigInt_div in Ha.
      destruct (calculateMultipliers _ _ _ !! _) as [m|];
        [|injection Ha as <-; discriminate].
      destruct (Z.eqb m 0); [injection Ha as <-; discriminate|discriminate].
    + eexists. split; [apply Hrec; reflexivity|reflexivity].
  - split; [discriminate|].
    eexists. split; [apply Hrec; reflexivity|reflexivity].
Qed.

(** C1. For every non-negative amount and every multiplier greater than
    zero, the receiver fee being 0, the converted amount of phase 2 is
    floor((amount - fee) / multiplier): the BigInt quotient computes it, and
    the [converted.amount] of every response that generatePayResponse
    returns is its decimal numeral; convert(1999, 1000) = 1,
    convert(2000, 1000) = 2 and convert(999, 1000) = 0. *)
Theorem converted_amount_is_floor (amt m : Z) :
  0 <= amt -> 0 < m ->
  receiverFees = 0
  /\ amountInCurrencyUnits amt (Some m) = inr ((amt - receiverFees) / m)
  /\ (forall ext name d nonce cur lay aid w r w',
        calculateMultipliers ext (if nonLightning lay then "USDT" else "BTC")
          [JS.or_else cur "USD"] !! JS.or_else cur "USD" = Some m ->
        generatePayResponse CURRENCIES ext name d amt nonce cur lay aid w
        = (inr (Some r), w') ->
        amount (converted r) = JS.toString ((amt - receiverFees) / m))
  /\ amountInCurrencyUnits 1999 (Some 1000) = inr 1
  /\ amountInCurrencyUnits 2000 (Some 1000) = inr 2
  /\ amountInCurrencyUnits 999 (Some 1000) = inr 0.
Proof.
  intros Ha Hm. split; [reflexivity|].
  split; [apply amountInCurrencyUnits_floor; assumption|].
  split; [|repeat split; reflexivity].
  intros ext name d nonce cur lay aid w r w' Hrate Hres.
  apply generatePayResponse_success in Hres
    as (user & m' & _ & _ & Hrate' & _ & Hamount & _).
  rewrite Hrate in Hrate'. injection Hrate' as <-.
  rewrite Hamount. unfold receiverFees.
  rewrite Z.quot_div_nonneg by lia. reflexivity.
Qed.

(** C2, as the code has it. For every phase-2 call in which the nonce is
    not yet recorded and the user is resolved, if the invoice generation
    step throws, the call fails with that exception, no Payment Request
    record is written and the nonce is not consumed: a later phase-2 call
    that reuses the nonce is not rejected as a duplicate, and when its
    invoice is minted it records the payment request under that nonce. *)
Theorem failed_invoice_leaves_nonce_unused ext name d amt nonce cur lay aid w
  user uid e w1 :
  findUser w name (d_id d) = Some user -> u_id user = Some uid ->
  findPayment w nonce = None ->
  nonLightning lay = false ->
  JS.truthy (spark_public_key user) = true ->
  generateLightningInvoice ext amt name (spark_public_key user) w = (inl e, w1) ->
  generatePayResponse CURRENCIES ext name d amt nonce cur lay aid w = (inl e, w)
  /\ findPayment
       (snd (generatePayResponse CURRENCIES ext name d amt nonce cur lay aid w))
       nonce = None
  /\ forall ext' amt' cur' lay' aid' inv w2,
       nonLightning lay' = false ->
       generateLightningInvoice ext' amt' name (spark_public_key user)
         (snd (generatePayResponse CURRENCIES ext name d amt nonce cur lay aid w))
       = (inr inv, w2) ->
       fst (generatePayResponse CURRENCIES ext' name d amt' nonce cur' lay' aid'
              (snd (generatePayResponse CURRENCIES ext name d amt nonce cur lay
                      aid w)))
       <> inl DUPLICATE_NONCE
       /\ exists p,
            findPayment
              (snd (generatePayResponse CURRENCIES ext' name d amt' nonce cur'
                      lay' aid'
                      (snd (generatePayResponse CURRENCIES ext name d amt nonce
                              cur lay aid w))))
              nonce = Some p
            /\ invoice p = inv.
Proof.
  intros Hu Hid Hp Hl Hk Hg.
  rewrite (failed_invoice_throws ext name d amt nonce cur lay aid w user uid e w1)
    by assumption.
  simpl. split; [reflexivity|]. split; [exact Hp|].
  intros ext' amt' cur' lay' aid' inv w2 Hl' Hg'.
  exact (minted_invoice_is_recorded ext' name d amt' nonce cur' lay' aid' w
           user uid inv w2 Hu Hid Hp Hl' Hk Hg').
Qed.

(** C4, as the code has it. For every phase-2 call with a nonce not yet
    recorded that chooses a settlement layer other than 'ln' and 'spark'
    for which the resolved user has no active stored chain address (the
    chain name compared case-insensitively; an entirely unknown layer
    included), the call fails with AddressNotFound, which the handler
    answers with status 400, and the store is unchanged: no Payment Request
    record is written for that nonce. *)
Theorem missing_address_rejected ext name d amt nonce cur l aid w user uid :
  findUser w name (d_id d) = Some user -> u_id user = Some uid ->
  findPayment w nonce = None ->
  l <> "" -> l <> "ln" -> l <> "spark" ->
  (forall a, In a (chain_addresses w) -> ca_user_id a = uid ->
             is_active a = true ->
             JS.toLowerCase (chain_name a) <> JS.toLowerCase l) ->
  generatePayResponse CURRENCIES ext name d amt nonce cur (Some l) aid w
  = (inl (AddressNotFound l), w)
  /\ findPayment
       (snd (generatePayResponse CURRENCIES ext name d amt nonce cur (Some l) aid w))
       nonce = None
  /\ status (lnurlpCatch (AddressNotFound l)) = 400.
Proof.
  intros Hu Hid Hp H1 H2 H3 Hno.
  rewrite (missing_address_throws ext name d amt nonce cur l aid w user uid)
    by assumption.
  simpl. auto.
Qed.

(** C7, as the code has it. For every phase-2 call with a nonce not yet
    recorded whose settlement layer is absent, 'ln' or 'spark', made for a
    resolved user who has no Spark public key, the call fails with
    MissingSettlementIdentity and the store is unchanged: no invoice is
    minted and no record is written. *)
Theorem missing_key_rejected ext name d amt nonce cur lay aid w user uid :
  findUser w name (d_id d) = Some user -> u_id user = Some uid ->
  findPayment w nonce = None ->
  lay = None \/ lay = Some "ln" \/ lay = Some "spark" ->
  JS.truthy (spark_public_key user) = false ->
  generatePayResponse CURRENCIES ext name d amt nonce cur lay aid w
  = (inl MissingSettlementIdentity, w)
  /\ invoices
       (snd (generatePayResponse CURRENCIES ext name d amt nonce cur lay aid w))
     = invoices w.
Proof.
  intros Hu Hid Hp Hl Hk.
  rewrite (missing_key_throws ext name d amt nonce cur lay aid w user uid)
    by auto using nonLightning_default.
  simpl. auto.
Qed.

(** C8, as the code has it. In every successful phase-2 response the
    settlement descriptor is present if and only if the request carried
    both a non-empty settlementLayer and a non-empty assetIdentifier,
    whatever the layer is; it then repeats the two values. *)
Theorem settlement_descriptor_presence ext name d amt nonce cur lay aid w r w' :
  generatePayResponse CURRENCIES ext name d amt nonce cur lay aid w
  = (inr (Some r), w') ->
  (is_Some (settlement r) <-> JS.truthy lay = true /\ JS.truthy aid = true)
  /\ forall s, settlement r = Some s ->
       lay = Some (si_layer s) /\ aid = Some (assetIdentifier s).
Proof.
  intros Hres.
  apply generatePayResponse_success in Hres
    as (user & m & _ & _ & _ & _ & _ & Hs).
  rewrite Hs. clear Hs.
  destruct (JS.truthy lay) eqn:Hl, (JS.truthy aid) eqn:Ha; simpl;
    try (split; [split; [intros []%is_Some_None|intros [[=] [=]]]|intros ? [=]]).
  split; [split; [auto|eauto]|].
  intros s [= <-]. simpl.
  split; apply truthy_or_else; assumption.
Qed.

End PaymentRequests.

(** ** Phase 1: currencies *)

Section Discovery.

Variable CURRENCIES : gmap string CurrencyConfig.
Variable ext : Ext.

Lemma buildCurrenciesLoop_app pre post :
  buildCurrenciesLoop CURRENCIES ext (pre ++ post)
  = buildCurrenciesLoop CURRENCIES ext pre
    ++ buildCurrenciesLoop CURRENCIES ext post.
Proof.
  induction pre as [|[k v] pre IH]; simpl; [reflexivity|].
  destruct (negb (active v)); [exact IH|].
  destruct (CURRENCIES !! k); [|exact IH].
  destruct (calculateMultipliers ext "BTC" [k] !! k) as [m|]; [|exact IH].
  destruct (Z.eqb m 0); [exact IH|]. simpl. now rewrite IH.
Qed.

Lemma buildCurrenciesLoop_skip code settings post :
  calculateMultipliers ext "BTC" [code] !! code = None
  \/ calculateMultipliers ext "BTC" [code] !! code = Some 0 ->
  buildCurrenciesLoop CURRENCIES ext ((code, settings) :: post)
  = buildCurrenciesLoop CURRENCIES ext post.
Proof.
  intros H. simpl.
  destruct (negb (active settings)); [reflexivity|].
  destruct (CURRENCIES !! code); [|reflexivity].
  destruct H as [-> | ->]; reflexivity.
Qed.

(** Every currency that the loop lists carries the multiplier that the
    market rates give for its entry, present and not zero. *)
Lemma buildCurrenciesLoop_rated entries c :
  In c (buildCurrenciesLoop CURRENCIES ext entries) ->
  exists k settings,
    In (k, settings) entries
    /\ calculateMultipliers ext "BTC" [k] !! k = Some (multiplier c)
    /\ multiplier c <> 0.
Proof.
  induction entries as [|[k settings] r IH]; simpl; [intros []|].
  assert (Hrest : In c (buildCurrenciesLoop CURRENCIES ext r) ->
                  exists k0 settings0,
                    ((k, settings) = (k0, settings0) \/ In (k0, settings0) r)
                    /\ calculateMultipliers ext "BTC" [k0] !! k0
                       = Some (multiplier c)
                    /\ multiplier c <> 0).
  { intros H. destruct (IH H) as (k0 & s0 & Hin & Hrest).
    exists k0, s0. auto. }
  destruct (negb (active settings)); [exact Hrest|].
  destruct (CURRENCIES !! k); [|exact Hrest].
  destruct (calculateMultipliers ext "BTC" [k] !! k) as [m|] eqn:Hm;
    [|exact Hrest].
  destruct (Z.eqb_spec m 0) as [->|Hm0]; [exact Hrest|].
  intros [<-|H]; [|auto]. exists k, settings. simpl. auto.
Qed.

End Discovery.

(** ** The handler *)

Section Handler.

Variable CHAIN_MAPPING : gmap string ChainMapping.
Variable CURRENCIES : gmap string CurrencyConfig.
Variable BASE_URL NODE_ENV : option string.
Variable ext : Ext.
Variable parseInt : string -> option Z.

(** A request with a valid amount for a known tenant is answered from the
    outcome of generatePayResponse, called with the nonce of the query or,
    failing that, with the generated one. *)
Lemma lnurlp_pay req w amt d :
  JS.truthy (q_amount req) = true ->
  parseInt (JS.or_else (q_amount req) "") = Some amt -> 0 < amt ->
  findDomain w (JS.toLowerCase (hostname req)) = Some d ->
  lnurlp CHAIN_MAPPING CURRENCIES BASE_URL NODE_ENV ext parseInt req w
  = payReply
      (generatePayResponse CURRENCIES ext (params_username req) d amt
         (JS.or_else (q_nonce req) (generatedNonce ext))
         (q_currency req) (q_settlementLayer req) (q_assetIdentifier req) w).
Proof.
  intros Ht Hparse Hpos Hd. unfold lnurlp, lnurlpTry.
  rewrite Ht, Hparse. cbn [negb].
  destruct (Z.leb_spec amt 0); [lia|].
  unfold getDomainByName, bind, get, ret. rewrite Hd.
  destruct (generatePayResponse _ _ _ _ _ _ _ _ _ w) as [[e|[r|]] w'];
    reflexivity.
Qed.

Lemma lnurlp_generated_nonce req w :
  JS.truthy (q_amount req) = true -> q_nonce req = None ->
  lnurlp CHAIN_MAPPING CURRENCIES BASE_URL NODE_ENV ext parseInt req w
  = lnurlp CHAIN_MAPPING CURRENCIES BASE_URL NODE_ENV ext parseInt
      (withNonce req (Some (generatedNonce ext))) w.
Proof.
  intros Ht Hn. unfold lnurlp, lnurlpTry, withNonce.
  cbn [q_amount q_nonce params_username hostname q_currency q_settlementLayer
       q_assetIdentifier].
  rewrite Ht, Hn, or_else_same. reflexivity.
Qed.

(** C3, as the code has it. For every nonce for which a Payment Request
    record already exists, a phase-2 call that supplies that nonce writes
    no new Payment Request record; when the user of the call is resolved,
    the call fails with DuplicateNonce, and the handler, given a valid
    amount and a known tenant, answers with status 409. *)
Theorem recorded_nonce_rejected w nonce p :
  findPayment w nonce = Some p ->
  (forall name d amt cur lay aid,
     snd (generatePayResponse CURRENCIES ext name d amt nonce cur lay aid w) = w)
  /\ (forall name d amt cur lay aid user uid,
        findUser w name (d_id d) = Some user -> u_id user = Some uid ->
        generatePayResponse CURRENCIES ext name d amt nonce cur lay aid w
        = (inl DUPLICATE_NONCE, w))
  /\ (forall req d amt user uid,
        q_nonce req = Some nonce -> nonce <> "" ->
        JS.truthy (q_amount req) = true ->
        parseInt (JS.or_else (q_amount req) "") = Some amt -> 0 < amt ->
        findDomain w (JS.toLowerCase (hostname req)) = Some d ->
        findUser w (params_username req) (d_id d) = Some user ->
        u_id user = Some uid ->
        lnurlp CHAIN_MAPPING CURRENCIES BASE_URL NODE_ENV ext parseInt req w
        = (errorReply 409
             "Duplicate payment request. This nonce has already been used.",
           w)).
Proof.
  intros Hp. split; [|split].
  - intros. eapply recorded_nonce_no_write; exact Hp.
  - intros. eapply recorded_nonce_throws; eassumption.
  - intros req d amt user uid Hn Hne Ht Hparse Hpos Hd Hu Hid.
    rewrite (lnurlp_pay req w amt d Ht Hparse Hpos Hd).
    rewrite Hn, (or_else_Some nonce _ Hne).
    rewrite (recorded_nonce_throws CURRENCIES ext _ d amt nonce _ _ _ w p user uid
               Hp Hu Hid).
    reflexivity.
Qed.

(** C5, as the code has it by design. When the multiplier of a currency is
    zero or missing from the market rates, it is never replaced by a
    default, and discovery leaves the currency out without an error.
    For currency codes that [Object.prototype] does not define,
    buildCurrencies lists the currencies of the other entries, as it lists
    them without that entry, and every currency that it lists carries the
    multiplier that the market rates give, present and not zero.
    generatePayResponse returns no response for such a currency, and every
    response that it returns carries the multiplier that the market rates
    give, present and not zero. *)
Theorem zero_or_missing_multiplier (rate : option Z) :
  rate = None \/ rate = Some 0 ->
  (forall code settings pre post,
     Forall (fun e => ownName (fst e) = true) (pre ++ (code, settings) :: post) ->
     calculateMultipliers ext "BTC" [code] !! code = rate ->
     buildCurrencies CURRENCIES ext (Some (pre ++ (code, settings) :: post))
     = buildCurrencies CURRENCIES ext (Some pre)
       ++ buildCurrencies CURRENCIES ext (Some post))
  /\ (forall entries c,
        Forall (fun e => ownName (fst e) = true) entries ->
        In c (buildCurrencies CURRENCIES ext (Some entries)) ->
        multiplier c <> 0
        /\ exists code settings,
             In (code, settings) entries
             /\ calculateMultipliers ext "BTC" [code] !! code
                = Some (multiplier c)
             /\ calculateMultipliers ext "BTC" [code] !! code <> rate)
  /\ (forall name d amt nonce cur lay aid w r,
        calculateMultipliers ext (if nonLightning lay then "USDT" else "BTC")
          [JS.or_else cur "USD"] !! JS.or_else cur "USD" = rate ->
        fst (generatePayResponse CURRENCIES ext name d amt nonce cur lay aid w)
        <> inr (Some r))
  /\ (forall name d amt nonce cur lay aid w r w',
        generatePayResponse CURRENCIES ext name d amt nonce cur lay aid w
        = (inr (Some r), w') ->
        cv_multiplier (converted r) <> 0
        /\ calculateMultipliers ext (if nonLightning lay then "USDT" else "BTC")
             [JS.or_else cur "USD"] !! JS.or_else cur "USD"
           = Some (cv_multiplier (converted r))).
Proof.
  intros Hrate. split; [|split; [|split]].
  - intros code settings pre post _ Hlookup. simpl.
    rewrite buildCurrenciesLoop_app. f_equal.
    apply buildCurrenciesLoop_skip. rewrite Hlookup.
    destruct Hrate as [-> | ->]; auto.
  - intros entries c _ Hin. simpl in Hin.
    apply buildCurrenciesLoop_rated in Hin as (k & settings & Hin & Hm & Hm0).
    split; [exact Hm0|]. exists k, settings. split; [exact Hin|].
    split; [exact Hm|]. rewrite Hm.
    destruct Hrate as [-> | ->]; [discriminate|]. congruence.
  - intros name d amt nonce cur lay aid w r Hlookup Hres.
    destruct (generatePayResponse CURRENCIES ext name d amt nonce cur lay aid w)
      as [res w'] eqn:Hcall.
    simpl in Hres. subst res.
    apply generatePayResponse_multiplier in Hcall as [Hm Hm0].
    rewrite Hlookup in Hm. destruct Hrate as [-> | ->]; [discriminate|].
    injection Hm as Hm. congruence.
  - intros name d amt nonce cur lay aid w r w' Hcall.
    apply generatePayResponse_multiplier in Hcall as [Hm Hm0]. auto.
Qed.

(** C10. For every phase-2 request, one with an amount parameter, that
    omits the nonce parameter, the handler does not reject the request for
    that: it answers as it answers the same request carrying the nonce
    "uma_" + Date.now() + "_" + six random base-36 characters, which it
    hands to generatePayResponse; replay protection then rests on that
    value: the request of a resolved user is refused as a duplicate when the
    generated value is already recorded. *)
Theorem missing_nonce_generated req w :
  JS.truthy (q_amount req) = true -> q_nonce req = None ->
  lnurlp CHAIN_MAPPING CURRENCIES BASE_URL NODE_ENV ext parseInt req w
  = lnurlp CHAIN_MAPPING CURRENCIES BASE_URL NODE_ENV ext parseInt
      (withNonce req (Some (generatedNonce ext))) w
  /\ generatedNonce ext
     = "uma_" +:+ JS.toString (Date_now ext) +:+ "_" +:+ Math_random36 ext
  /\ (forall amt d,
        parseInt (JS.or_else (q_amount req) "") = Some amt -> 0 < amt ->
        findDomain w (JS.toLowerCase (hostname req)) = Some d ->
        lnurlp CHAIN_MAPPING CURRENCIES BASE_URL NODE_ENV ext parseInt req w
        = payReply
            (generatePayResponse CURRENCIES ext (params_username req) d amt
               (generatedNonce ext) (q_currency req) (q_settlementLayer req)
               (q_assetIdentifier req) w)
        /\ forall user uid p,
             findUser w (params_username req) (d_id d) = Some user ->
             u_id user = Some uid ->
             findPayment w (generatedNonce ext) = Some p ->
             lnurlp CHAIN_MAPPING CURRENCIES BASE_URL NODE_ENV ext parseInt req w
             = (errorReply 409
                  "Duplicate payment request. This nonce has already been used.",
                w)).
Proof.
  intros Ht Hn. split; [|split].
  - apply lnurlp_generated_nonce; assumption.
  - reflexivity.
  - intros amt d Hparse Hpos Hd.
    rewrite (lnurlp_pay req w amt d Ht Hparse Hpos Hd), Hn. simpl JS.or_else.
    split; [reflexivity|].
    intros user uid p Hu Hid Hp.
    rewrite (recorded_nonce_throws CURRENCIES ext _ d amt _ _ _ _ w p user uid
               Hp Hu Hid).
    reflexivity.
Qed.

End Handler.

(** * The claims on the concrete store *)

(** Scenario A: the settlement options of alice hold a USDT_ETHEREUM asset, a
    spark asset whose identifier is the stored public key, and nothing for
    the unmapped chain. *)
Example scenario_A :
  exists l,
    buildSettlementOptions chainMapping extOk
      (formatAddresses (activeAddresses exampleWorld 1)) ["USD"] = inr l
    /\ map (fun o => (settlementLayer o, map identifier (assets o))) l
       = [ ("ethereum", [ChainString "USDT_ETHEREUM"]);
           ("spark", [ChainString "02509abc"]);
           ("polygon", [ChainString "USDT_POLYGON"]) ].
Proof. eexists. split; vm_compute; reflexivity. Qed.

Lemma converted_amount_is_floor_witness :
  exists r w',
    examplePay extOk "alice" 1999 "n1" None None None exampleWorld
    = (inr (Some r), w')
    /\ amount (converted r) = "1".
Proof.
  destruct (examplePay extOk "alice" 1999 "n1" None None None exampleWorld)
    as [[e|[r|]] w'] eqn:Hcall; try (vm_compute in Hcall; discriminate).
  exists r, w'. split; [reflexivity|].
  refine (proj1 (proj2 (proj2
            (converted_amount_is_floor currenciesConfig 1999 1000 _ _)))
            extOk "alice" exampleDomain "n1" None None None exampleWorld r w'
            _ Hcall).
  - lia.
  - lia.
  - vm_compute. reflexivity.
Defined.

Lemma failed_invoice_nonce_reusable :
  findPayment exampleWorld "n1" = None
  /\ examplePay extFailing "alice" 1000 "n1" None None None exampleWorld
     = (inl (Error "Spark operator unreachable"), exampleWorld)
  /\ status
       (fst (exampleLnurlp extOk
               (payRequest "alice" "1000" (Some "n1") None None)
               (snd (examplePay extFailing "alice" 1000 "n1" None None None
                       exampleWorld))))
     = 200.
Proof. repeat split; vm_compute; reflexivity. Qed.

Lemma failed_invoice_leaves_nonce_unused_witness :
  examplePay extFailing "alice" 1000 "n1" None None None exampleWorld
  = (inl (Error "Spark operator unreachable"), exampleWorld).
Proof.
  refine (proj1
            (failed_invoice_leaves_nonce_unused currenciesConfig extFailing
               "alice" exampleDomain 1000 "n1" None None None exampleWorld
               alice 1 (Error "Spark operator unreachable") exampleWorld
               _ _ _ _ _ _));
    vm_compute; reflexivity.
Defined.

Lemma recorded_nonce_unknown_user :
  is_Some (findPayment exampleWorld "n0")
  /\ examplePay extOk "mallory" 1000 "n0" None None None exampleWorld
     = (inr None, exampleWorld)
  /\ exampleLnurlp extOk (payRequest "mallory" "1000" (Some "n0") None None)
       exampleWorld
     = (errorReply 404 "User not found", exampleWorld).
Proof. split; [vm_compute; eauto|split; vm_compute; reflexivity]. Qed.

Lemma recorded_nonce_rejected_witness :
  exampleLnurlp extOk (payRequest "alice" "1000" (Some "n0") None None)
    exampleWorld
  = (errorReply 409
       "Duplicate payment request. This nonce has already been used.",
     exampleWorld).
Proof.
  destruct (findPayment exampleWorld "n0") as [p|] eqn:Hp;
    [|vm_compute in Hp; discriminate].
  refine (proj2 (proj2
            (recorded_nonce_rejected chainMapping currenciesConfig None None
               extOk parseDigits exampleWorld "n0" p Hp))
            (payRequest "alice" "1000" (Some "n0") None None) exampleDomain
            1000 alice 1 _ _ _ _ _ _ _ _);
    try (vm_compute; reflexivity); try discriminate; lia.
Defined.

Lemma missing_address_not_always_rejected :
  activeAddresses exampleWorld 3 = []
  /\ status
       (fst (exampleLnurlp extOk
               (payRequest "carol" "1000" (Some "n5") (Some "ln") None)
               exampleWorld))
     = 200
  /\ is_Some
       (findPayment
          (snd (exampleLnurlp extOk
                  (payRequest "carol" "1000" (Some "n5") (Some "ln") None)
                  exampleWorld))
          "n5")
  /\ exampleLnurlp extOk
       (payRequest "bob" "1000" (Some "n0") (Some "polygon") None) exampleWorld
     = (errorReply 409
          "Duplicate payment request. This nonce has already been used.",
        exampleWorld).
Proof.
  split; [reflexivity|]. split; [vm_compute; reflexivity|].
  split; [vm_compute; eauto|vm_compute; reflexivity].
Qed.

Lemma missing_address_rejected_witness :
  examplePay extOk "bob" 10000 "n1" None (Some "polygon") None exampleWorld
  = (inl (AddressNotFound "polygon"), exampleWorld).
Proof.
  refine (proj1
            (missing_address_rejected currenciesConfig extOk "bob"
               exampleDomain 10000 "n1" None "polygon" None exampleWorld bob 2
               _ _ _ _ _ _ _));
    try (vm_compute; reflexivity); try discriminate.
  intros a Hin Hid _. simpl in Hin.
  destruct Hin as [<-|[<-|[<-|[<-|[<-|[]]]]]]; vm_compute; discriminate.
Defined.

Lemma missing_key_recorded_nonce :
  spark_public_key bob = None
  /\ is_Some (findPayment exampleWorld "n0")
  /\ examplePay extOk "bob" 10000 "n0" None None None exampleWorld
     = (inl DUPLICATE_NONCE, exampleWorld).
Proof. split; [reflexivity|]. split; [vm_compute; eauto|vm_compute; reflexivity]. Qed.

Lemma missing_key_rejected_witness :
  examplePay extOk "bob" 10000 "n2" None None None exampleWorld
  = (inl MissingSettlementIdentity, exampleWorld).
Proof.
  refine (proj1
            (missing_key_rejected currenciesConfig extOk "bob" exampleDomain
               10000 "n2" None None None exampleWorld bob 2 _ _ _ _ _));
    try (vm_compute; reflexivity).
  left. reflexivity.
Defined.

Lemma settlement_descriptor_mismatch :
  (exists r w',
     examplePay extOk "alice" 1000 "n1" None (Some "polygon") None exampleWorld
     = (inr (Some r), w')
     /\ pr r = "0xDEF" /\ settlement r = None)
  /\ (exists r w',
        examplePay extOk "alice" 1000 "n1" None (Some "ln") (Some "BTC")
          exampleWorld
        = (inr (Some r), w')
        /\ settlement r = Some {| si_layer := "ln"; assetIdentifier := "BTC" |}).
Proof.
  split; eexists _, _; (split; [vm_compute; reflexivity|]);
    repeat split; reflexivity.
Qed.

Lemma settlement_descriptor_presence_witness :
  exists r w',
    examplePay extOk "alice" 1000 "n1" None (Some "polygon")
      (Some "USDT_POLYGON") exampleWorld
    = (inr (Some r), w')
    /\ forall s, settlement r = Some s ->
         Some "polygon" = Some (si_layer s)
         /\ Some "USDT_POLYGON" = Some (assetIdentifier s).
Proof.
  destruct (examplePay extOk "alice" 1000 "n1" None (Some "polygon")
              (Some "USDT_POLYGON") exampleWorld)
    as [[e|[r|]] w'] eqn:Hcall; try (vm_compute in Hcall; discriminate).
  exists r, w'. split; [reflexivity|].
  exact (proj2
           (settlement_descriptor_presence currenciesConfig extOk "alice"
              exampleDomain 1000 "n1" None (Some "polygon")
              (Some "USDT_POLYGON") exampleWorld r w' Hcall)).
Defined.

Lemma zero_rate_currency_skipped :
  calculateMultipliers extOk "BTC" ["EUR"] !! "EUR" = Some 0
  /\ calculateMultipliers extOk "BTC" ["BTC"] !! "BTC" = None
  /\ (exists r,
        exampleLnurlp extOk (lookupRequest "alice") exampleWorld
        = ({| status := 200; body := LookupBody r |}, exampleWorld)
        /\ map code (currencies r) = ["USD"])
  /\ fst (exampleLnurlp extOk
            {| params_username := "alice"; hostname := "example.com";
               q_amount := Some "1500"; q_nonce := Some "n9";
               q_currency := Some "EUR"; q_settlementLayer := None;
               q_assetIdentifier := None |}
            exampleWorld)
     = errorReply 500 "Internal server error".
Proof.
  split; [vm_compute; reflexivity|]. split; [vm_compute; reflexivity|].
  split; [|vm_compute; reflexivity].
  eexists. split; vm_compute; reflexivity.
Qed.

Lemma zero_or_missing_multiplier_witness :
  buildCurrencies currenciesConfig extOk (currency_settings exampleDomain)
  = buildCurrencies currenciesConfig extOk
      (Some [ ("BTC", {| active := true; cs_minSendable := 1000;
                         cs_maxSendable := 100000000 |});
              ("USD", {| active := true; cs_minSendable := 1;
                         cs_maxSendable := 100000 |}) ])
    ++ buildCurrencies currenciesConfig extOk (Some []).
Proof.
  refine (proj1
            (zero_or_missing_multiplier currenciesConfig extOk
               (Some 0) _)
            "EUR" {| active := true; cs_minSendable := 1;
                     cs_maxSendable := 100000 |}
            [ ("BTC", {| active := true; cs_minSendable := 1000;
                         cs_maxSendable := 100000000 |});
              ("USD", {| active := true; cs_minSendable := 1;
                         cs_maxSendable := 100000 |}) ]
            [] _ _).
  - right. reflexivity.
  - repeat constructor.
  - vm_compute. reflexivity.
Defined.

(** C6, at the failing input. addUserAddress stores a blank address as the
    empty string; for carol with such an address on the chain "spark",
    getFormattedAddresses builds the record with the empty address, and the
    identifier of the spark asset that buildSettlementOptions makes, and
    that the discovery response carries, is not the stored address, nor any
    string, but that record, since [chainData.address || chainData] falls
    through on the empty address. For alice, whose spark address is not
    empty, the identifiers are the stored address on the layer spark and
    ASSET_LAYER on the others. *)
Theorem spark_identifier_empty_address :
  formatAddresses
    (activeAddresses (snd (addUserAddress 3 "spark" "  " exampleWorld)) 3)
  = [ ("spark", ChainObject "" None) ]
  /\ (exists l,
        buildSettlementOptions chainMapping extOk
          [ ("spark", ChainObject "" None) ] ["BTC"; "USD"; "EUR"] = inr l
        /\ map (fun o => (settlementLayer o, map identifier (assets o))) l
           = [ ("spark", [ChainObject "" None]) ])
  /\ (exists r l,
        generateLookupResponse chainMapping currenciesConfig None None extOk
          "carol" exampleDomain
          (snd (addUserAddress 3 "spark" "  " exampleWorld))
        = (inr (Some r), snd (addUserAddress 3 "spark" "  " exampleWorld))
        /\ settlementOptions r = Some l
        /\ map (fun o => (settlementLayer o, map identifier (assets o))) l
           = [ ("spark", [ChainObject "" None]) ])
  /\ (exists l,
        buildSettlementOptions chainMapping extOk
          (formatAddresses (activeAddresses exampleWorld 1))
          ["BTC"; "USD"; "EUR"] = inr l
        /\ map (fun o => (settlementLayer o, map identifier (assets o))) l
           = [ ("ethereum", [ChainString "USDT_ETHEREUM"]);
               ("spark", [ChainString "02509abc"]);
               ("polygon", [ChainString "USDT_POLYGON"]) ]).
Proof.
  split; [vm_compute; reflexivity|].
  split; [eexists; split; vm_compute; reflexivity|].
  split; [eexists _, _; (split; [|split]); vm_compute; reflexivity|].
  eexists; split; vm_compute; reflexivity.
Qed.

(** C9, at the failing input. The chain "dogecoin" of alice has no chain
    mapping and is skipped: discovery answers 200 with the options of her
    other chains. The chain "constructor" has no chain mapping either, but
    [CHAIN_MAPPING["constructor"]] is the function that every object
    inherits: the guard does not fire, buildSettlementOptions throws, and
    once alice has an address on that chain discovery answers 500. *)
Theorem inherited_chain_name_is_not_skipped :
  chainMapping !! "dogecoin" = None
  /\ chainMapping !! "constructor" = None
  /\ (exists r l,
        exampleLnurlp extOk (lookupRequest "alice") exampleWorld
        = ({| status := 200; body := LookupBody r |}, exampleWorld)
        /\ settlementOptions r = Some l
        /\ map settlementLayer l = ["ethereum"; "spark"; "polygon"])
  /\ buildSettlementOptions chainMapping extOk
       [ ("ethereum", ChainString "0xABC"); ("constructor", ChainString "0xC0") ]
       ["USD"]
     = inl (TypeError
              "Cannot read properties of undefined (reading 'toUpperCase')")
  /\ exampleLnurlp extOk (lookupRequest "alice")
       (snd (addUserAddress 1 "constructor" "0xC0" exampleWorld))
     = (errorReply 500 "Internal server error",
        snd (addUserAddress 1 "constructor" "0xC0" exampleWorld)).
Proof.
  split; [vm_compute; reflexivity|]. split; [vm_compute; reflexivity|].
  split; [eexists _, _; (split; [|split]); vm_compute; reflexivity|].
  split; vm_compute; reflexivity.
Qed.

Lemma missing_nonce_generated_witness :
  exampleLnurlp extOk (payRequest "alice" "1000" None None None) exampleWorld
  = exampleLnurlp extOk
      (payRequest "alice" "1000" (Some "uma_1700000000000_k3x9qa") None None)
      exampleWorld.
Proof.
  refine (proj1
            (missing_nonce_generated chainMapping currenciesConfig None None
               extOk parseDigits
               (payRequest "alice" "1000" None None None) exampleWorld _ _));
    vm_compute; reflexivity.
Defined.

(** A request without a nonce is paid, and its record carries the generated
    nonce. *)
Example generated_nonce_is_recorded :
  status
    (fst (exampleLnurlp extOk (payRequest "alice" "1000" None None None)
            exampleWorld))
  = 200
  /\ is_Some
       (findPayment
          (snd (exampleLnurlp extOk (payRequest "alice" "1000" None None None)
                  exampleWorld))
          "uma_1700000000000_k3x9qa").
Proof. split; [vm_compute; reflexivity|vm_compute; eauto]. Qed.

(** * More properties of the services *)

(** * More properties of the services *)

(** ** What a phase-2 call leaves in the store *)

Lemma receiverKey_spec key :
  (if JS.truthy
        match key with
        | Some k =>
            if (negb (String.eqb k "") && JS.startsWith "0x" k)%bool
            then Some (JS.slice 2 k) else Some k
        | None => None
        end
   then match key with
        | Some k =>
            if (negb (String.eqb k "") && JS.startsWith "0x" k)%bool
            then Some (JS.slice 2 k) else Some k
        | None => None
        end
   else None) = receiverKey key.
Proof.
  destruct key as [k|]; [|reflexivity]. unfold receiverKey.
  destruct (String.eqb_spec k "") as [->|Hk]; [reflexivity|]. simpl.
  destruct (JS.startsWith "0x" k); simpl.
  - destruct (String.eqb (JS.slice 2 k) ""); reflexivity.
  - destruct (String.eqb_spec k ""); [contradiction|reflexivity].
Qed.

(** The two ways generateLightningInvoice ends: it throws and changes
    nothing, or the wallet minted an invoice for the request below. *)
Lemma generateLightningInvoice_cases ext amt name key w :
  (exists e, generateLightningInvoice ext amt name key w = (inl e, w))
  \/ (exists wallet inv,
        sparkWallet ext = inr wallet
        /\ wallet {| amountSats := amt; memo := "Payment to " +:+ name;
                     includeSparkAddress := true;
                     receiverIdentityPubkey := receiverKey key |} = inr inv
        /\ generateLightningInvoice ext amt name key w
           = (inr inv,
              withInvoice w
                ({| amountSats := amt; memo := "Payment to " +:+ name;
                    includeSparkAddress := true;
                    receiverIdentityPubkey := receiverKey key |}, inv))).
Proof.
  unfold generateLightningInvoice, bind, get, put, ret, throw.
  rewrite receiverKey_spec.
  destruct (sparkWallet ext) as [e|wallet]; [left; eauto|].
  destruct (wallet _) as [e|inv] eqn:E; [left; eauto|].
  right. exists wallet, inv. auto.
Qed.

Section MorePayments.

Variable CURRENCIES : gmap string CurrencyConfig.

(** Every way a call ends: it leaves the store as it was and returns no
    response, or it got through the dispatch and stored its record. *)
Lemma generatePayResponse_cases ext name d amt nonce cur lay aid w :
  (snd (generatePayResponse CURRENCIES ext name d amt nonce cur lay aid w) = w
   /\ forall r,
        fst (generatePayResponse CURRENCIES ext name d amt nonce cur lay aid w)
        <> inr (Some r))
  \/ exists user uid w0 paymentRequest,
       findUser w name (d_id d) = Some user /\ u_id user = Some uid
       /\ findPayment w nonce = None
       /\ (w0 = w \/ exists i, w0 = withInvoice w i)
       /\ snd (generatePayResponse CURRENCIES ext name d amt nonce cur lay aid w)
          = withPayment w0
              (paymentRecord w0 uid nonce amt cur lay aid paymentRequest)
       /\ (forall r,
             fst (generatePayResponse CURRENCIES ext name d amt nonce cur lay
                    aid w) = inr (Some r) ->
             pr r = paymentRequest)
       /\ fst (generatePayResponse CURRENCIES ext name d amt nonce cur lay aid w)
          <> inr None.
Proof.
  unfold_service.
  destruct (findUser w name (d_id d)) as [user|] eqn:Hu;
    [|left; split; [reflexivity|discriminate]].
  destruct (u_id user) as [uid|] eqn:Hid;
    [|left; split; [reflexivity|discriminate]].
  destruct (findPayment w nonce) eqn:Hp;
    [left; split; [reflexivity|discriminate]|].
  split_dispatch e a w0 Hd.
  - left. simpl. split; [|discriminate].
    destruct (nonLightning lay).
    + destruct (find _ _); injection Hd as _ <-; reflexivity.
    + destruct (negb _); [injection Hd as _ <-; reflexivity|].
      destruct (generateLightningInvoice_cases ext amt name
                  (spark_public_key user) w)
        as [[e' H]|(wl & inv & _ & _ & H)];
        rewrite H in Hd; [injection Hd as _ <-; reflexivity|discriminate].
  - assert (Hw0 : w0 = w \/ exists i, w0 = withInvoice w i).
    { destruct (nonLightning lay).
      + destruct (find _ _); [injection Hd as _ <-; auto|discriminate].
      + destruct (negb _); [discriminate|].
        destruct (generateLightningInvoice_cases ext amt name
                    (spark_public_key user) w)
          as [[e' H]|(wl & inv & _ & _ & H)];
          rewrite H in Hd; [discriminate|].
        injection Hd as _ <-. eauto. }
    assert (Hp0 : findPayment w0 nonce = None).
    { destruct Hw0 as [->|[i ->]]; exact Hp. }
    rewrite Hp0. right. exists user, uid, w0, a.
    repeat split; auto.
    + destruct (amountInCurrencyUnits _ _); reflexivity.
    + destruct (amountInCurrencyUnits _ _); simpl; [discriminate|].
      intros r [= <-]. reflexivity.
    + destruct (amountInCurrencyUnits _ _); discriminate.
Qed.

Lemma generatePayResponse_frame ext name d amt nonce cur lay aid w :
  users (snd (generatePayResponse CURRENCIES ext name d amt nonce cur lay aid w))
  = users w
  /\ chain_addresses
       (snd (generatePayResponse CURRENCIES ext name d amt nonce cur lay aid w))
     = chain_addresses w
  /\ domains (snd (generatePayResponse CURRENCIES ext name d amt nonce cur lay aid w))
     = domains w
  /\ (payment_requests
        (snd (generatePayResponse CURRENCIES ext name d amt nonce cur lay aid w))
      = payment_requests w
      \/ exists p,
           payment_requests
             (snd (generatePayResponse CURRENCIES ext name d amt nonce cur lay
                     aid w))
           = payment_requests w ++ [p]
           /\ pr_nonce p = nonce /\ findPayment w nonce = None)
  /\ (invoices (snd (generatePayResponse CURRENCIES ext name d amt nonce cur lay aid w))
      = invoices w
      \/ exists i,
           invoices
             (snd (generatePayResponse CURRENCIES ext name d amt nonce cur lay
                     aid w))
           = invoices w ++ [i]).
Proof.
  destruct (generatePayResponse_cases ext name d amt nonce cur lay aid w)
    as [[-> _]|(user & uid & w0 & p & _ & _ & Hp & Hw0 & -> & _)].
  - auto 10.
  - destruct Hw0 as [->|[i ->]]; simpl; repeat split; eauto 10.
Qed.

Lemma generatePayResponse_records ext name d amt nonce cur lay aid w r w' :
  generatePayResponse CURRENCIES ext name d amt nonce cur lay aid w
  = (inr (Some r), w') ->
  exists user uid p,
    findUser w name (d_id d) = Some user /\ u_id user = Some uid
    /\ payment_requests w' = payment_requests w ++ [p]
    /\ findPayment w' nonce = Some p
    /\ pr_user_id p = uid /\ pr_nonce p = nonce /\ amount_msats p = amt
    /\ pr_currency p = cur /\ settlement_layer p = lay
    /\ asset_identifier p = aid /\ invoice p = pr r.
Proof.
  intros Hcall.
  destruct (generatePayResponse_cases ext name d amt nonce cur lay aid w)
    as [[_ Hno]|(user & uid & w0 & p & Hu & Hid & Hp & Hw0 & Hw' & Hpr & _)].
  - rewrite Hcall in Hno. now destruct (Hno r).
  - rewrite Hcall in Hw', Hpr. simpl in Hw', Hpr. subst w'.
    rewrite <- (Hpr r eq_refl).
    exists user, uid, (paymentRecord w0 uid nonce amt cur lay aid (pr r)).
    assert (Hpw : payment_requests w0 = payment_requests w)
      by (destruct Hw0 as [->|[i ->]]; reflexivity).
    repeat split; auto.
    + simpl. now rewrite Hpw.
    + unfold findPayment in *. simpl. apply find_snoc.
      * now rewrite Hpw.
      * simpl. apply String.eqb_refl.
Qed.

(** X1. A phase-2 call never touches the users, the chain addresses or the
    domains; it never removes or alters a stored payment request or a
    minted invoice: it adds at most one payment request, under the nonce of
    the call and only when that nonce was free, and at most one invoice. *)
Theorem payment_call_frame ext name d amt nonce cur lay aid w :
  users (snd (generatePayResponse CURRENCIES ext name d amt nonce cur lay aid w))
  = users w
  /\ chain_addresses
       (snd (generatePayResponse CURRENCIES ext name d amt nonce cur lay aid w))
     = chain_addresses w
  /\ domains (snd (generatePayResponse CURRENCIES ext name d amt nonce cur lay aid w))
     = domains w
  /\ (payment_requests
        (snd (generatePayResponse CURRENCIES ext name d amt nonce cur lay aid w))
      = payment_requests w
      \/ exists p,
           payment_requests
             (snd (generatePayResponse CURRENCIES ext name d amt nonce cur lay
                     aid w))
           = payment_requests w ++ [p]
           /\ pr_nonce p = nonce /\ findPayment w nonce = None)
  /\ (invoices (snd (generatePayResponse CURRENCIES ext name d amt nonce cur lay aid w))
      = invoices w
      \/ exists i,
           invoices
             (snd (generatePayResponse CURRENCIES ext name d amt nonce cur lay
                     aid w))
           = invoices w ++ [i]).
Proof.
  exact (generatePayResponse_frame ext name d amt nonce cur lay aid w).
Qed.

(** X2. A call that returns a response has stored exactly one new payment
    request: it holds the user, the nonce, the amount, the currency, the
    settlement layer and the asset identifier of the call and the payment
    request of the response, and the lookup by that nonce finds it. *)
Theorem successful_payment_is_recorded ext name d amt nonce cur lay aid w r w' :
  generatePayResponse CURRENCIES ext name d amt nonce cur lay aid w
  = (inr (Some r), w') ->
  exists user uid p,
    findUser w name (d_id d) = Some user /\ u_id user = Some uid
    /\ payment_requests w' = payment_requests w ++ [p]
    /\ findPayment w' nonce = Some p
    /\ pr_user_id p = uid /\ pr_nonce p = nonce /\ amount_msats p = amt
    /\ pr_currency p = cur /\ settlement_layer p = lay
    /\ asset_identifier p = aid /\ invoice p = pr r.
Proof.
  exact (generatePayResponse_records ext name d amt nonce cur lay aid w r w').
Qed.

End MorePayments.

(** ** The handler and the store *)

Lemma find_app_Some {A} (f : A -> bool) l l' x :
  List.find f l = Some x -> List.find f (l ++ l') = Some x.
Proof.
  induction l as [|y l IH]; simpl; [discriminate|].
  destruct (f y); auto.
Qed.

Lemma find_None_forall {A} (f : A -> bool) l :
  List.find f l = None -> forall x, In x l -> f x = false.
Proof.
  induction l as [|y l IH]; simpl; [contradiction|].
  destruct (f y) eqn:E; [discriminate|].
  intros H x [<-|Hx]; auto.
Qed.

Section MoreHandler.

Variable CHAIN_MAPPING : gmap string ChainMapping.
Variable CURRENCIES : gmap string CurrencyConfig.
Variable BASE_URL NODE_ENV : option string.
Variable parseInt : string -> option Z.

Local Abbreviation handle ext :=
  (lnurlp CHAIN_MAPPING CURRENCIES BASE_URL NODE_ENV ext parseInt).

Lemma generateLookupResponse_read_only ext name d w :
  snd (generateLookupResponse CHAIN_MAPPING CURRENCIES BASE_URL NODE_ENV ext
         name d w) = w.
Proof.
  unfold generateLookupResponse, getUserByUsernameAndDomain,
    getFormattedAddresses, getUserAddresses, bind, get, ret, throw.
  destruct (findUser w name (d_id d)) as [user|]; [|reflexivity].
  destruct (u_id user);
    (destruct (buildSettlementOptions _ _ _ _); [reflexivity|]);
    (destruct (currency_settings d) as [s|]; [|reflexivity]);
    destruct (obj_get s "BTC"); reflexivity.
Qed.

(** buildSettlementOptions throws one error only. *)
Lemma buildSettlementOptions_error ext chains cur e :
  buildSettlementOptions CHAIN_MAPPING ext chains cur = inl e ->
  e = TypeError "Cannot read properties of undefined (reading 'toUpperCase')".
Proof.
  induction chains as [|[k v] r IH]; simpl; [discriminate|].
  destruct (getProperty CHAIN_MAPPING (JS.toLowerCase k)) as [m| |].
  - destruct (buildSettlementOptions CHAIN_MAPPING ext r cur);
      [|discriminate].
    intros [= <-]. now apply IH.
  - now intros [= <-].
  - exact IH.
Qed.

(** Every error of generateLookupResponse is answered 500. *)
Lemma generateLookupResponse_error ext name d w e :
  fst (generateLookupResponse CHAIN_MAPPING CURRENCIES BASE_URL NODE_ENV ext
         name d w) = inl e ->
  lnurlpCatch e = errorReply 500 "Internal server error".
Proof.
  unfold generateLookupResponse, getUserByUsernameAndDomain,
    getFormattedAddresses, getUserAddresses, bind, get, ret, throw.
  destruct (findUser w name (d_id d)) as [user|]; [|discriminate].
  destruct (u_id user);
    (destruct (buildSettlementOptions _ _ _ _) as [e'|l] eqn:E;
     [apply buildSettlementOptions_error in E; subst e';
      intros [= <-]; reflexivity|]);
    (destruct (currency_settings d) as [s|];
     [destruct (obj_get s "BTC"); [discriminate|]|]);
    intros [= <-]; reflexivity.
Qed.

(** The reply to a discovery request. *)
Lemma lnurlp_lookup ext req w :
  JS.truthy (q_amount req) = false ->
  handle ext req w
  = match findDomain w (JS.toLowerCase (hostname req)) with
    | None =>
        (errorReply 404
           ("Domain " +:+ JS.toLowerCase (hostname req) +:+ " not found"), w)
    | Some d =>
        match fst (generateLookupResponse CHAIN_MAPPING CURRENCIES BASE_URL
                     NODE_ENV ext (params_username req) d w) with
        | inr (Some r) => ({| status := 200; body := LookupBody r |}, w)
        | inr None => (errorReply 404 "User not found", w)
        | inl e => (lnurlpCatch e, w)
        end
    end.
Proof.
  intros Hreq. unfold lnurlp, lnurlpTry. rewrite Hreq. cbn [negb].
  unfold getDomainByName, bind, get, ret.
  destruct (findDomain w (JS.toLowerCase (hostname req))) as [d|];
    [|reflexivity].
  pose proof (generateLookupResponse_read_only ext (params_username req) d w)
    as Hw.
  destruct (generateLookupResponse _ _ _ _ _ _ _ w) as [[e|[r|]] w'];
    simpl in *; subst w'; reflexivity.
Qed.

(** The reply to a request with an amount. *)
Lemma lnurlp_amount ext req w :
  JS.truthy (q_amount req) = true ->
  handle ext req w
  = match parseInt (JS.or_else (q_amount req) "") with
    | None => (errorReply 400 "Invalid amount", w)
    | Some amt =>
        if Z.leb amt 0 then (errorReply 400 "Invalid amount", w)
        else
          match findDomain w (JS.toLowerCase (hostname req)) with
          | None =>
              (errorReply 404
                 ("Domain " +:+ JS.toLowerCase (hostname req) +:+ " not found"),
               w)
          | Some d =>
              payReply
                (generatePayResponse CURRENCIES ext (params_username req) d amt
                   (JS.or_else (q_nonce req) (generatedNonce ext))
                   (q_currency req) (q_settlementLayer req)
                   (q_assetIdentifier req) w)
          end
    end.
Proof.
  intros Hreq. unfold lnurlp, lnurlpTry. rewrite Hreq. cbn [negb].
  destruct (parseInt _) as [amt|]; [|reflexivity].
  destruct (Z.leb amt 0); [reflexivity|].
  unfold getDomainByName, bind, get, ret.
  destruct (findDomain w (JS.toLowerCase (hostname req))) as [d|];
    [|reflexivity].
  destruct (generatePayResponse _ _ _ _ _ _ _ _ _ w) as [[e|[r|]] w'];
    reflexivity.
Qed.

(** The store after a request is the store before it, or the store that a
    call of generatePayResponse left. *)
Lemma lnurlp_store ext req w :
  snd (handle ext req w) = w
  \/ exists d amt nonce,
       snd (handle ext req w)
       = snd (generatePayResponse CURRENCIES ext (params_username req) d amt
                nonce (q_currency req) (q_settlementLayer req)
                (q_assetIdentifier req) w).
Proof.
  destruct (JS.truthy (q_amount req)) eqn:Hreq.
  - rewrite (lnurlp_amount ext req w Hreq).
    destruct (parseInt _) as [amt|]; [|auto].
    destruct (Z.leb amt 0); [auto|].
    destruct (findDomain w _) as [d|]; [|auto].
    right. exists d, amt, (JS.or_else (q_nonce req) (generatedNonce ext)).
    destruct (generatePayResponse _ _ _ _ _ _ _ _ _ w) as [[e|[r|]] w'];
      reflexivity.
  - rewrite (lnurlp_lookup ext req w Hreq).
    destruct (findDomain w _) as [d|]; [|auto].
    destruct (fst _) as [e|[r|]]; auto.
Qed.

(** X3. A stored payment request is permanent: whatever request the handler
    serves, the lookup by a nonce that was recorded before still finds the
    same record afterwards. *)
Theorem recorded_payment_is_permanent ext req w nonce p :
  findPayment w nonce = Some p ->
  findPayment (snd (handle ext req w)) nonce = Some p.
Proof.
  intros Hp.
  destruct (lnurlp_store ext req w) as [->|(d & amt & n & ->)]; [exact Hp|].
  destruct (generatePayResponse_frame CURRENCIES ext (params_username req) d amt n
              (q_currency req) (q_settlementLayer req) (q_assetIdentifier req) w)
    as (_ & _ & _ & [H|(q & H & _)] & _);
    unfold findPayment in *; rewrite H; [exact Hp|].
  now apply find_app_Some.
Qed.

(** X4. The nonces of the stored payment requests stay pairwise distinct:
    the handler keeps that invariant of the store, whatever the request. *)
Theorem nonces_stay_unique ext req w :
  NoDup (map pr_nonce (payment_requests w)) ->
  NoDup
    (map pr_nonce
       (payment_requests
          (snd (lnurlp CHAIN_MAPPING CURRENCIES BASE_URL NODE_ENV ext parseInt
                  req w)))).
Proof.
  intros Hnd.
  destruct (lnurlp_store ext req w) as [->|(d & amt & n & ->)]; [exact Hnd|].
  destruct (generatePayResponse_frame CURRENCIES ext (params_username req) d amt n
              (q_currency req) (q_settlementLayer req) (q_assetIdentifier req) w)
    as (_ & _ & _ & [H|(q & H & Hq & Hfree)] & _); rewrite H; [exact Hnd|].
  rewrite map_app. simpl. apply NoDup_app. split; [exact Hnd|].
  split; [|apply NoDup_singleton].
  intros x Hx Hx'. apply list_elem_of_In in Hx, Hx'.
  destruct Hx' as [<-|[]]. apply in_map_iff in Hx.
  destruct Hx as (y & Hy & Hin).
  pose proof (find_None_forall _ _ Hfree y Hin) as Hne. simpl in Hne.
  rewrite Hy, Hq, String.eqb_refl in Hne. discriminate.
Qed.

End MoreHandler.

(** ** Dispatch and conversion *)

Section MoreDispatch.

Variable CHAIN_MAPPING : gmap string ChainMapping.
Variable CURRENCIES : gmap string CurrencyConfig.
Variable BASE_URL NODE_ENV : option string.
Variable parseInt : string -> option Z.

Local Abbreviation handle ext :=
  (lnurlp CHAIN_MAPPING CURRENCIES BASE_URL NODE_ENV ext parseInt).

(** The outcome of a call that takes the address of the user for the
    chosen layer. *)
Lemma address_dispatch_outcome ext name d amt nonce cur l aid w user uid a :
  findUser w name (d_id d) = Some user -> u_id user = Some uid ->
  findPayment w nonce = None ->
  nonLightning (Some l) = true ->
  List.find
    (fun a => String.eqb (JS.toLowerCase (chain_name a)) (JS.toLowerCase l))
    (activeAddresses w uid) = Some a ->
  generatePayResponse CURRENCIES ext name d amt nonce cur (Some l) aid w
  = match amountInCurrencyUnits amt
            (calculateMultipliers ext "USDT" [JS.or_else cur "USD"]
             !! JS.or_else cur "USD") with
    | inl e =>
        (inl e,
         withPayment w (paymentRecord w uid nonce amt cur (Some l) aid (address a)))
    | inr units =>
        (inr (Some
           {| pr := address a; routes := [];
              settlement :=
                if JS.truthy aid
                then Some {| si_layer := l;
                             assetIdentifier := JS.or_else aid "" |}
                else None;
              converted :=
                {| amount := JS.toString units;
                   currencyCode := JS.or_else cur "USD";
                   cv_decimals :=
                     cfg_decimals <$> CURRENCIES !! JS.or_else cur "USD";
                   cv_multiplier :=
                     match calculateMultipliers ext "USDT" [JS.or_else cur "USD"]
                           !! JS.or_else cur "USD" with
                     | Some m => m
                     | None => 0
                     end;
                   fee := receiverFees |};
              disposable := false;
              successAction :=
                ("message",
                 "Payment received! Thank you for paying "
                 +:+ JS.or_else (display_name user) name +:+ ".") |}),
         withPayment w (paymentRecord w uid nonce amt cur (Some l) aid (address a)))
    end.
Proof.
  intros Hu Hid Hp Hl Ha. unfold_service.
  rewrite Hu, Hid, Hp, Hl.
  assert (Hne : JS.or_else (Some l) "" = l /\ JS.truthy (Some l) = true).
  { unfold nonLightning in Hl. simpl.
    destruct (String.eqb l ""); [discriminate|auto]. }
  destruct Hne as [-> ->]. rewrite Ha. rewrite Hp. simpl.
  destruct (amountInCurrencyUnits _ _); reflexivity.
Qed.

(** X5. When the sender chooses a layer other than 'ln' and 'spark' and the
    user has an active address whose chain name equals it up to case, the
    call uses the first such address as the payment request and stores it
    in the record; it mints no invoice, and its outcome depends neither on
    the Spark wallet nor on the Spark key of the user. *)
Theorem address_dispatch ext name d amt nonce cur l aid w user uid a :
  findUser w name (d_id d) = Some user -> u_id user = Some uid ->
  findPayment w nonce = None ->
  nonLightning (Some l) = true ->
  List.find
    (fun a => String.eqb (JS.toLowerCase (chain_name a)) (JS.toLowerCase l))
    (activeAddresses w uid) = Some a ->
  invoices
    (snd (generatePayResponse CURRENCIES ext name d amt nonce cur (Some l) aid w))
  = invoices w
  /\ findPayment
       (snd (generatePayResponse CURRENCIES ext name d amt nonce cur (Some l)
               aid w)) nonce
     = Some (paymentRecord w uid nonce amt cur (Some l) aid (address a))
  /\ (forall r,
        fst (generatePayResponse CURRENCIES ext name d amt nonce cur (Some l)
               aid w) = inr (Some r) ->
        pr r = address a)
  /\ (forall wallet,
        generatePayResponse CURRENCIES
          {| sparkWallet := wallet;
             calculateMultipliers := calculateMultipliers ext;
             Date_now := Date_now ext; Math_random36 := Math_random36 ext |}
          name d amt nonce cur (Some l) aid w
        = generatePayResponse CURRENCIES ext name d amt nonce cur (Some l) aid w).
Proof.
  intros Hu Hid Hp Hl Ha.
  assert (Hrec : findPayment
            (withPayment w
               (paymentRecord w uid nonce amt cur (Some l) aid (address a)))
            nonce
          = Some (paymentRecord w uid nonce amt cur (Some l) aid (address a))).
  { unfold findPayment in *. simpl. apply find_snoc; [exact Hp|].
    simpl. apply String.eqb_refl. }
  split; [|split; [|split]].
  - rewrite (address_dispatch_outcome ext name d amt nonce cur l aid w user uid a)
      by assumption.
    destruct (amountInCurrencyUnits _ _); reflexivity.
  - rewrite (address_dispatch_outcome ext name d amt nonce cur l aid w user uid a)
      by assumption.
    destruct (amountInCurrencyUnits _ _); exact Hrec.
  - intros r.
    rewrite (address_dispatch_outcome ext name d amt nonce cur l aid w user uid a)
      by assumption.
    destruct (amountInCurrencyUnits _ _); simpl; [discriminate|].
    intros [= <-]. reflexivity.
  - intros wallet.
    rewrite !(address_dispatch_outcome _ name d amt nonce cur l aid w user uid a)
      by assumption.
    reflexivity.
Qed.

(** X6. The record is written before the amount is converted: when the
    dispatch to an address succeeds but the multiplier of the currency is
    zero or missing, the call throws, the handler answers 500, and yet the
    payment request is stored, so that the same request sent again is
    refused with 409. *)
Theorem conversion_failure_keeps_record ext req w d amt nonce l user uid a :
  JS.truthy (q_amount req) = true ->
  parseInt (JS.or_else (q_amount req) "") = Some amt -> 0 < amt ->
  findDomain w (JS.toLowerCase (hostname req)) = Some d ->
  q_nonce req = Some nonce -> nonce <> "" ->
  q_settlementLayer req = Some l -> nonLightning (Some l) = true ->
  findUser w (params_username req) (d_id d) = Some user -> u_id user = Some uid ->
  findPayment w nonce = None ->
  List.find
    (fun a => String.eqb (JS.toLowerCase (chain_name a)) (JS.toLowerCase l))
    (activeAddresses w uid) = Some a ->
  calculateMultipliers ext "USDT" [JS.or_else (q_currency req) "USD"]
    !! JS.or_else (q_currency req) "USD" = None
  \/ calculateMultipliers ext "USDT" [JS.or_else (q_currency req) "USD"]
       !! JS.or_else (q_currency req) "USD" = Some 0 ->
  fst (handle ext req w) = errorReply 500 "Internal server error"
  /\ findPayment (snd (handle ext req w)) nonce
     = Some (paymentRecord w uid nonce amt (q_currency req) (Some l)
               (q_assetIdentifier req) (address a))
  /\ forall ext',
       handle ext' req (snd (handle ext req w))
       = (errorReply 409
            "Duplicate payment request. This nonce has already been used.",
          snd (handle ext req w)).
Proof.
  intros Ht Hparse Hpos Hd Hn Hne Hlay Hl Hu Hid Hp Ha Hrate.
  rewrite (lnurlp_pay CHAIN_MAPPING CURRENCIES BASE_URL NODE_ENV ext parseInt
             req w amt d Ht Hparse Hpos Hd).
  rewrite Hn, (or_else_Some nonce _ Hne), Hlay.
  rewrite (address_dispatch_outcome ext _ d amt nonce _ l _ w user uid a)
    by assumption.
  set (w' := withPayment w _).
  assert (Hrec : findPayment w' nonce
                 = Some (paymentRecord w uid nonce amt (q_currency req) (Some l)
                           (q_assetIdentifier req) (address a))).
  { unfold findPayment in *. simpl. apply find_snoc; [exact Hp|].
    simpl. apply String.eqb_refl. }
  assert (Hout : exists e,
            amountInCurrencyUnits amt
              (calculateMultipliers ext "USDT" [JS.or_else (q_currency req) "USD"]
               !! JS.or_else (q_currency req) "USD") = inl e
            /\ lnurlpCatch e = errorReply 500 "Internal server error").
  { destruct Hrate as [-> | ->]; eexists; split; reflexivity. }
  destruct Hout as (e & -> & He). simpl. rewrite He.
  split; [reflexivity|]. split; [exact Hrec|].
  intros ext'.
  rewrite (lnurlp_pay CHAIN_MAPPING CURRENCIES BASE_URL NODE_ENV ext' parseInt
             req w' amt d Ht Hparse Hpos Hd).
  rewrite Hn, (or_else_Some nonce _ Hne).
  rewrite (recorded_nonce_throws CURRENCIES ext' _ d amt nonce _ _ _ w' _ user uid
             Hrec Hu Hid).
  reflexivity.
Qed.

(** X7. When the layer is absent, 'ln' or 'spark', the user has a Spark key
    and the wallet mints the invoice, one invoice is minted, for
    [amountSats] equal to the amount of the request in millisatoshi, with
    the memo "Payment to " and the user name, the Spark address included and
    the key of the user without its 0x prefix; the invoice is the payment
    request of the response and of the stored record. *)
Theorem lightning_dispatch ext name d amt nonce cur lay aid w user uid wallet inv :
  findUser w name (d_id d) = Some user -> u_id user = Some uid ->
  findPayment w nonce = None ->
  nonLightning lay = false ->
  JS.truthy (spark_public_key user) = true ->
  sparkWallet ext = inr wallet ->
  wallet {| amountSats := amt; memo := "Payment to " +:+ name;
            includeSparkAddress := true;
            receiverIdentityPubkey := receiverKey (spark_public_key user) |}
  = inr inv ->
  invoices (snd (generatePayResponse CURRENCIES ext name d amt nonce cur lay aid w))
  = invoices w
    ++ [ ({| amountSats := amt; memo := "Payment to " +:+ name;
             includeSparkAddress := true;
             receiverIdentityPubkey := receiverKey (spark_public_key user) |},
          inv) ]
  /\ (exists p,
        findPayment
          (snd (generatePayResponse CURRENCIES ext name d amt nonce cur lay aid w))
          nonce = Some p
        /\ invoice p = inv /\ amount_msats p = amt)
  /\ (forall r,
        fst (generatePayResponse CURRENCIES ext name d amt nonce cur lay aid w)
        = inr (Some r) ->
        pr r = inv).
Proof.
  intros Hu Hid Hp Hl Hk Hw Hinv.
  destruct (generateLightningInvoice_cases ext amt name (spark_public_key user) w)
    as [[e H]|(wl & inv' & Hw' & Hinv' & H)].
  { exfalso. unfold generateLightningInvoice, bind, get, put, ret, throw in H.
    rewrite receiverKey_spec, Hw, Hinv in H. discriminate. }
  rewrite Hw in Hw'. injection Hw' as <-. rewrite Hinv in Hinv'.
  injection Hinv' as <-.
  unfold_service. rewrite Hu, Hid, Hp, Hl, Hk. simpl. rewrite H.
  change (findPayment (withInvoice w _) nonce) with (findPayment w nonce).
  rewrite Hp.
  assert (Hrec : forall q : PaymentRequest, pr_nonce q = nonce ->
    List.find (fun p => String.eqb (pr_nonce p) nonce)
      (payment_requests w ++ [q]) = Some q).
  { intros q Hq. apply find_snoc; [exact Hp|]. rewrite Hq. apply String.eqb_refl. }
  destruct (amountInCurrencyUnits _ _); simpl;
    (split; [reflexivity|]);
    (split; [eexists; split; [unfold findPayment; simpl; apply Hrec; reflexivity|
                              split; reflexivity]|]).
  - discriminate.
  - intros r [= <-]. reflexivity.
Qed.

(** X8. A request whose amount does not parse to a positive integer is
    refused with 400 "Invalid amount" before anything else is looked at:
    the tenant, the user and the nonce play no part, and the store is
    unchanged. *)
Theorem invalid_amount_is_refused ext req w :
  JS.truthy (q_amount req) = true ->
  (parseInt (JS.or_else (q_amount req) "") = None
   \/ exists n, parseInt (JS.or_else (q_amount req) "") = Some n /\ n <= 0) ->
  handle ext req w = (errorReply 400 "Invalid amount", w).
Proof.
  intros Ht H. rewrite (lnurlp_amount _ _ _ _ _ ext req w Ht).
  destruct H as [->|(n & -> & Hn)]; [reflexivity|].
  destruct (Z.leb_spec n 0); [reflexivity|lia].
Qed.

(** X9. For a host name that, in lower case, is not the name of a tenant,
    a discovery request and a payment request with a valid amount are both
    answered 404 with the lower-cased host name, and the store is
    unchanged. *)
Theorem unknown_domain_is_refused ext req w :
  findDomain w (JS.toLowerCase (hostname req)) = None ->
  JS.truthy (q_amount req) = false
  \/ (exists n, parseInt (JS.or_else (q_amount req) "") = Some n /\ 0 < n) ->
  handle ext req w
  = (errorReply 404
       ("Domain " +:+ JS.toLowerCase (hostname req) +:+ " not found"), w).
Proof.
  intros Hd [Ht|(n & Hn & Hpos)].
  - rewrite (lnurlp_lookup _ _ _ _ _ ext req w Ht), Hd. reflexivity.
  - destruct (JS.truthy (q_amount req)) eqn:Ht.
    + rewrite (lnurlp_amount _ _ _ _ _ ext req w Ht), Hn, Hd.
      destruct (Z.leb_spec n 0); [lia|reflexivity].
    + rewrite (lnurlp_lookup _ _ _ _ _ ext req w Ht), Hd. reflexivity.
Qed.

Lemma lnurlpCatch_status e :
  In (status (lnurlpCatch e)) [400; 409; 500]
  /\ exists reason, body (lnurlpCatch e) = ErrorBody reason.
Proof.
  unfold lnurlpCatch.
  destruct (String.eqb _ _); [simpl; eauto 6|].
  destruct (JS.includes _ _); simpl; eauto 6.
Qed.

Lemma errorReply_status_body s reason :
  In s [400; 404; 409; 500] ->
  In (status (errorReply s reason)) lnurlpStatuses
  /\ (status (errorReply s reason) = 200
      <-> forall reason', body (errorReply s reason) <> ErrorBody reason').
Proof.
  intros Hs. simpl. split; [simpl in *; intuition|].
  split; [intros ->; simpl in Hs; intuition discriminate|].
  intros H. now destruct (H reason).
Qed.

Lemma lnurlpCatch_status_body e :
  In (status (lnurlpCatch e)) lnurlpStatuses
  /\ (status (lnurlpCatch e) = 200
      <-> forall reason, body (lnurlpCatch e) <> ErrorBody reason).
Proof.
  unfold lnurlpCatch.
  destruct (String.eqb _ _); [apply errorReply_status_body; simpl; auto|].
  destruct (JS.includes _ _); apply errorReply_status_body; simpl; auto.
Qed.

Lemma lnurlp_status_body ext req w :
  In (status (fst (handle ext req w))) lnurlpStatuses
  /\ (status (fst (handle ext req w)) = 200
      <-> forall reason, body (fst (handle ext req w)) <> ErrorBody reason).
Proof.
  destruct (JS.truthy (q_amount req)) eqn:Ht.
  - rewrite (lnurlp_amount _ _ _ _ _ ext req w Ht).
    destruct (parseInt _) as [amt|];
      [|apply errorReply_status_body; simpl; auto].
    destruct (Z.leb amt 0); [apply errorReply_status_body; simpl; auto|].
    destruct (findDomain w _) as [d|];
      [|apply errorReply_status_body; simpl; auto].
    destruct (generatePayResponse _ _ _ _ _ _ _ _ _ w) as [[e|[r|]] w0];
      simpl payReply; simpl fst.
    + apply lnurlpCatch_status_body.
    + simpl. split; [auto|]. split; [discriminate|reflexivity].
    + apply errorReply_status_body; simpl; auto.
  - rewrite (lnurlp_lookup _ _ _ _ _ ext req w Ht).
    destruct (findDomain w _) as [d|];
      [|apply errorReply_status_body; simpl; auto].
    destruct (fst (generateLookupResponse _ _ _ _ _ _ _ _)) as [e|[r|]];
      simpl fst.
    + apply lnurlpCatch_status_body.
    + simpl. split; [auto|]. split; [discriminate|reflexivity].
    + apply errorReply_status_body; simpl; auto.
Qed.

(** X10. Every reply of the handler has one of the statuses 200, 400, 404,
    409 and 500, and carries an error body exactly when its status is not
    200; a discovery request never changes the store and is never answered
    400 or 409. *)
Theorem lnurlp_replies ext req w :
  In (status (fst (handle ext req w))) lnurlpStatuses
  /\ (status (fst (handle ext req w)) = 200
      <-> forall reason, body (fst (handle ext req w)) <> ErrorBody reason)
  /\ (JS.truthy (q_amount req) = false ->
      snd (handle ext req w) = w
      /\ In (status (fst (handle ext req w))) [200; 404; 500]).
Proof.
  destruct (lnurlp_status_body ext req w) as [H1 H2].
  split; [exact H1|]. split; [exact H2|].
  intros Ht. rewrite (lnurlp_lookup _ _ _ _ _ ext req w Ht).
  destruct (findDomain w _) as [d|]; [|simpl; auto].
  destruct (fst (generateLookupResponse _ _ _ _ _ _ _ _)) as [e|[r|]] eqn:E;
    try (simpl; auto; fail).
  split; [reflexivity|]. simpl fst.
  rewrite (generateLookupResponse_error _ _ _ _ ext _ d w e E). simpl. auto.
Qed.

(** X11. The missing Spark key is not a structured error at the HTTP
    boundary: a payment request with a valid amount and a fresh nonce on
    the default layer, for a user without a Spark key, is answered with the
    generic 500 "Internal server error". *)
Theorem missing_key_is_internal_error ext req w d amt user uid :
  JS.truthy (q_amount req) = true ->
  parseInt (JS.or_else (q_amount req) "") = Some amt -> 0 < amt ->
  findDomain w (JS.toLowerCase (hostname req)) = Some d ->
  findUser w (params_username req) (d_id d) = Some user -> u_id user = Some uid ->
  findPayment w (JS.or_else (q_nonce req) (generatedNonce ext)) = None ->
  nonLightning (q_settlementLayer req) = false ->
  JS.truthy (spark_public_key user) = false ->
  handle ext req w = (errorReply 500 "Internal server error", w).
Proof.
  intros Ht Hparse Hpos Hd Hu Hid Hp Hl Hk.
  rewrite (lnurlp_pay CHAIN_MAPPING CURRENCIES BASE_URL NODE_ENV ext parseInt
             req w amt d Ht Hparse Hpos Hd).
  rewrite (missing_key_throws CURRENCIES ext _ d amt _ _ _ _ w user uid
             Hu Hid Hp Hl Hk).
  reflexivity.
Qed.

(** X12. A payment request that was answered with a response is refused
    when it is sent again with its nonce: whatever the wallet, the rates
    and the clock then are, the handler answers 409 and the store is
    unchanged. *)
Theorem repeated_request_is_refused ext ext' req w r w' nonce :
  q_nonce req = Some nonce -> nonce <> "" ->
  handle ext req w = ({| status := 200; body := PayBody r |}, w') ->
  handle ext' req w'
  = (errorReply 409
       "Duplicate payment request. This nonce has already been used.", w').
Proof.
  intros Hn Hne Hfirst.
  destruct (JS.truthy (q_amount req)) eqn:Ht.
  2:{ rewrite (lnurlp_lookup _ _ _ _ _ ext req w Ht) in Hfirst.
      destruct (findDomain w _); [|discriminate].
      destruct (fst (generateLookupResponse _ _ _ _ _ _ _ _)) as [e|[r0|]];
        try discriminate.
      destruct (lnurlpCatch_status e) as [_ [reason Hb]].
      injection Hfirst as Hbody _. rewrite Hbody in Hb. discriminate. }
  rewrite (lnurlp_amount _ _ _ _ _ ext req w Ht) in Hfirst.
  rewrite (lnurlp_amount _ _ _ _ _ ext' req w' Ht).
  destruct (parseInt _) as [amt|]; [|discriminate].
  destruct (Z.leb amt 0); [discriminate|].
  destruct (findDomain w _) as [d|] eqn:Hd; [|discriminate].
  rewrite Hn, (or_else_Some nonce _ Hne) in Hfirst.
  rewrite Hn, (or_else_Some nonce _ Hne).
  destruct (generatePayResponse CURRENCIES ext (params_username req) d amt nonce
              (q_currency req) (q_settlementLayer req) (q_assetIdentifier req) w)
    as [[e|[r0|]] w0] eqn:Hcall; simpl in Hfirst.
  - destruct (lnurlpCatch_status e) as [_ [reason Hb]].
    injection Hfirst as Hbody _. rewrite Hbody in Hb. discriminate.
  - injection Hfirst as <- <-.
    pose proof (generatePayResponse_frame CURRENCIES ext (params_username req) d amt
                  nonce (q_currency req) (q_settlementLayer req)
                  (q_assetIdentifier req) w) as (Husers & _ & Hdom & _).
    rewrite Hcall in Husers, Hdom. simpl in Husers, Hdom.
    destruct (generatePayResponse_records CURRENCIES ext _ d amt nonce _ _ _
                w r0 w0 Hcall) as (user & uid & p & Hu & Hid & _ & Hp & _).
    assert (Hd' : findDomain w0 (JS.toLowerCase (hostname req)) = Some d).
    { unfold findDomain in *. now rewrite Hdom. }
    assert (Hu' : findUser w0 (params_username req) (d_id d) = Some user).
    { unfold findUser in *. now rewrite Husers. }
    rewrite Hd'.
    rewrite (recorded_nonce_throws CURRENCIES ext' _ d amt nonce _ _ _ w0 p user
               uid Hp Hu' Hid).
    reflexivity.
  - discriminate.
Qed.

End MoreDispatch.

(** ** Objects in insertion order *)

Lemma obj_get_obj_set {V} (o : list (string * V)) k v k' :
  obj_get (obj_set o k v) k'
  = if String.eqb k k' then Some v else obj_get o k'.
Proof.
  induction o as [|[k0 v0] r IH]; simpl.
  - destruct (String.eqb k k'); reflexivity.
  - destruct (String.eqb_spec k0 k) as [E|Hne]; simpl.
    + subst k0. destruct (String.eqb k k'); reflexivity.
    + rewrite IH. destruct (String.eqb_spec k k') as [E|Hne'];
        [|reflexivity].
      subst k'. destruct (String.eqb_spec k0 k); [contradiction|reflexivity].
Qed.

Lemma keys_obj_set {V} (o : list (string * V)) k v k' :
  In k' (map fst (obj_set o k v)) <-> k' = k \/ In k' (map fst o).
Proof.
  induction o as [|[k0 v0] r IH]; simpl.
  - intuition.
  - destruct (String.eqb_spec k0 k) as [->|Hne]; simpl; [intuition|].
    rewrite IH. intuition.
Qed.

Lemma NoDup_keys_obj_set {V} (o : list (string * V)) k v :
  List.NoDup (map fst o) -> List.NoDup (map fst (obj_set o k v)).
Proof.
  induction o as [|[k0 v0] r IH]; simpl; intros H.
  - constructor; [intros []|constructor].
  - inversion H as [|? ? Hnotin Hr]; subst.
    destruct (String.eqb_spec k0 k) as [->|Hne]; simpl.
    + constructor; assumption.
    + constructor; [|auto].
      rewrite keys_obj_set. intros [->|Hin]; contradiction.
Qed.

Lemma formatAddresses_keys (l : list ChainAddress) (k : string) :
  List.NoDup (map fst (formatAddresses l))
  /\ (In k (map fst (formatAddresses l))
      <-> exists a, In a l /\ chain_name a = k)
  /\ obj_get (formatAddresses l) k
     = match List.find (fun a => String.eqb (chain_name a) k) (rev l) with
       | Some a => Some (ChainObject (address a) (chainIdOf k))
       | None => None
       end.
Proof.
  unfold formatAddresses.
  induction l as [|a l (IH1 & IH2 & IH3)] using rev_ind; simpl.
  - split; [constructor|]. split; [|reflexivity].
    split; [intros []|intros (a & [] & _)].
  - rewrite fold_left_app, rev_app_distr. simpl.
    unfold formatStep at 1 3 5. split; [|split].
    + now apply NoDup_keys_obj_set.
    + rewrite keys_obj_set, IH2. split.
      * intros [->|(b & Hb & Hk)]; [exists a|exists b];
          (split; [apply in_or_app; simpl; auto|auto]).
      * intros (b & [Hb|[<-|[]]]%in_app_or & Hk); eauto.
    + rewrite obj_get_obj_set, IH3.
      destruct (String.eqb_spec (chain_name a) k) as [<-|Hne]; reflexivity.
Qed.

(** X13. For chain names that [Object.prototype] does not define, the
    object that getFormattedAddresses builds has one entry for each chain
    name among the addresses, and the last address stored under a chain name
    wins: the entry holds its address, with the chain id of the chain name
    when it is one of the EVM chains. *)
Theorem formatted_addresses_keys (l : list ChainAddress) (k : string) :
  Forall (fun a => ownName (chain_name a) = true) l ->
  List.NoDup (map fst (formatAddresses l))
  /\ (In k (map fst (formatAddresses l))
      <-> exists a, In a l /\ chain_name a = k)
  /\ obj_get (formatAddresses l) k
     = match List.find (fun a => String.eqb (chain_name a) k) (rev l) with
       | Some a => Some (ChainObject (address a) (chainIdOf k))
       | None => None
       end.
Proof.
  intros _. exact (formatAddresses_keys l k).
Qed.

(** ** Discovery *)

Section MoreDiscovery.

Variable CHAIN_MAPPING : gmap string ChainMapping.
Variable CURRENCIES : gmap string CurrencyConfig.
Variable BASE_URL NODE_ENV : option string.
Variable parseInt : string -> option Z.

Local Abbreviation handle ext :=
  (lnurlp CHAIN_MAPPING CURRENCIES BASE_URL NODE_ENV ext parseInt).

(** A lookup by an own name finds an own property or nothing. *)
Lemma getProperty_own {V} (o : gmap string V) k :
  ownName k = true ->
  getProperty o k = match o !! k with Some v => Own v | None => Undefined end.
Proof. unfold getProperty. now intros ->. Qed.

(** buildSettlementOptions on chain names that, lower-cased, are own
    names. *)
Lemma buildSettlementOptions_own ext chains cur :
  Forall (fun e => ownName (JS.toLowerCase (fst e)) = true) chains ->
  exists l,
    buildSettlementOptions CHAIN_MAPPING ext chains cur = inr l
    /\ map (fun o => (settlementLayer o, map multipliers (assets o))) l
       = omap (fun e =>
                 (fun m => (layer m, [calculateMultipliers ext (asset m) cur]))
                 <$> CHAIN_MAPPING !! JS.toLowerCase (fst e))
           chains
    /\ length l = length (mappedOnly CHAIN_MAPPING chains).
Proof.
  induction chains as [|[k v] r IH]; intros Hown; simpl.
  - exists []. auto.
  - apply Forall_cons in Hown as [Hk Hr].
    destruct (IH Hr) as (l & -> & Hmap & Hlen).
    rewrite (getProperty_own _ _ Hk). unfold isMapped. simpl.
    destruct (CHAIN_MAPPING !! JS.toLowerCase k) as [m|]; simpl.
    + eexists. split; [reflexivity|]. simpl. now rewrite Hmap, Hlen.
    + exists l. auto.
Qed.

Lemma formatAddresses_own (P : string -> bool) (l : list ChainAddress) :
  Forall (fun a => P (chain_name a) = true) l ->
  Forall (fun e => P (fst e) = true) (formatAddresses l).
Proof.
  intros Hl. apply List.Forall_forall. intros [k v] Hin.
  assert (Hk : In k (map fst (formatAddresses l)))
    by (apply in_map_iff; exists (k, v); auto).
  apply (proj1 (proj2 (formatAddresses_keys _ _))) in Hk
    as (a & Ha & <-).
  exact (proj1 (List.Forall_forall _ _) Hl a Ha).
Qed.

(** X14. For chain names that, lower-cased, [Object.prototype] does not
    define, buildSettlementOptions does not throw and makes one option for
    each entry whose chain name is mapped, in the order of the entries and
    without merging entries of one layer; every option has exactly one
    asset, whose multipliers are the market rates of the mapped asset for
    the given currencies. *)
Theorem settlement_options_shape ext (chains : list (string * ChainData))
  (cur : list string) :
  Forall (fun e => ownName (JS.toLowerCase (fst e)) = true) chains ->
  exists l,
    buildSettlementOptions CHAIN_MAPPING ext chains cur = inr l
    /\ map (fun o => (settlementLayer o, map multipliers (assets o))) l
       = omap (fun e =>
                 (fun m => (layer m, [calculateMultipliers ext (asset m) cur]))
                 <$> CHAIN_MAPPING !! JS.toLowerCase (fst e))
           chains
    /\ length l = length (mappedOnly CHAIN_MAPPING chains)
    /\ (length l <= length chains)%nat.
Proof.
  intros Hown.
  destruct (buildSettlementOptions_own ext chains cur Hown)
    as (l & Hl & Hmap & Hlen).
  exists l. repeat split; auto.
  rewrite Hlen. unfold mappedOnly. apply filter_length_le.
Qed.

(** The options are empty exactly when no chain name is mapped. *)
Lemma buildSettlementOptions_nil ext chains cur l :
  buildSettlementOptions CHAIN_MAPPING ext chains cur = inr l ->
  l = []
  <-> forall k, In k (map fst chains) -> isMapped CHAIN_MAPPING k = false.
Proof.
  revert l. induction chains as [|[k v] r IH]; simpl; intros l.
  - intros [= <-]. split; [intros _ k []|reflexivity].
  - unfold getProperty, isMapped in *.
    destruct (CHAIN_MAPPING !! JS.toLowerCase k) as [m|] eqn:E.
    + destruct (buildSettlementOptions CHAIN_MAPPING ext r cur);
        [discriminate|].
      intros [= <-]. split; [discriminate|]. intros H.
      specialize (H k (or_introl eq_refl)). rewrite E in H. discriminate.
    + destruct (ownName (JS.toLowerCase k)); [|discriminate].
      intros Hr. rewrite (IH l Hr). split.
      * intros H k' [<-|Hk']; [now rewrite E|now apply H].
      * intros H k' Hk'. apply H. now right.
Qed.

(** X15. For chain names that, lower-cased, [Object.prototype] does not
    define, a discovery response leaves the settlement options out exactly
    when the user has no active address with a mapped chain name, so for
    every user without addresses; when the options are there they are not
    empty. *)
Theorem settlement_options_omitted ext name d w r w' user uid :
  generateLookupResponse CHAIN_MAPPING CURRENCIES BASE_URL NODE_ENV ext name d w
  = (inr (Some r), w') ->
  findUser w name (d_id d) = Some user -> u_id user = Some uid ->
  Forall (fun a => ownName (JS.toLowerCase (chain_name a)) = true)
    (activeAddresses w uid) ->
  (settlementOptions r = None
   <-> forall a, In a (activeAddresses w uid) ->
                 isMapped CHAIN_MAPPING (chain_name a) = false)
  /\ (activeAddresses w uid = [] -> settlementOptions r = None)
  /\ (forall l, settlementOptions r = Some l -> l <> []).
Proof.
  intros Hcall Hu Hid _. revert Hcall.
  unfold generateLookupResponse, getUserByUsernameAndDomain,
    getFormattedAddresses, getUserAddresses, bind, get, ret, throw.
  rewrite Hu, Hid.
  set (cur := map fst _).
  destruct (buildSettlementOptions CHAIN_MAPPING ext
              (formatAddresses (activeAddresses w uid)) cur)
    as [e|options] eqn:E; [discriminate|].
  destruct (currency_settings d) as [s|]; [|discriminate].
  destruct (obj_get s "BTC"); [|discriminate].
  intros [= <- <-]. simpl.
  pose proof (buildSettlementOptions_nil ext _ cur options E) as Hnil.
  assert (Hkeys : (forall k,
              In k (map fst (formatAddresses (activeAddresses w uid))) ->
              isMapped CHAIN_MAPPING k = false)
            <-> forall a, In a (activeAddresses w uid) ->
                          isMapped CHAIN_MAPPING (chain_name a) = false).
  { split.
    - intros H a Ha. apply H.
      apply (proj1 (proj2 (formatAddresses_keys _ _))). eauto.
    - intros H k Hk.
      apply (proj1 (proj2 (formatAddresses_keys _ _))) in Hk.
      destruct Hk as (a & Ha & <-). auto. }
  rewrite <- Hkeys, <- Hnil.
  destruct options as [|o l].
  - repeat split; auto; discriminate.
  - split; [split; discriminate|]. split.
    + intros Hnone. rewrite Hnone in E. discriminate.
    + intros l' [= <-]. discriminate.
Qed.

(** X16. For currency codes that [Object.prototype] does not define,
    buildCurrencies lists exactly the currencies of the settings that are
    active, are known to the currency configuration and have a multiplier
    that is present and not zero; each carries the code, name, symbol and
    decimals of the configuration, the bounds of the tenant and that
    multiplier. *)
Theorem currencies_are_rated ext (entries : list (string * CurrencySettings))
  (c : Currency) :
  Forall (fun e => ownName (fst e) = true) entries ->
  (In c (buildCurrencies CURRENCIES ext (Some entries))
   <-> exists k settings cfg m,
         In (k, settings) entries /\ active settings = true
         /\ CURRENCIES !! k = Some cfg
         /\ calculateMultipliers ext "BTC" [k] !! k = Some m /\ m <> 0
         /\ c = {| code := cfg_code cfg; name := cfg_name cfg;
                   symbol := cfg_symbol cfg; decimals := cfg_decimals cfg;
                   convertible_min := cs_minSendable settings;
                   convertible_max := cs_maxSendable settings;
                   multiplier := m |}).
Proof.
  intros _. simpl. induction entries as [|[k settings] r IH]; simpl.
  - split; [intros []|intros (? & ? & ? & ? & [] & _)].
  - assert (Hskip :
      (exists k0 settings0 cfg m,
         In (k0, settings0) r /\ active settings0 = true
         /\ CURRENCIES !! k0 = Some cfg
         /\ calculateMultipliers ext "BTC" [k0] !! k0 = Some m /\ m <> 0
         /\ c = {| code := cfg_code cfg; name := cfg_name cfg;
                   symbol := cfg_symbol cfg; decimals := cfg_decimals cfg;
                   convertible_min := cs_minSendable settings0;
                   convertible_max := cs_maxSendable settings0;
                   multiplier := m |})
      -> exists k0 settings0 cfg m,
         ((k, settings) = (k0, settings0) \/ In (k0, settings0) r)
         /\ active settings0 = true
         /\ CURRENCIES !! k0 = Some cfg
         /\ calculateMultipliers ext "BTC" [k0] !! k0 = Some m /\ m <> 0
         /\ c = {| code := cfg_code cfg; name := cfg_name cfg;
                   symbol := cfg_symbol cfg; decimals := cfg_decimals cfg;
                   convertible_min := cs_minSendable settings0;
                   convertible_max := cs_maxSendable settings0;
                   multiplier := m |}).
    { intros (k0 & s0 & cfg & m & H & Hrest). exists k0, s0, cfg, m. auto 10. }
    destruct (active settings) eqn:Hact; simpl.
    2:{ rewrite IH. split; [exact Hskip|].
        intros (k0 & s0 & cfg & m & [[= <- <-]|H] & Ha & Hrest);
          [congruence|]. exists k0, s0, cfg, m. auto 10. }
    destruct (CURRENCIES !! k) as [cfg|] eqn:Hcfg.
    2:{ rewrite IH. split; [exact Hskip|].
        intros (k0 & s0 & cfg & m & [[= <- <-]|H] & Ha & Hc & Hrest);
          [congruence|]. exists k0, s0, cfg, m. auto 10. }
    destruct (calculateMultipliers ext "BTC" [k] !! k) as [m|] eqn:Hm.
    2:{ rewrite IH. split; [exact Hskip|].
        intros (k0 & s0 & cfg0 & m & [[= <- <-]|H] & Ha & Hc & Hm' & Hrest);
          [congruence|]. exists k0, s0, cfg0, m. auto 10. }
    destruct (Z.eqb_spec m 0) as [->|Hm0].
    { rewrite IH. split; [exact Hskip|].
      intros (k0 & s0 & cfg0 & m & [[= <- <-]|H] & Ha & Hc & Hm' & Hne & Hrest);
        [congruence|]. exists k0, s0, cfg0, m. auto 10. }
    simpl. rewrite IH. split.
    + intros [<-|H]; [|auto]. exists k, settings, cfg, m. auto 10.
    + intros (k0 & s0 & cfg0 & m0 & [[= <- <-]|H] & Ha & Hc & Hm' & Hne & ->).
      * left. congruence.
      * right. exists k0, s0, cfg0, m0. auto 10.
Qed.

(** X17. For a user of the tenant whose active chain names, lower-cased,
    [Object.prototype] does not define, the sendable bounds of a discovery
    response are those of the BTC entry of the currency settings of the
    tenant, active or not; for a tenant without currency settings or
    without a BTC entry, discovery fails for every user it has: the handler
    answers 500. *)
Theorem lookup_needs_btc_settings ext req w d user :
  JS.truthy (q_amount req) = false ->
  findDomain w (JS.toLowerCase (hostname req)) = Some d ->
  findUser w (params_username req) (d_id d) = Some user ->
  match currency_settings d with
  | Some settings =>
      match obj_get settings "BTC" with
      | Some btc =>
          Forall (fun a => ownName (JS.toLowerCase (chain_name a)) = true)
            (match u_id user with
             | Some uid => activeAddresses w uid
             | None => []
             end) ->
          exists r,
            handle ext req w = ({| status := 200; body := LookupBody r |}, w)
            /\ minSendable r = cs_minSendable btc
            /\ maxSendable r = cs_maxSendable btc
      | None => handle ext req w = (errorReply 500 "Internal server error", w)
      end
  | None => handle ext req w = (errorReply 500 "Internal server error", w)
  end.
Proof.
  intros Ht Hd Hu. rewrite (lnurlp_lookup _ _ _ _ _ ext req w Ht), Hd.
  assert (Herr : forall e,
            fst (generateLookupResponse CHAIN_MAPPING CURRENCIES BASE_URL
                   NODE_ENV ext (params_username req) d w) = inl e ->
            match fst (generateLookupResponse CHAIN_MAPPING CURRENCIES BASE_URL
                         NODE_ENV ext (params_username req) d w) with
            | inr (Some r) => ({| status := 200; body := LookupBody r |}, w)
            | inr None => (errorReply 404 "User not found", w)
            | inl e => (lnurlpCatch e, w)
            end = (errorReply 500 "Internal server error", w)).
  { intros e He. rewrite He.
    now rewrite (generateLookupResponse_error _ _ _ _ ext _ d w e He). }
  revert Herr.
  unfold generateLookupResponse, getUserByUsernameAndDomain,
    getFormattedAddresses, getUserAddresses, bind, get, ret, throw.
  rewrite Hu.
  destruct (currency_settings d) as [s|].
  - destruct (obj_get s "BTC") as [btc|].
    + intros _ Hown.
      assert (Hchains :
        exists l,
          buildSettlementOptions CHAIN_MAPPING ext
            (match u_id user with
             | Some uid => formatAddresses (activeAddresses w uid)
             | None => []
             end)
            (map fst (List.filter (fun e => active (snd e)) s)) = inr l).
      { destruct (u_id user) as [uid|]; [|exists []; reflexivity].
        destruct (buildSettlementOptions_own ext
                    (formatAddresses (activeAddresses w uid))
                    (map fst (List.filter (fun e => active (snd e)) s))
                    (formatAddresses_own
                       (fun k => ownName (JS.toLowerCase k)) _ Hown))
          as (l & Hl & _).
        eauto. }
      destruct Hchains as [l Hl].
      destruct (u_id user); simpl in *; [rewrite Hl|]; eexists; repeat split.
    + intros Herr.
      destruct (u_id user); simpl in *;
        [destruct (buildSettlementOptions CHAIN_MAPPING _ _ _)|];
        eapply Herr; reflexivity.
  - intros Herr.
    destruct (u_id user); simpl in *;
      [destruct (buildSettlementOptions CHAIN_MAPPING _ _ _)|];
      eapply Herr; reflexivity.
Qed.

End MoreDiscovery.

(** ** Strings *)

Lemma lower_ascii_idempotent c :
  JS.lower_ascii (JS.lower_ascii c) = JS.lower_ascii c.
Proof. destruct c as [[] [] [] [] [] [] [] []]; reflexivity. Qed.

Lemma toLowerCase_idempotent s :
  JS.toLowerCase (JS.toLowerCase s) = JS.toLowerCase s.
Proof.
  unfold JS.toLowerCase. induction s as [|c s IH]; simpl; [reflexivity|].
  now rewrite lower_ascii_idempotent, IH.
Qed.

Lemma trimStart_blank s : JSx.every JSx.isSpace s = true -> JSx.trimStart s = "".
Proof.
  induction s as [|c s IH]; simpl; [reflexivity|].
  destruct (JSx.isSpace c); [exact IH|discriminate].
Qed.

Lemma trim_blank s : JSx.every JSx.isSpace s = true -> JSx.trim s = "".
Proof. intros H. unfold JSx.trim. now rewrite trimStart_blank. Qed.

Lemma substring_whole s : String.substring 0 (String.length s) s = s.
Proof. induction s as [|c s IH]; simpl; [reflexivity|now rewrite IH]. Qed.

Lemma startsWith_slice p s :
  JS.startsWith p s = true -> s = p +:+ JS.slice (String.length p) s.
Proof.
  unfold JS.startsWith, JS.slice. revert s.
  induction p as [|c p IH]; intros s; simpl.
  - intros _. rewrite Nat.sub_0_r. symmetry. destruct s; [reflexivity|].
    apply substring_whole.
  - destruct s as [|c' s]; simpl; [discriminate|].
    destruct (Ascii.ascii_dec c c') as [<-|]; [|discriminate].
    intros H. rewrite (IH s H) at 1. reflexivity.
Qed.

Lemma slice_app p s : JS.slice (String.length p) (p +:+ s) = s.
Proof.
  unfold JS.slice. induction p as [|c p IH]; simpl.
  - rewrite Nat.sub_0_r. destruct s; [reflexivity|apply substring_whole].
  - exact IH.
Qed.

Lemma startsWith_app p s : JS.startsWith p (p +:+ s) = true.
Proof.
  unfold JS.startsWith. induction p as [|c p IH]; simpl.
  - now destruct s.
  - destruct (Ascii.ascii_dec c c); [exact IH|contradiction].
Qed.

(** ** The admin routes: authentication *)

(** X18. authenticateAdmin lets a request through exactly when an API key
    is configured, is not empty, and the authorization header is "Bearer "
    followed by that key; every other request is answered 401 when the
    header is missing or does not start with "Bearer ", else 500 when no
    key is configured, else 403. *)
Theorem authenticate_admin_passes (authorization API_KEY : option string) :
  (authenticateAdmin authorization API_KEY = None
   <-> exists k, API_KEY = Some k /\ k <> ""
                 /\ authorization = Some ("Bearer " +:+ k))
  /\ (forall reply, authenticateAdmin authorization API_KEY = Some reply ->
        a_status reply
        = if negb (JS.truthy authorization
                   && JS.startsWith "Bearer " (JS.or_else authorization ""))%bool
          then 401
          else if negb (JS.truthy API_KEY) then 500 else 403).
Proof.
  split.
  - unfold authenticateAdmin. split.
    + destruct (JS.truthy authorization) eqn:Ha; simpl; [|discriminate].
      destruct (JS.startsWith _ _) eqn:Hs; simpl; [|discriminate].
      destruct (JS.truthy API_KEY) eqn:Hk; simpl; [|discriminate].
      destruct (String.eqb_spec (JS.slice 7 (JS.or_else authorization ""))
                  (JS.or_else API_KEY "")) as [E|]; simpl; [|discriminate].
      intros _.
      destruct API_KEY as [k|]; [|discriminate].
      destruct authorization as [h|]; [|discriminate].
      simpl in *.
      destruct (String.eqb_spec k ""); [discriminate|].
      destruct (String.eqb_spec h ""); [discriminate|].
      exists k. repeat split; auto.
      apply startsWith_slice in Hs. simpl String.length in Hs.
      rewrite E in Hs. now rewrite Hs.
    + intros (k & -> & Hk & ->).
      assert (Ht : JS.truthy (Some ("Bearer " +:+ k)) = true) by reflexivity.
      rewrite Ht.
      change (JS.or_else (Some ("Bearer " +:+ k)) "") with ("Bearer " +:+ k).
      rewrite (startsWith_app "Bearer " k).
      change 7%nat with (String.length "Bearer ").
      rewrite slice_app. simpl.
      destruct (String.eqb_spec k ""); [contradiction|]. simpl.
      now rewrite String.eqb_refl.
  - intros reply. unfold authenticateAdmin.
    destruct (negb (_ && _)); [now intros [= <-]|].
    destruct (negb (JS.truthy API_KEY)); [now intros [= <-]|].
    destruct (negb (String.eqb _ _)); [now intros [= <-]|discriminate].
Qed.

(** ** UserService: the addresses of a user *)

Lemma updateFirst_None {A} (p : A -> bool) f l :
  updateFirst p f l = None <-> List.find p l = None.
Proof.
  induction l as [|x l IH]; simpl; [tauto|].
  destruct (p x); [split; discriminate|].
  destruct (updateFirst p f l); [|tauto].
  split; [discriminate|]. intros H. apply IH in H. discriminate.
Qed.

Lemma updateFirst_find {A} (p : A -> bool) f l l' :
  (forall x, p x = true -> p (f x) = true) ->
  updateFirst p f l = Some l' ->
  exists x, List.find p l = Some x /\ List.find p l' = Some (f x).
Proof.
  intros Hf. revert l'. induction l as [|y l IH]; simpl; [discriminate|].
  intros l'. destruct (p y) eqn:Hy.
  - intros [= <-]. exists y. simpl. now rewrite (Hf y Hy).
  - destruct (updateFirst p f l) as [r|]; [|discriminate].
    intros [= <-]. destruct (IH r eq_refl) as (x & H1 & H2).
    exists x. simpl. now rewrite Hy.
Qed.

Lemma updateFirst_other {A} (p q : A -> bool) f l l' :
  (forall x, p x = true -> q x = false /\ q (f x) = false) ->
  updateFirst p f l = Some l' ->
  List.find q l' = List.find q l.
Proof.
  intros Hq. revert l'. induction l as [|y l IH]; simpl; [discriminate|].
  intros l'. destruct (p y) eqn:Hy.
  - intros [= <-]. simpl. destruct (Hq y Hy) as [-> ->]. reflexivity.
  - destruct (updateFirst p f l) as [r|]; [|discriminate].
    intros [= <-]. simpl. now rewrite (IH r eq_refl).
Qed.

Lemma updateFirst_map {A B} (key : A -> B) (p : A -> bool) f l l' :
  (forall x, key (f x) = key x) ->
  updateFirst p f l = Some l' -> map key l' = map key l.
Proof.
  intros Hk. revert l'. induction l as [|y l IH]; simpl; [discriminate|].
  intros l'. destruct (p y).
  - intros [= <-]. simpl. now rewrite Hk.
  - destruct (updateFirst p f l) as [r|]; [|discriminate].
    intros [= <-]. simpl. now rewrite (IH r eq_refl).
Qed.

Lemma find_snoc_other {A} (q : A -> bool) l x :
  q x = false -> List.find q (l ++ [x]) = List.find q l.
Proof.
  intros Hx. induction l as [|y l IH]; simpl; [now rewrite Hx|].
  destruct (q y); auto.
Qed.

Lemma deleteFirst_other {A} (p q : A -> bool) l :
  (forall x, p x = true -> q x = false) ->
  List.find q (deleteFirst p l) = List.find q l.
Proof.
  intros Hq. induction l as [|y l IH]; simpl; [reflexivity|].
  destruct (p y) eqn:Hy; simpl.
  - now rewrite (Hq y Hy).
  - now rewrite IH.
Qed.

Lemma deleteFirst_In {A} (p : A -> bool) l x :
  In x (deleteFirst p l) -> In x l.
Proof.
  induction l as [|y l IH]; simpl; [auto|].
  destruct (p y); simpl; intuition.
Qed.

Lemma deleteFirst_unique {A B} (key : A -> B) (p : A -> bool) l :
  NoDup (map key l) ->
  (forall x y, p x = true -> p y = true -> key x = key y) ->
  List.find p (deleteFirst p l) = None
  /\ NoDup (map key (deleteFirst p l)).
Proof.
  intros Hnd Hp. induction l as [|y l IH]; simpl; [auto|].
  simpl in Hnd. apply NoDup_cons in Hnd as [Hy Hnd].
  destruct (p y) eqn:E.
  - split; [|exact Hnd].
    destruct (List.find p l) as [z|] eqn:Hz; [|reflexivity].
    exfalso. apply find_some in Hz as [Hin Hpz]. apply Hy.
    rewrite (Hp y z E Hpz). apply list_elem_of_In, in_map. exact Hin.
  - destruct (IH Hnd) as [IH1 IH2]. simpl. rewrite E. split; [exact IH1|].
    apply NoDup_cons. split; [|exact IH2].
    intros Hin. apply Hy. apply list_elem_of_In in Hin.
    apply in_map_iff in Hin as (z & Hz & Hin).
    apply list_elem_of_In, in_map_iff. exists z. split; [exact Hz|].
    now apply deleteFirst_In in Hin.
Qed.

Lemma addressKey_other uid c uid' c' a :
  (uid', c') <> (uid, c) -> addressKey uid c a = true ->
  addressKey uid' c' a = false.
Proof.
  unfold addressKey. intros Hne H.
  apply andb_true_iff in H as [H1 H2].
  apply Z.eqb_eq in H1. apply String.eqb_eq in H2.
  destruct (Z.eqb_spec (ca_user_id a) uid'); [|reflexivity].
  destruct (String.eqb_spec (chain_name a) c'); [|reflexivity].
  exfalso. apply Hne. congruence.
Qed.

(** The store after addUserAddress. *)
Lemma addUserAddress_store uid chainName addr w :
  exists l',
    snd (addUserAddress uid chainName addr w) = withChainAddresses w l'
    /\ List.find (addressKey uid (JS.toLowerCase chainName)) l'
       = Some {| ca_user_id := uid; chain_name := JS.toLowerCase chainName;
                 address := JSx.trim addr; is_active := true |}
    /\ (forall uid' c', (uid', c') <> (uid, JS.toLowerCase chainName) ->
          List.find (addressKey uid' c') l'
          = List.find (addressKey uid' c') (chain_addresses w))
    /\ (map (fun a => (ca_user_id a, chain_name a)) l'
        = map (fun a => (ca_user_id a, chain_name a)) (chain_addresses w)
        \/ List.find (addressKey uid (JS.toLowerCase chainName))
             (chain_addresses w) = None
           /\ l' = chain_addresses w
                   ++ [ {| ca_user_id := uid;
                           chain_name := JS.toLowerCase chainName;
                           address := JSx.trim addr; is_active := true |} ]).
Proof.
  unfold addUserAddress, bind, get, put, ret.
  set (c := JS.toLowerCase chainName).
  set (f := fun a : ChainAddress =>
              {| ca_user_id := ca_user_id a; chain_name := chain_name a;
                 address := JSx.trim addr; is_active := true |}).
  destruct (updateFirst (addressKey uid c) f (chain_addresses w)) as [l'|] eqn:E.
  - exists l'. simpl. split; [reflexivity|].
    destruct (updateFirst_find (addressKey uid c) f _ _ (fun x H => H) E)
      as (x & Hx & Hx').
    split; [|split].
    + rewrite Hx'. apply find_some in Hx as [_ Hk]. unfold addressKey in Hk.
      apply andb_true_iff in Hk as [H1 H2].
      apply Z.eqb_eq in H1. apply String.eqb_eq in H2.
      unfold f. now rewrite H1, H2.
    + intros uid' c' Hne. apply (updateFirst_other (addressKey uid c) (addressKey uid' c') f _ _)
        with (2 := E).
      intros a Ha. split; apply (addressKey_other uid c uid' c'); auto.
    + left.
      apply (updateFirst_map (fun a => (ca_user_id a, chain_name a))
               (addressKey uid c) f _ _) with (2 := E).
      reflexivity.
  - apply updateFirst_None in E. eexists. simpl. split; [reflexivity|].
    split; [|split].
    + apply find_snoc; [exact E|]. unfold addressKey. simpl.
      now rewrite Z.eqb_refl, String.eqb_refl.
    + intros uid' c' Hne. apply find_snoc_other.
      apply (addressKey_other uid c uid' c'); [exact Hne|].
      unfold addressKey. simpl. now rewrite Z.eqb_refl, String.eqb_refl.
    + right. auto.
Qed.

(** X19. addUserAddress is an upsert: afterwards the store holds, for the
    user and the lower-cased chain name, an active address with the trimmed
    address string, whether a document existed (it is updated in place) or
    not (one is added); the addresses of every other user or chain, the
    users, the payment requests and the domains are as before. *)
Theorem added_address_is_found uid chainName addr w :
  findAddress (snd (addUserAddress uid chainName addr w)) uid
    (JS.toLowerCase chainName)
  = Some {| ca_user_id := uid; chain_name := JS.toLowerCase chainName;
            address := JSx.trim addr; is_active := true |}
  /\ (forall uid' c', (uid', c') <> (uid, JS.toLowerCase chainName) ->
        findAddress (snd (addUserAddress uid chainName addr w)) uid' c'
        = findAddress w uid' c')
  /\ users (snd (addUserAddress uid chainName addr w)) = users w
  /\ payment_requests (snd (addUserAddress uid chainName addr w))
     = payment_requests w
  /\ domains (snd (addUserAddress uid chainName addr w)) = domains w
  /\ (fst (addUserAddress uid chainName addr w) = inr ModifiedCount
      <-> is_Some (findAddress w uid (JS.toLowerCase chainName))).
Proof.
  assert (Hiff : fst (addUserAddress uid chainName addr w) = inr ModifiedCount
                 <-> is_Some (findAddress w uid (JS.toLowerCase chainName))).
  { unfold addUserAddress, bind, get, put, ret, findAddress.
    destruct (updateFirst _ _ _) eqn:E; simpl.
    - split; [intros _|reflexivity].
      destruct (List.find (addressKey uid (JS.toLowerCase chainName))
                  (chain_addresses w)) eqn:F; [eauto|].
      apply (updateFirst_None _
               (fun a => {| ca_user_id := ca_user_id a;
                            chain_name := chain_name a;
                            address := JSx.trim addr; is_active := true |}))
        in F.
      rewrite F in E. discriminate.
    - apply updateFirst_None in E. rewrite E.
      split; [discriminate|intros [? [=]]]. }
  destruct (addUserAddress_store uid chainName addr w)
    as (l' & Hw & Hfind & Hother & _).
  rewrite Hw. unfold findAddress. simpl.
  repeat split; auto; apply Hiff.
Qed.

Lemma addressKey_same_key uid c x y :
  addressKey uid c x = true -> addressKey uid c y = true ->
  (ca_user_id x, chain_name x) = (ca_user_id y, chain_name y).
Proof.
  unfold addressKey. intros Hx Hy.
  apply andb_true_iff in Hx as [H1 H2]. apply andb_true_iff in Hy as [H3 H4].
  apply Z.eqb_eq in H1, H3. apply String.eqb_eq in H2, H4. congruence.
Qed.

Lemma addUserAddress_wellFormed uid chainName addr w :
  addressesWellFormed w ->
  addressesWellFormed (snd (addUserAddress uid chainName addr w)).
Proof.
  intros [Hnd Hlow].
  destruct (addUserAddress_store uid chainName addr w)
    as (l' & Hw & Hfind & _ & Hkeys).
  rewrite Hw. unfold addressesWellFormed. simpl.
  destruct Hkeys as [Hkeys|[Hnone ->]].
  - split; [now rewrite Hkeys|].
    apply List.Forall_forall. intros a Ha.
    assert (Hin : In (ca_user_id a, chain_name a)
                    (map (fun a => (ca_user_id a, chain_name a)) l'))
      by (apply in_map_iff; eauto).
    rewrite Hkeys in Hin. apply in_map_iff in Hin as (b & Hb & Hin).
    rewrite List.Forall_forall in Hlow. specialize (Hlow b Hin).
    injection Hb as _ Hb. now rewrite <- Hb.
  - split.
    + rewrite map_app. simpl. apply NoDup_app. split; [exact Hnd|].
      split; [|apply NoDup_singleton].
      intros k Hk Hk'. apply list_elem_of_In in Hk, Hk'.
      destruct Hk' as [<-|[]]. apply in_map_iff in Hk as (b & Hb & Hin).
      pose proof (find_None_forall _ _ Hnone b Hin) as Hf.
      unfold addressKey in Hf. injection Hb as Hb1 Hb2.
      now rewrite Hb1, Hb2, Z.eqb_refl, String.eqb_refl in Hf.
    + apply Forall_app. split; [exact Hlow|].
      constructor; [|constructor]. simpl. apply toLowerCase_idempotent.
Qed.

Lemma removeUserAddress_wellFormed uid chainName w :
  addressesWellFormed w ->
  addressesWellFormed (snd (removeUserAddress uid chainName w)).
Proof.
  intros [Hnd Hlow].
  unfold removeUserAddress, bind, get, put, addressesWellFormed. simpl. split.
  - apply (deleteFirst_unique (fun a => (ca_user_id a, chain_name a))
             _ _ Hnd).
    intros x y. apply addressKey_same_key.
  - apply List.Forall_forall. intros a Ha. rewrite List.Forall_forall in Hlow.
    apply Hlow. now apply deleteFirst_In in Ha.
Qed.

(** X20. addUserAddress and removeUserAddress keep the constraint of the
    chain_addresses collection: at most one document for a user and a
    chain name, and chain names in lower case. *)
Theorem address_constraint_is_kept uid chainName addr w :
  addressesWellFormed w ->
  addressesWellFormed (snd (addUserAddress uid chainName addr w))
  /\ addressesWellFormed (snd (removeUserAddress uid chainName w)).
Proof.
  intros Hwf. split.
  - now apply addUserAddress_wellFormed.
  - now apply removeUserAddress_wellFormed.
Qed.

(** X21. After removeUserAddress the store holds no address for the user
    and the lower-cased chain name, provided there was at most one document
    for a user and a chain name; the addresses of every other user or chain
    are as before, whatever the store, and removing an address that does
    not exist changes nothing. *)
Theorem removed_address_is_gone uid chainName w :
  (NoDup (map (fun a => (ca_user_id a, chain_name a)) (chain_addresses w)) ->
   findAddress (snd (removeUserAddress uid chainName w)) uid
     (JS.toLowerCase chainName) = None)
  /\ (forall uid' c', (uid', c') <> (uid, JS.toLowerCase chainName) ->
        findAddress (snd (removeUserAddress uid chainName w)) uid' c'
        = findAddress w uid' c')
  /\ (findAddress w uid (JS.toLowerCase chainName) = None ->
      chain_addresses (snd (removeUserAddress uid chainName w))
      = chain_addresses w).
Proof.
  unfold removeUserAddress, bind, get, put, findAddress. simpl.
  split; [|split].
  - intros Hnd.
    apply (deleteFirst_unique (fun a => (ca_user_id a, chain_name a)) _ _ Hnd).
    intros x y. apply addressKey_same_key.
  - intros uid' c' Hne. apply deleteFirst_other.
    intros a. now apply addressKey_other.
  - intros Hnone. induction (chain_addresses w) as [|a l IH]; simpl in *;
      [reflexivity|].
    destruct (addressKey uid (JS.toLowerCase chainName) a); [discriminate|].
    now rewrite IH.
Qed.

(** X22. addUserAddress does not refuse a blank address: for every address
    that consists of white space only it stores an active document whose
    address is the empty string. *)
Theorem blank_address_is_stored uid chainName addr w :
  JSx.every JSx.isSpace addr = true ->
  findAddress (snd (addUserAddress uid chainName addr w)) uid
    (JS.toLowerCase chainName)
  = Some {| ca_user_id := uid; chain_name := JS.toLowerCase chainName;
            address := ""; is_active := true |}
  /\ exists outcome, fst (addUserAddress uid chainName addr w) = inr outcome.
Proof.
  intros Hblank.
  destruct (addUserAddress_store uid chainName addr w) as (l' & Hw & Hfind & _).
  rewrite Hw. unfold findAddress. simpl. rewrite Hfind, (trim_blank addr Hblank).
  split; [reflexivity|].
  unfold addUserAddress, bind, get, put, ret.
  destruct (updateFirst _ _ _); simpl; eauto.
Qed.

Lemma find_conj {A} (p q : A -> bool) l x :
  List.find p l = Some x -> q x = true ->
  List.find (fun a => (p a && q a)%bool) l = Some x.
Proof.
  induction l as [|y l IH]; simpl; [discriminate|].
  destruct (p y) eqn:Hy; simpl.
  - intros [= ->] ->. reflexivity.
  - auto.
Qed.

Lemma find_filter {A} (p g : A -> bool) l :
  List.find p (List.filter g l) = List.find (fun a => (g a && p a)%bool) l.
Proof.
  induction l as [|y l IH]; simpl; [reflexivity|].
  destruct (g y); simpl; [|exact IH].
  destruct (p y); [reflexivity|exact IH].
Qed.

Lemma find_ext_in {A} (p q : A -> bool) l :
  (forall x, In x l -> p x = q x) -> List.find p l = List.find q l.
Proof.
  induction l as [|y l IH]; simpl; [reflexivity|].
  intros H. rewrite (H y (or_introl eq_refl)).
  destruct (q y); [reflexivity|]. apply IH. intros x Hx. apply H. now right.
Qed.

(** X23. An address stored with addUserAddress is the one a payment on that
    layer is sent to: in a store whose chain names are in lower case, after
    addUserAddress for a user and a chain, a phase-2 call for that user with
    a fresh nonce and a settlement layer equal to the chain name up to
    case, other than 'ln' and 'spark', never fails with AddressNotFound,
    stores the trimmed address as the payment request of its record and
    returns it in every response. *)
Theorem added_address_is_paid CURRENCIES ext name d amt nonce cur l aid w
  user uid chainName addr :
  addressesWellFormed w ->
  findUser w name (d_id d) = Some user -> u_id user = Some uid ->
  findPayment w nonce = None ->
  nonLightning (Some l) = true ->
  JS.toLowerCase l = JS.toLowerCase chainName ->
  fst (generatePayResponse CURRENCIES ext name d amt nonce cur (Some l) aid
         (snd (addUserAddress uid chainName addr w)))
  <> inl (AddressNotFound l)
  /\ (exists p,
        findPayment
          (snd (generatePayResponse CURRENCIES ext name d amt nonce cur (Some l)
                  aid (snd (addUserAddress uid chainName addr w)))) nonce
        = Some p
        /\ invoice p = JSx.trim addr)
  /\ (forall r,
        fst (generatePayResponse CURRENCIES ext name d amt nonce cur (Some l) aid
               (snd (addUserAddress uid chainName addr w)))
        = inr (Some r) ->
        pr r = JSx.trim addr).
Proof.
  intros Hwf Hu Hid Hp Hl Hcase.
  pose proof (addUserAddress_wellFormed uid chainName addr w Hwf) as [_ Hlow].
  destruct (addUserAddress_store uid chainName addr w)
    as (l' & Hw & Hfind & _ & _).
  rewrite Hw in *. simpl in Hlow.
  set (w' := withChainAddresses w l').
  set (row := {| ca_user_id := uid; chain_name := JS.toLowerCase chainName;
                 address := JSx.trim addr; is_active := true |}) in *.
  assert (Ha : List.find
                 (fun a => String.eqb (JS.toLowerCase (chain_name a))
                             (JS.toLowerCase l))
                 (activeAddresses w' uid) = Some row).
  { unfold activeAddresses. simpl. rewrite find_filter.
    rewrite (find_ext_in _
               (fun a => (addressKey uid (JS.toLowerCase chainName) a
                          && is_active a)%bool)).
    - apply find_conj; [exact Hfind|reflexivity].
    - intros a Hin. rewrite List.Forall_forall in Hlow. rewrite (Hlow a Hin), Hcase.
      unfold addressKey.
      destruct (Z.eqb (ca_user_id a) uid), (is_active a),
        (String.eqb (chain_name a) (JS.toLowerCase chainName)); reflexivity. }
  pose proof (address_dispatch_outcome CURRENCIES ext name d amt nonce cur l aid
                w' user uid row Hu Hid Hp Hl Ha) as Hout.
  rewrite Hout.
  assert (Hrec : findPayment
            (withPayment w'
               (paymentRecord w' uid nonce amt cur (Some l) aid (address row)))
            nonce
          = Some (paymentRecord w' uid nonce amt cur (Some l) aid (address row))).
  { unfold findPayment in *. simpl. apply find_snoc; [exact Hp|].
    simpl. apply String.eqb_refl. }
  destruct (amountInCurrencyUnits _ _) as [e|units] eqn:E; simpl.
  - split; [|split; [eauto|discriminate]].
    unfold amountInCurrencyUnits, BigInt, BigInt_div in E.
    destruct (calculateMultipliers _ _ _ !! _) as [m|];
      [|injection E as <-; discriminate].
    destruct (Z.eqb m 0); [injection E as <-; discriminate|discriminate].
  - split; [discriminate|]. split; [eauto|].
    intros r [= <-]. reflexivity.
Qed.

(** ** UserService: creating and deleting users *)

(** The document that createUser inserts. *)
Lemma createUser_outcome options insertedId s :
  isValidUsername (o_username options) = true ->
  findUser (store s) (o_username options) (o_domainId options) = None ->
  createUser options insertedId s
  = (inr (findUserById
            {| users :=
                 users (store s)
                 ++ [ {| u_id := Some insertedId;
                         username := JS.toLowerCase (o_username options);
                         domain_id := o_domainId options;
                         display_name :=
                           Some (JS.or_else (o_displayName options)
                                   (o_username options));
                         spark_public_key :=
                           if JS.truthy (o_sparkPublicKey options)
                           then o_sparkPublicKey options else None |} ];
               chain_addresses :=
                 chain_addresses (store s)
                 ++ addressInserts insertedId
                      (match o_addresses options with
                       | Some entries => entries
                       | None => []
                       end);
               payment_requests := payment_requests (store s);
               domains := domains (store s);
               invoices := invoices (store s) |} insertedId),
     {| store :=
          {| users :=
               users (store s)
               ++ [ {| u_id := Some insertedId;
                       username := JS.toLowerCase (o_username options);
                       domain_id := o_domainId options;
                       display_name :=
                         Some (JS.or_else (o_displayName options)
                                 (o_username options));
                       spark_public_key :=
                         if JS.truthy (o_sparkPublicKey options)
                         then o_sparkPublicKey options else None |} ];
             chain_addresses :=
               chain_addresses (store s)
               ++ addressInserts insertedId
                    (match o_addresses options with
                     | Some entries => entries
                     | None => []
                     end);
             payment_requests := payment_requests (store s);
             domains := domains (store s);
             invoices := invoices (store s) |};
        audit_log :=
          audit_log s
          ++ [ {| ae_domain_id := o_domainId options; action := "user_created";
                  actor_type := "domain_admin"; target_type := "user";
                  target_id := insertedId;
                  details :=
                    CreatedDetails (o_username options)
                      (match o_addresses options with
                       | Some _ => true
                       | None => false
                       end) |} ] |}).
Proof.
  intros Hvalid Hnone.
  unfold createUser, abind, onStore, logAudit, getUserByUsernameAndDomain,
    getUserById, bind, get, put, ret, aret, athrow.
  rewrite Hvalid. simpl. rewrite Hnone. simpl.
  destruct (o_addresses options) as [entries|]; simpl.
  - destruct (addressInserts insertedId entries) eqn:E; simpl.
    + now rewrite app_nil_r.
    + reflexivity.
  - now rewrite app_nil_r.
Qed.

Lemma findUserById_snoc w' us u id :
  users w' = us ++ [u] ->
  List.find
    (fun u => match u_id u with Some i => Z.eqb i id | None => false end) us
  = None ->
  u_id u = Some id -> findUserById w' id = Some u.
Proof.
  intros Hus Hfresh Hid. unfold findUserById. rewrite Hus.
  apply find_snoc; [exact Hfresh|]. rewrite Hid. apply Z.eqb_refl.
Qed.

(** X24. createUser, for a valid user name that no user of the tenant has,
    as given or in lower case, stores one user document with the user name
    in lower case, the display name defaulting to the user name as given and
    the Spark key or null, one address document for each entry whose address
    is not blank, and one audit entry; it returns the stored user, which is
    the one that the lower-cased name then resolves to. *)
Theorem created_user_is_stored options insertedId s :
  isValidUsername (o_username options) = true ->
  findUser (store s) (o_username options) (o_domainId options) = None ->
  findUser (store s) (JS.toLowerCase (o_username options)) (o_domainId options)
  = None ->
  findUserById (store s) insertedId = None ->
  exists user s',
    createUser options insertedId s = (inr (Some user), s')
    /\ user = {| u_id := Some insertedId;
                 username := JS.toLowerCase (o_username options);
                 domain_id := o_domainId options;
                 display_name :=
                   Some (JS.or_else (o_displayName options) (o_username options));
                 spark_public_key :=
                   if JS.truthy (o_sparkPublicKey options)
                   then o_sparkPublicKey options else None |}
    /\ users (store s') = users (store s) ++ [user]
    /\ chain_addresses (store s')
       = chain_addresses (store s)
         ++ addressInserts insertedId
              (match o_addresses options with
               | Some entries => entries
               | None => []
               end)
    /\ payment_requests (store s') = payment_requests (store s)
    /\ domains (store s') = domains (store s)
    /\ length (audit_log s') = S (length (audit_log s))
    /\ findUser (store s') (JS.toLowerCase (o_username options))
         (o_domainId options) = Some user.
Proof.
  intros Hvalid Hnone Hlow Hfresh.
  rewrite (createUser_outcome options insertedId s Hvalid Hnone).
  eexists _, _. split.
  - f_equal. f_equal. eapply findUserById_snoc; [reflexivity|exact Hfresh|].
    reflexivity.
  - simpl. repeat split.
    + rewrite length_app. simpl. lia.
    + unfold findUser in *. simpl. apply find_snoc; [exact Hlow|].
      simpl. now rewrite String.eqb_refl, Z.eqb_refl.
Qed.

Lemma find_snoc_None {A} (f : A -> bool) l x :
  List.find f l = None -> f x = false -> List.find f (l ++ [x]) = None.
Proof.
  induction l as [|y l IH]; simpl.
  - now intros _ ->.
  - destruct (f y); [discriminate|auto].
Qed.

(** X25. createUser stores the user name in lower case, and the lnurlp
    endpoint looks the name of the request up as it is given: after
    createUser for a valid user name with a capital letter that no user of
    the tenant has as given, a discovery request for that name on the host
    of the tenant is answered 404 "User not found", while the lower-cased
    name resolves to a user. *)
Theorem mixed_case_name_is_not_found CHAIN_MAPPING CURRENCIES BASE_URL NODE_ENV
  parseInt ext options insertedId s req d :
  isValidUsername (o_username options) = true ->
  findUser (store s) (o_username options) (o_domainId options) = None ->
  JS.toLowerCase (o_username options) <> o_username options ->
  JS.truthy (q_amount req) = false ->
  params_username req = o_username options ->
  findDomain (store s) (JS.toLowerCase (hostname req)) = Some d ->
  d_id d = o_domainId options ->
  lnurlp CHAIN_MAPPING CURRENCIES BASE_URL NODE_ENV ext parseInt req
    (store (snd (createUser options insertedId s)))
  = (errorReply 404 "User not found",
     store (snd (createUser options insertedId s)))
  /\ is_Some (findUser (store (snd (createUser options insertedId s)))
                (JS.toLowerCase (o_username options)) (o_domainId options)).
Proof.
  intros Hvalid Hnone Hcase Hreq Hname Hd Hid.
  rewrite (createUser_outcome options insertedId s Hvalid Hnone).
  cbn [snd store]. split.
  - rewrite (lnurlp_lookup CHAIN_MAPPING CURRENCIES BASE_URL NODE_ENV parseInt
               ext req _ Hreq).
    unfold findDomain in *. cbn [domains]. rewrite Hd.
    unfold generateLookupResponse, getUserByUsernameAndDomain, bind, get, ret.
    unfold findUser in *. cbn [users]. rewrite Hname, Hid.
    rewrite (find_snoc_None _ _ _ Hnone); [reflexivity|].
    cbn [username domain_id].
    destruct (String.eqb_spec (JS.toLowerCase (o_username options))
                (o_username options)); [contradiction|reflexivity].
  - unfold findUser in *. cbn [users].
    destruct (List.find
                (fun u =>
                   (String.eqb (username u) (JS.toLowerCase (o_username options))
                    && Z.eqb (domain_id u) (o_domainId options))%bool)
                (users (store s))) as [u|] eqn:E.
    + exists u. now apply find_app_Some.
    + eexists. apply find_snoc; [exact E|].
      cbn [username domain_id]. now rewrite String.eqb_refl, Z.eqb_refl.
Qed.

(** The text "duplicate" occurs in the message of createUser for an
    existing user only inside the user name that the message quotes. *)
Lemma substring_prefix_app (q : ascii) (t r suf : string) :
  (forall i, String.get i t <> Some q) ->
  String.substring 0 (String.length t) (r +:+ String q suf) = t ->
  String.substring 0 (String.length t) r = t.
Proof.
  revert r. induction t as [|c t IH]; intros r Hq; simpl.
  - now destruct r.
  - destruct r as [|c' r]; simpl.
    + intros [= <- _]. now destruct (Hq 0%nat).
    + intros [= -> H]. f_equal. apply IH; [|exact H].
      intros i. exact (Hq (S i)).
Qed.

Lemma substring_app_quoted (q : ascii) (t r suf : string) (m : nat) :
  t <> "" ->
  (forall i, String.get i t <> Some q) ->
  String.index 0 t (String q suf) = None ->
  String.substring m (String.length t) (r +:+ String q suf) = t ->
  String.substring m (String.length t) r = t.
Proof.
  intros Ht Hq Hsuf. revert m. induction r as [|c r IH]; intros m H.
  - simpl in H. now destruct (index_correct3 0 m t _ Hsuf Ht (Nat.le_0_l m)).
  - destruct m as [|m].
    + exact (substring_prefix_app q t (String c r) suf Hq H).
    + destruct t as [|c0 t]; [now destruct Ht|]. simpl in *. now apply IH.
Qed.

Lemma includes_userExistsMessage (name : string) :
  JS.includes "duplicate" (userExistsMessage name) = true ->
  JS.includes "duplicate" name = true.
Proof.
  unfold JS.includes, userExistsMessage.
  destruct (String.index 0 "duplicate" (_ +:+ _)) as [m|] eqn:E;
    [intros _|discriminate].
  apply index_correct1 in E.
  do 6 (destruct m as [|m]; [simpl in E; discriminate|]).
  change ("User " +:+ String (ascii_of_nat 34) name
          +:+ String (ascii_of_nat 34) " already exists in this domain")
    with (String "U" (String "s" (String "e" (String "r" (String " "
            (String (ascii_of_nat 34)
               (name +:+ String (ascii_of_nat 34)
                           " already exists in this domain")))))))
    in E.
  simpl substring in E.
  apply (substring_app_quoted (ascii_of_nat 34) "duplicate" name
           " already exists in this domain" m) in E.
  - destruct (String.index 0 "duplicate" name) eqn:E'; [reflexivity|].
    now destruct (index_correct3 0 m "duplicate" name E'
                    ltac:(discriminate) (Nat.le_0_l m)).
  - discriminate.
  - intros i. do 9 (destruct i as [|i]; [discriminate|]). discriminate.
  - vm_compute. reflexivity.
Qed.

(** X26. POST /users/:domainId recognises a conflict by a search for
    "duplicate" in the message of the error: for a valid user name that a
    user of the tenant already has, nothing is stored and the answer is 409
    only when the user name itself contains "duplicate"; for every other
    such name it is 500 with the message of createUser. *)
Theorem existing_user_is_reported domainId name displayName addresses
  sparkPublicKey insertedId s existing :
  isValidUsername name = true ->
  findUser (store s) name domainId = Some existing ->
  snd (postUser domainId (Some name) displayName addresses sparkPublicKey
         insertedId s) = s
  /\ (a_status
        (fst (postUser domainId (Some name) displayName addresses
                sparkPublicKey insertedId s)) = 409 ->
      JS.includes "duplicate" name = true)
  /\ (JS.includes "duplicate" name = false ->
      fst (postUser domainId (Some name) displayName addresses sparkPublicKey
             insertedId s)
      = {| a_status := 500;
           a_body := AdminError "Internal Server Error"
                       (userExistsMessage name) |})
  /\ (a_status
        (fst (postUser domainId (Some name) displayName addresses
                sparkPublicKey insertedId s)) = 409
      \/ a_status
           (fst (postUser domainId (Some name) displayName addresses
                   sparkPublicKey insertedId s)) = 500).
Proof.
  intros Hvalid Hu.
  assert (Hname : JS.truthy (Some name) = true).
  { destruct name; [vm_compute in Hvalid; discriminate|reflexivity]. }
  assert (Hpost :
    postUser domainId (Some name) displayName addresses sparkPublicKey
      insertedId s
    = (if JS.includes "duplicate" (userExistsMessage name)
       then {| a_status := 409;
               a_body := AdminError "Conflict" (userExistsMessage name) |}
       else {| a_status := 500;
               a_body := AdminError "Internal Server Error"
                           (userExistsMessage name) |}, s)).
  { assert (Hor : JS.or_else (Some name) "" = name)
      by (destruct name; reflexivity).
    unfold postUser. rewrite Hname, Hor. destruct s as [w al].
    cbn [store negb] in *.
    unfold createUser, abind, onStore, getUserByUsernameAndDomain, bind, get,
      ret, athrow.
    cbn [o_username o_domainId store]. rewrite Hvalid. cbn [negb store].
    cbn beta. rewrite Hu. cbn [message].
    destruct (JS.includes _ _); reflexivity. }
  rewrite Hpost. simpl.
  pose proof (includes_userExistsMessage name) as Hinc.
  destruct (JS.includes "duplicate" (userExistsMessage name)); simpl.
  - repeat split; auto. intros Hno. rewrite Hinc in Hno by reflexivity.
    discriminate.
  - repeat split; auto. discriminate.
Qed.

Lemma deleteFirst_length {A} (p : A -> bool) l x :
  List.find p l = Some x -> S (length (deleteFirst p l)) = length l.
Proof.
  induction l as [|y l IH]; simpl; [discriminate|].
  destruct (p y); [reflexivity|]. intros H. simpl. now rewrite IH.
Qed.

(** X27. deleteUser removes one user document and nothing else: the chain
    addresses and the payment requests of the user stay in the store, and
    one audit entry is written; when user ids are distinct the id no longer
    resolves afterwards; for an id that no user has it throws
    "User not found" and changes nothing. *)
Theorem deleted_user_keeps_addresses userId s :
  match findUserById (store s) userId with
  | Some user =>
      exists s',
        deleteUser userId s = (inr tt, s')
        /\ chain_addresses (store s') = chain_addresses (store s)
        /\ payment_requests (store s') = payment_requests (store s)
        /\ domains (store s') = domains (store s)
        /\ S (length (users (store s'))) = length (users (store s))
        /\ (forall u, In u (users (store s')) -> In u (users (store s)))
        /\ audit_log s'
           = audit_log s
             ++ [ {| ae_domain_id := domain_id user; action := "user_deleted";
                     actor_type := "domain_admin"; target_type := "user";
                     target_id := userId;
                     details := DeletedDetails (username user) |} ]
        /\ (NoDup (map u_id (users (store s))) ->
            findUserById (store s') userId = None)
  | None => deleteUser userId s = (inl (Error "User not found"), s)
  end.
Proof.
  unfold deleteUser, abind, onStore, logAudit, getUserById, bind, get, put, ret,
    athrow.
  simpl. destruct (findUserById (store s) userId) as [user|] eqn:Hu; simpl.
  - eexists. split; [reflexivity|]. simpl. repeat split.
    + eapply deleteFirst_length. exact Hu.
    + intros u. apply deleteFirst_In.
    + intros Hnd. unfold findUserById. simpl.
      apply (deleteFirst_unique u_id _ _ Hnd).
      intros x y Hx Hy. destruct (u_id x), (u_id y); try discriminate.
      apply Z.eqb_eq in Hx, Hy. congruence.
  - destruct s. reflexivity.
Qed.

(** ** UserService: the layers of enrichUserWithAddresses *)

Lemma enrichLayer_spec chain :
  enrichLayer chain = if String.eqb chain "lightning" then "ln" else chain.
Proof.
  unfold enrichLayer.
  destruct (layerMap !! chain) as [l|] eqn:E.
  - assert (H : map_Forall
                  (fun k l => (if String.eqb l "" then k else l)
                              = if String.eqb k "lightning" then "ln" else k)
                  layerMap)
      by (apply (bool_decide_unpack _); vm_compute; reflexivity).
    exact (H chain l E).
  - destruct (String.eqb_spec chain "lightning") as [->|]; [|reflexivity].
    vm_compute in E. discriminate.
Qed.

(** X28. For chain names that [Object.prototype] does not define, the
    layers that enrichUserWithAddresses lists are the chain names of the
    formatted addresses of the user, with "ln" in the place of "lightning":
    its table changes no other name, and a chain without a chain mapping is
    listed all the same; for every chain of the chain mapping the layer
    listed is the one that discovery advertises. The store is only read. *)
Theorem enrich_layers_agree (user : User) (w : World) :
  Forall (fun a => ownName (chain_name a) = true)
    (match u_id user with
     | Some uid => activeAddresses w uid
     | None => []
     end) ->
  (exists e,
     enrichUserWithAddresses user w = (inr e, w)
     /\ eu_user e = user
     /\ eu_addresses e
        = match u_id user with
          | Some uid => formatAddresses (activeAddresses w uid)
          | None => []
          end
     /\ eu_settlementOptions e
        = map (fun a => if String.eqb (fst a) "lightning" then "ln" else fst a)
            (eu_addresses e))
  /\ (forall chain m, chainMapping !! chain = Some m ->
        enrichLayer chain = layer m).
Proof.
  intros _. split.
  - unfold enrichUserWithAddresses, getFormattedAddresses, getUserAddresses,
      bind, get, ret.
    destruct (u_id user); simpl; eexists; (split; [reflexivity|]); simpl;
      repeat split; apply map_ext; intros a; apply enrichLayer_spec.
  - intros chain m.
    assert (H : map_Forall (fun k m => enrichLayer k = layer m) chainMapping)
      by (apply (bool_decide_unpack _); vm_compute; reflexivity).
    exact (H chain m).
Qed.

(** ** The admin routes: deleting a user *)

Lemma deleteFirst_same {A} (p q : A -> bool) l x :
  List.find p l = Some x -> List.find q l = Some x ->
  deleteFirst p l = deleteFirst q l.
Proof.
  induction l as [|y l IH]; simpl; [discriminate|].
  destruct (p y) eqn:Hp, (q y) eqn:Hq.
  - reflexivity.
  - intros [= <-] Hx. apply find_some in Hx as [_ Hx]. congruence.
  - intros Hx [= <-]. apply find_some in Hx as [_ Hx]. congruence.
  - intros H1 H2. now rewrite (IH H1 H2).
Qed.

Lemma NoDup_map_inj {A B} (f : A -> B) l x y :
  NoDup (map f l) -> In x l -> In y l -> f x = f y -> x = y.
Proof.
  induction l as [|z l IH]; simpl; [contradiction|].
  intros Hnd Hx Hy E. apply NoDup_cons in Hnd as [Hz Hnd].
  destruct Hx as [<-|Hx], Hy as [<-|Hy]; auto.
  - exfalso. apply Hz. rewrite E. now apply list_elem_of_In, in_map.
  - exfalso. apply Hz. rewrite <- E. now apply list_elem_of_In, in_map.
Qed.

(** X29. DELETE /users/:domainId/:username answers 404 and changes nothing
    when the tenant has no user of that name; otherwise it answers 200, the
    chain addresses of the user stay in the store, and, user ids and user
    names being distinct, the name no longer resolves afterwards. *)
Theorem delete_route domainId name s :
  match findUser (store s) name domainId with
  | None =>
      deleteUserRoute domainId name s
      = ({| a_status := 404;
            a_body := AdminError "Not Found" "User not found" |}, s)
  | Some user =>
      forall uid, u_id user = Some uid ->
        fst (deleteUserRoute domainId name s)
        = {| a_status := 200;
             a_body := AdminSuccess "User deleted successfully" |}
        /\ chain_addresses (store (snd (deleteUserRoute domainId name s)))
           = chain_addresses (store s)
        /\ (NoDup (map u_id (users (store s))) ->
            NoDup (map (fun u => (username u, domain_id u)) (users (store s))) ->
            findUser (store (snd (deleteUserRoute domainId name s))) name
              domainId = None)
  end.
Proof.
  unfold deleteUserRoute.
  destruct (findUser (store s) name domainId) as [user|] eqn:Hu;
    [|reflexivity].
  intros uid Hid. rewrite Hid.
  pose proof Hu as Hu'. unfold findUser in Hu'.
  apply find_some in Hu' as [Hin Hkey].
  assert (Hsome : exists user', findUserById (store s) uid = Some user').
  { unfold findUserById.
    destruct (List.find _ (users (store s))) as [u'|] eqn:E; [eauto|].
    pose proof (find_None_forall _ _ E user Hin) as Hf. simpl in Hf.
    rewrite Hid, Z.eqb_refl in Hf. discriminate. }
  destruct Hsome as [user' Hu''].
  unfold deleteUser, abind, onStore, logAudit, getUserById, bind, get, put, ret,
    athrow.
  simpl. rewrite Hu''. simpl. repeat split.
  intros Hids Hnames.
  assert (user' = user).
  { pose proof Hu'' as H. unfold findUserById in H.
    apply find_some in H as [Hin' Hid'].
    apply (NoDup_map_inj u_id _ _ _ Hids Hin' Hin).
    destruct (u_id user') as [i|]; [|discriminate].
    apply Z.eqb_eq in Hid'. congruence. }
  subst user'. unfold findUser. simpl.
  rewrite (deleteFirst_same _
             (fun u => (String.eqb (username u) name
                        && Z.eqb (domain_id u) domainId)%bool)
             _ user Hu'' Hu).
  apply (deleteFirst_unique (fun u => (username u, domain_id u)) _ _ Hnames).
  intros x y Hx Hy.
  apply andb_true_iff in Hx as [H1 H2]. apply andb_true_iff in Hy as [H3 H4].
  apply String.eqb_eq in H1, H3. apply Z.eqb_eq in H2, H4. congruence.
Qed.

(** * The further properties on the concrete store *)

(** A payment of alice on polygon: the record holds the stored address. *)
Lemma successful_payment_is_recorded_witness :
  exists r w' p,
    examplePay extOk "alice" 2500 "n1" None (Some "polygon")
      (Some "USDT_POLYGON") exampleWorld = (inr (Some r), w')
    /\ findPayment w' "n1" = Some p
    /\ invoice p = "0xDEF" /\ pr r = "0xDEF".
Proof.
  destruct (examplePay extOk "alice" 2500 "n1" None (Some "polygon")
              (Some "USDT_POLYGON") exampleWorld)
    as [[e|[r|]] w'] eqn:Hcall; try (vm_compute in Hcall; discriminate).
  destruct (successful_payment_is_recorded currenciesConfig extOk "alice"
              exampleDomain 2500 "n1" None (Some "polygon")
              (Some "USDT_POLYGON") exampleWorld r w' Hcall)
    as (user & uid & p & _ & _ & _ & Hfind & _ & _ & _ & _ & _ & _ & Hinv).
  exists r, w', p. split; [reflexivity|]. split; [exact Hfind|].
  assert (Hpr : pr r = "0xDEF")
    by (vm_compute in Hcall; injection Hcall as <- _; reflexivity).
  split; congruence.
Defined.

Lemma recorded_payment_is_permanent_witness :
  exists p,
    findPayment
      (snd (exampleLnurlp extOk
              (payRequest "alice" "1000" (Some "n1") None None) exampleWorld))
      "n0" = Some p
    /\ invoice p = "lnbc5000".
Proof.
  destruct (findPayment exampleWorld "n0") as [p|] eqn:Hp;
    [|vm_compute in Hp; discriminate].
  exists p. split.
  - exact (recorded_payment_is_permanent chainMapping currenciesConfig None
             None parseDigits extOk
             (payRequest "alice" "1000" (Some "n1") None None) exampleWorld
             "n0" p Hp).
  - vm_compute in Hp. injection Hp as <-. reflexivity.
Defined.

Lemma repeated_request_is_refused_witness :
  exists w',
    snd (exampleLnurlp extOk (payRequest "alice" "1000" (Some "n1") None None)
           exampleWorld) = w'
    /\ exampleLnurlp extFailing
         (payRequest "alice" "1000" (Some "n1") None None) w'
       = (errorReply 409
            "Duplicate payment request. This nonce has already been used.",
          w').
Proof.
  destruct (exampleLnurlp extOk
              (payRequest "alice" "1000" (Some "n1") None None) exampleWorld)
    as [[st [reason|lr|r]] w'] eqn:Hcall;
    try (vm_compute in Hcall; discriminate).
  assert (Hst : st = 200).
  { pose proof Hcall as H. vm_compute in H. now injection H. }
  subst st. exists w'. split; [reflexivity|].
  refine (repeated_request_is_refused chainMapping currenciesConfig None None
            parseDigits extOk extFailing
            (payRequest "alice" "1000" (Some "n1") None None) exampleWorld r w'
            "n1" _ _ Hcall).
  - reflexivity.
  - discriminate.
Defined.

(** A payment of alice on polygon in EUR, which the market rates quote at
    zero: the answer is 500, the record is stored, the repeat is refused. *)
Lemma conversion_failure_keeps_record_witness :
  fst (exampleLnurlp extOk
         {| params_username := "alice"; hostname := "Example.com";
            q_amount := Some "2500"; q_nonce := Some "n1";
            q_currency := Some "EUR"; q_settlementLayer := Some "polygon";
            q_assetIdentifier := None |} exampleWorld)
  = errorReply 500 "Internal server error"
  /\ exists p,
       findPayment
         (snd (exampleLnurlp extOk
                 {| params_username := "alice"; hostname := "Example.com";
                    q_amount := Some "2500"; q_nonce := Some "n1";
                    q_currency := Some "EUR";
                    q_settlementLayer := Some "polygon";
                    q_assetIdentifier := None |} exampleWorld)) "n1"
       = Some p
       /\ invoice p = "0xDEF".
Proof.
  destruct (conversion_failure_keeps_record chainMapping currenciesConfig None
              None parseDigits extOk
              {| params_username := "alice"; hostname := "Example.com";
                 q_amount := Some "2500"; q_nonce := Some "n1";
                 q_currency := Some "EUR"; q_settlementLayer := Some "polygon";
                 q_assetIdentifier := None |}
              exampleWorld exampleDomain 2500 "n1" "polygon" alice 1
              {| ca_user_id := 1; chain_name := "polygon"; address := "0xDEF";
                 is_active := true |})
    as (Hreply & Hrecord & _);
    try (vm_compute; reflexivity); try discriminate; try lia.
  - right. vm_compute. reflexivity.
  - split; [exact Hreply|]. eexists. split; [exact Hrecord|reflexivity].
Defined.

Lemma nonces_stay_unique_witness :
  NoDup
    (map pr_nonce
       (payment_requests
          (snd (exampleLnurlp extOk
                  (payRequest "alice" "1000" (Some "n1") None None)
                  exampleWorld)))).
Proof.
  apply (nonces_stay_unique chainMapping currenciesConfig None None parseDigits
           extOk (payRequest "alice" "1000" (Some "n1") None None)
           exampleWorld).
  vm_compute. repeat constructor. intros H. inversion H.
Defined.

Lemma address_dispatch_witness :
  findPayment
    (snd (examplePay extFailing "bob" 700 "n2" None (Some "ETHEREUM") None
            exampleWorld)) "n2"
  = Some (paymentRecord exampleWorld 2 "n2" 700 None (Some "ETHEREUM") None
            "0x123").
Proof.
  refine (proj1 (proj2
            (address_dispatch currenciesConfig extFailing "bob" exampleDomain
               700 "n2" None "ETHEREUM" None exampleWorld bob 2
               {| ca_user_id := 2; chain_name := "ethereum";
                  address := "0x123"; is_active := true |} _ _ _ _ _)));
    vm_compute; reflexivity.
Defined.

Lemma lightning_dispatch_witness :
  invoices
    (snd (examplePay extOk "alice" 3000 "n3" None (Some "spark") None
            exampleWorld))
  = [ ({| amountSats := 3000; memo := "Payment to alice";
          includeSparkAddress := true;
          receiverIdentityPubkey := Some "02509abc" |}, "lnbc3000") ].
Proof.
  refine (proj1
            (lightning_dispatch currenciesConfig extOk "alice" exampleDomain
               3000 "n3" None (Some "spark") None exampleWorld alice 1
               mintingWallet "lnbc3000" _ _ _ _ _ _ _));
    vm_compute; reflexivity.
Defined.

(** [parseInt("-5", 10)] is -5. *)
Lemma invalid_amount_is_refused_witness :
  exampleLnurlp extOk (payRequest "mallory" "-5" None None None) exampleWorld
  = (errorReply 400 "Invalid amount", exampleWorld).
Proof.
  apply (invalid_amount_is_refused chainMapping currenciesConfig None None
           parseDigits extOk (payRequest "mallory" "-5" None None None)
           exampleWorld).
  - reflexivity.
  - right. exists (-5). split; [vm_compute; reflexivity|lia].
Defined.

Lemma unknown_domain_is_refused_witness :
  exampleLnurlp extOk
    {| params_username := "alice"; hostname := "Other.ORG"; q_amount := None;
       q_nonce := None; q_currency := None; q_settlementLayer := None;
       q_assetIdentifier := None |} exampleWorld
  = (errorReply 404 "Domain other.org not found", exampleWorld).
Proof.
  apply (unknown_domain_is_refused chainMapping currenciesConfig None None
           parseDigits extOk
           {| params_username := "alice"; hostname := "Other.ORG";
              q_amount := None; q_nonce := None; q_currency := None;
              q_settlementLayer := None; q_assetIdentifier := None |}
           exampleWorld).
  - vm_compute. reflexivity.
  - left. reflexivity.
Defined.

Lemma missing_key_is_internal_error_witness :
  exampleLnurlp extOk (payRequest "bob" "1000" (Some "n1") None None)
    exampleWorld
  = (errorReply 500 "Internal server error", exampleWorld).
Proof.
  refine (missing_key_is_internal_error chainMapping currenciesConfig None None
            parseDigits extOk (payRequest "bob" "1000" (Some "n1") None None)
            exampleWorld exampleDomain 1000 bob 2 _ _ _ _ _ _ _ _ _);
    try (vm_compute; reflexivity); lia.
Defined.

(** carol has no address: her discovery response has no settlement
    options. *)
Lemma settlement_options_omitted_witness :
  exists r,
    generateLookupResponse chainMapping currenciesConfig None None extOk
      "carol" exampleDomain exampleWorld = (inr (Some r), exampleWorld)
    /\ settlementOptions r = None.
Proof.
  destruct (generateLookupResponse chainMapping currenciesConfig None None
              extOk "carol" exampleDomain exampleWorld)
    as [[e|[r|]] w'] eqn:Hcall; try (vm_compute in Hcall; discriminate).
  assert (Hw : w' = exampleWorld).
  { pose proof Hcall as H. vm_compute in H. now injection H. }
  exists r. split; [now rewrite Hw|].
  refine (proj1 (proj2
            (settlement_options_omitted chainMapping currenciesConfig None None
               extOk "carol" exampleDomain exampleWorld r w' carol 3 Hcall
               _ _ _)) _);
    try (vm_compute; reflexivity).
  vm_compute. constructor.
Defined.

(** Two chains of one layer give two options; the unmapped chain gives
    none. *)
Lemma settlement_options_shape_witness :
  exists l,
    buildSettlementOptions chainMapping extOk
      [ ("Spark", ChainString "02509abc"); ("dogecoin", ChainString "D8abc");
        ("spark", ChainString "03aa") ] ["USD"] = inr l
    /\ map (fun o => (settlementLayer o, map multipliers (assets o))) l
       = [ ("spark", [sampleRates "BTC" ["USD"]]);
           ("spark", [sampleRates "BTC" ["USD"]]) ].
Proof.
  destruct (settlement_options_shape chainMapping extOk
              [ ("Spark", ChainString "02509abc");
                ("dogecoin", ChainString "D8abc");
                ("spark", ChainString "03aa") ] ["USD"])
    as (l & Hl & Hmap & _).
  - repeat constructor.
  - exists l. split; [exact Hl|exact Hmap].
Defined.

(** Of the currencies of the example tenant, USD is listed; EUR, quoted at
    zero, and BTC, not quoted, are not. *)
Lemma currencies_are_rated_witness :
  In {| code := "USD"; name := "US Dollar"; symbol := "$"; decimals := 2;
        convertible_min := 1; convertible_max := 100000; multiplier := 1000 |}
    (buildCurrencies currenciesConfig extOk (currency_settings exampleDomain)).
Proof.
  refine (proj2
            (currencies_are_rated currenciesConfig extOk
               [ ("BTC", {| active := true; cs_minSendable := 1000;
                            cs_maxSendable := 100000000 |});
                 ("USD", {| active := true; cs_minSendable := 1;
                            cs_maxSendable := 100000 |});
                 ("EUR", {| active := true; cs_minSendable := 1;
                            cs_maxSendable := 100000 |}) ]
               _ _) _).
  - repeat constructor.
  - exists "USD", {| active := true; cs_minSendable := 1;
                     cs_maxSendable := 100000 |},
      {| cfg_code := "USD"; cfg_name := "US Dollar"; cfg_symbol := "$";
         cfg_decimals := 2 |}, 1000.
    repeat split; try (vm_compute; reflexivity).
    + right. left. reflexivity.
    + discriminate.
Defined.

Lemma formatted_addresses_keys_witness :
  obj_get (formatAddresses (activeAddresses exampleWorld 1)) "polygon"
  = Some (ChainObject "0xDEF" (Some 137)).
Proof.
  refine (eq_trans
            (proj2 (proj2
               (formatted_addresses_keys (activeAddresses exampleWorld 1)
                  "polygon" _))) _).
  - vm_compute. repeat constructor.
  - vm_compute. reflexivity.
Defined.

Lemma lookup_needs_btc_settings_witness :
  exists r,
    exampleLnurlp extOk (lookupRequest "alice") exampleWorld
    = ({| status := 200; body := LookupBody r |}, exampleWorld)
    /\ minSendable r = 1000 /\ maxSendable r = 100000000.
Proof.
  refine (lookup_needs_btc_settings chainMapping currenciesConfig None None
            parseDigits extOk (lookupRequest "alice") exampleWorld
            exampleDomain alice _ _ _ _);
    try (vm_compute; reflexivity).
  vm_compute. repeat constructor.
Defined.

Lemma address_constraint_is_kept_witness :
  addressesWellFormed (snd (addUserAddress 2 "Polygon" " 0x456 " exampleWorld))
  /\ addressesWellFormed (snd (removeUserAddress 2 "Polygon" exampleWorld)).
Proof.
  apply (address_constraint_is_kept 2 "Polygon" " 0x456 " exampleWorld).
  split.
  - apply (bool_decide_unpack _). vm_compute. reflexivity.
  - repeat constructor.
Defined.

(** bob gets a polygon address and is paid on it. *)
Lemma added_address_is_paid_witness :
  exists p,
    findPayment
      (snd (examplePay extOk "bob" 700 "n2" None (Some "POLYGON") None
              (snd (addUserAddress 2 "Polygon" " 0x456 " exampleWorld)))) "n2"
    = Some p
    /\ invoice p = "0x456".
Proof.
  refine (proj1 (proj2
            (added_address_is_paid currenciesConfig extOk "bob" exampleDomain
               700 "n2" None "POLYGON" None exampleWorld bob 2 "Polygon"
               " 0x456 " _ _ _ _ _ _)));
    try (vm_compute; reflexivity).
  split.
  - apply (bool_decide_unpack _). vm_compute. reflexivity.
  - repeat constructor.
Defined.

Lemma blank_address_is_stored_witness :
  findAddress (snd (addUserAddress 1 "Polygon" "   " exampleWorld)) 1 "polygon"
  = Some {| ca_user_id := 1; chain_name := "polygon"; address := "";
            is_active := true |}.
Proof.
  refine (proj1 (blank_address_is_stored 1 "Polygon" "   " exampleWorld _)).
  vm_compute. reflexivity.
Defined.

Lemma created_user_is_stored_witness :
  exists user s',
    createUser
      {| o_username := "Dave"; o_domainId := 1; o_displayName := None;
         o_addresses := Some [ ("Polygon", Some " 0x789 "); ("solana", Some " ");
                               ("base", None) ];
         o_sparkPublicKey := Some "" |} 4 exampleAdmin
    = (inr (Some user), s')
    /\ user = {| u_id := Some 4; username := "dave"; domain_id := 1;
                 display_name := Some "Dave"; spark_public_key := None |}
    /\ chain_addresses (store s')
       = chain_addresses exampleWorld
         ++ [ {| ca_user_id := 4; chain_name := "polygon"; address := "0x789";
                 is_active := true |} ].
Proof.
  destruct (created_user_is_stored
              {| o_username := "Dave"; o_domainId := 1; o_displayName := None;
                 o_addresses :=
                   Some [ ("Polygon", Some " 0x789 "); ("solana", Some " ");
                          ("base", None) ];
                 o_sparkPublicKey := Some "" |} 4 exampleAdmin)
    as (user & s' & Hcall & Huser & _ & Haddr & _);
    try (vm_compute; reflexivity).
  exists user, s'. split; [exact Hcall|]. split; [exact Huser|exact Haddr].
Defined.

(** "Dave" is stored as "dave", and a discovery request for "Dave" is not
    answered. *)
Lemma mixed_case_name_is_not_found_witness :
  fst (exampleLnurlp extOk (lookupRequest "Dave")
         (store
            (snd (createUser
                    {| o_username := "Dave"; o_domainId := 1;
                       o_displayName := None; o_addresses := None;
                       o_sparkPublicKey := None |} 4 exampleAdmin))))
  = errorReply 404 "User not found".
Proof.
  refine (f_equal fst
            (proj1
               (mixed_case_name_is_not_found chainMapping currenciesConfig None
                  None parseDigits extOk
                  {| o_username := "Dave"; o_domainId := 1;
                     o_displayName := None; o_addresses := None;
                     o_sparkPublicKey := None |} 4 exampleAdmin
                  (lookupRequest "Dave") exampleDomain _ _ _ _ _ _ _)));
    try (vm_compute; reflexivity).
  intros H. vm_compute in H. discriminate H.
Defined.

(** A second POST for alice is answered 500, not 409. *)
Lemma existing_user_is_reported_witness :
  snd (postUser 1 (Some "alice") None None None 4 exampleAdmin) = exampleAdmin
  /\ fst (postUser 1 (Some "alice") None None None 4 exampleAdmin)
     = {| a_status := 500;
          a_body := AdminError "Internal Server Error"
                      (userExistsMessage "alice") |}.
Proof.
  destruct (existing_user_is_reported 1 "alice" None None None 4 exampleAdmin
              alice)
    as (Hstore & _ & Hreply & _).
  - vm_compute. reflexivity.
  - vm_compute. reflexivity.
  - split; [exact Hstore|]. apply Hreply. vm_compute. reflexivity.
Defined.

Lemma enrich_layers_agree_witness :
  exists e,
    enrichUserWithAddresses alice exampleWorld = (inr e, exampleWorld)
    /\ eu_settlementOptions e = ["ethereum"; "spark"; "polygon"; "dogecoin"].
Proof.
  destruct (enrich_layers_agree alice exampleWorld) as [(e & Hcall & _) _].
  - vm_compute. repeat constructor.
  - exists e. split; [exact Hcall|].
    vm_compute in Hcall. injection Hcall as <-. reflexivity.
Defined.
